(** * BetterWinDocs: the asynchronous lookup subsystem

    A shallow embedding of [sidebar.py] (name normalisation, the on-disk
    documentation cache, the scraper worker and the sidebar's request
    coordinator) and of [api.py] (the learn.microsoft.com scraper), with the
    properties of the subsystem proved over it.

    Conventions.
    - A Python [str] is a [string]; a character is a code point below 256
      and the predicates [str.isspace], [str.isdigit] and [str.islower]
      are Python's Unicode tables restricted to that range.
    - A value produced by [json.load] is a [json]; a [dict] is a [gmap].
    - The file system, the network and the host application are explicit
      arguments: every function is a pure function of them. *)

From stdpp Require Import gmap strings list fin_maps.
From Stdlib Require Import ZArith Ascii String List.
Import ListNotations.

Local Open Scope string_scope.
Local Open Scope Z_scope.
#[local] Set Warnings "-register-all".

(** ** Python string methods *)

Module PyStr.

Definition code (c : ascii) : N := N_of_ascii c.

Definition in_range (lo hi : N) (c : ascii) : bool :=
  ((lo <=? code c) && (code c <=? hi))%N.

(** [str.isspace] on one character: TAB..CR, FS..US, space, NEL, NBSP. *)
Definition isspace (c : ascii) : bool :=
  in_range 9 13 c || in_range 28 32 c || in_range 133 133 c || in_range 160 160 c.

(** [str.isdigit] on one character: 0..9 and the superscripts 1, 2, 3. *)
Definition isdigit_char (c : ascii) : bool :=
  in_range 48 57 c || in_range 178 179 c || in_range 185 185 c.

(** [str.islower] on one character. *)
Definition islower_char (c : ascii) : bool :=
  in_range 97 122 c || in_range 170 170 c || in_range 181 181 c
  || in_range 186 186 c || in_range 223 246 c || in_range 248 255 c.

Definition is_empty (s : string) : bool :=
  match s with EmptyString => true | String _ _ => false end.

(** Truthiness of a [str]: [bool(s)]. *)
Definition truthy (s : string) : bool := negb (is_empty s).

Fixpoint lstrip (s : string) : string :=
  match s with
  | EmptyString => EmptyString
  | String c s' => if isspace c then lstrip s' else s
  end.

Fixpoint rstrip (s : string) : string :=
  match s with
  | EmptyString => EmptyString
  | String c s' =>
      let r := rstrip s' in
      if is_empty r && isspace c then EmptyString else String c r
  end.

(** [s.strip()] *)
Definition strip (s : string) : string := rstrip (lstrip s).

(** [c in s] for a one-character [c]. *)
Fixpoint contains_char (c : ascii) (s : string) : bool :=
  match s with
  | EmptyString => false
  | String a s' => if Ascii.eqb a c then true else contains_char c s'
  end.

(** [s.split(c, 1)[1]] when [c in s]: what follows the first [c]. *)
Fixpoint after_first (c : ascii) (s : string) : string :=
  match s with
  | EmptyString => EmptyString
  | String a s' => if Ascii.eqb a c then s' else after_first c s'
  end.

(** [s.rsplit(c, 1)] when [c in s]: the text before and after the last [c]. *)
Fixpoint rsplit1 (c : ascii) (s : string) : string * string :=
  match s with
  | EmptyString => (EmptyString, EmptyString)
  | String a s' =>
      if contains_char c s' then
        let '(b, m) := rsplit1 c s' in (String a b, m)
      else if Ascii.eqb a c then (EmptyString, s')
      else (s, EmptyString)
  end.

Fixpoint all_chars (p : ascii -> bool) (s : string) : bool :=
  match s with
  | EmptyString => true
  | String a s' => p a && all_chars p s'
  end.

(** [s.isdigit()]: at least one character and all of them digits. *)
Definition isdigit (s : string) : bool := truthy s && all_chars isdigit_char s.

(** [s.startswith(p)] *)
Definition startswith (s p : string) : bool := String.prefix p s.

(** [s.endswith(p)] for a one-character [p]. *)
Fixpoint endswith_char (s : string) (c : ascii) : bool :=
  match s with
  | EmptyString => false
  | String a EmptyString => Ascii.eqb a c
  | String _ s' => endswith_char s' c
  end.

(** [s[-1]] *)
Fixpoint last_char (s : string) : option ascii :=
  match s with
  | EmptyString => None
  | String a EmptyString => Some a
  | String _ s' => last_char s'
  end.

(** [s[:-1]] *)
Fixpoint drop_last (s : string) : string :=
  match s with
  | EmptyString => EmptyString
  | String _ EmptyString => EmptyString
  | String a s' => String a (drop_last s')
  end.

(** [s[n:]] *)
Fixpoint drop (n : nat) (s : string) : string :=
  match n, s with
  | O, _ => s
  | S n', String _ s' => drop n' s'
  | S _, EmptyString => EmptyString
  end.

(** [p in s] *)
Fixpoint contains (p s : string) : bool :=
  String.prefix p s
  || match s with
     | EmptyString => false
     | String _ s' => contains p s'
     end.

(** [sep.join(l)] *)
Fixpoint join (sep : string) (l : list string) : string :=
  match l with
  | [] => EmptyString
  | [x] => x
  | x :: l' => x ++ sep ++ join sep l'
  end.

Definition nl : string := String (ascii_of_nat 10) EmptyString.

End PyStr.

(** ** [sidebar.py]: name normalisation *)

Definition _normalize_symbol_name (name : string) : string :=
  if negb (PyStr.truthy name) then ""
  else
    let s := PyStr.strip name in
    let s := if PyStr.contains_char "!" s
             then PyStr.strip (PyStr.after_first "!" s) else s in
    let s := if PyStr.startswith s "__imp_"
             then PyStr.drop (String.length "__imp_") s else s in
    let s := if PyStr.startswith s "_" then PyStr.drop 1 s else s in
    let s := if PyStr.contains_char "@" s
             then let '(base, maybe) := PyStr.rsplit1 "@" s in
                  if PyStr.isdigit maybe then base else s
             else s in
    PyStr.strip s.

Definition _looks_like_local (name : string) : bool :=
  negb (PyStr.truthy name)
  || PyStr.startswith name "sub_" || PyStr.startswith name "j_sub_".

(** ** Values read from and written to the cache file *)

(** What [json.load] returns: [None], [bool], [int], [float] (its 64 bits),
    [str], [list] or [dict]. *)
Inductive json : Type :=
| JNull
| JBool (b : bool)
| JInt (z : Z)
| JFloat (bits : Z)
| JStr (s : string)
| JArr (l : list json)
| JObj (m : gmap string json).

Module Py.

(** [bool(v)] *)
Definition truthy (v : json) : bool :=
  match v with
  | JNull => false
  | JBool b => b
  | JInt z => negb (z =? 0)
  | JFloat bits => negb (bits mod 2 ^ 63 =? 0)
  | JStr s => PyStr.truthy s
  | JArr l => match l with [] => false | _ :: _ => true end
  | JObj m => negb (bool_decide (m = ∅))
  end.

(** [v or d] *)
Definition or_else (v d : json) : json := if truthy v then v else d.

(** [d.get(k)]: an absent key gives [None]. *)
Definition dict_get (d : gmap string json) (k : string) : json :=
  default JNull (d !! k).

(** [d.get(k, dflt)] *)
Definition dict_get_default (d : gmap string json) (k : string) (dflt : json) : json :=
  default dflt (d !! k).

(** [v is True], [v is False] *)
Definition is_True (v : json) : bool :=
  match v with JBool true => true | _ => false end.
Definition is_False (v : json) : bool :=
  match v with JBool false => true | _ => false end.

End Py.

(** ** The file system and [os.path] *)

(** The text of a file, as far as [json.load] can tell: either the
    serialisation of a value, or something that cannot be read as JSON (an
    empty or truncated file, a directory, an unreadable file). *)
Inductive fcontent : Type :=
| Unparsable
| Doc (v : json).

(** A file system maps the paths that exist to their contents. *)
Abbreviation filesystem := (gmap string fcontent).

Inductive os_op : Type := Makedirs | Mkstemp | Dump | Replace | Remove.

Inductive exn : Type :=
| OSError (op : os_op)
| AttributeError
| TypeError
| RequestException.

(** What the operating system decides: which calls fail, and the random
    infixes [tempfile] draws. *)
Record os_env : Type := {
  makedirs_ok : bool;
  tmp_names : list string;
  dump_ok : bool;
  replace_ok : bool;
  remove_ok : bool
}.

(** The mutations of the file system, in the order they happen. *)
Inductive fs_op : Type :=
| OpCreate (p : string)
| OpWrite (p : string) (c : fcontent)
| OpReplace (src dst : string)
| OpRemove (p : string).

Definition apply_op (op : fs_op) (fs : filesystem) : filesystem :=
  match op with
  | OpCreate p => <[p := Unparsable]> fs
  | OpWrite p c => <[p := c]> fs
  | OpReplace src dst =>
      match fs !! src with
      | Some c => <[dst := c]> (delete src fs)
      | None => fs
      end
  | OpRemove p => delete p fs
  end.

(** The file system after each mutation of a trace, oldest first. *)
Fixpoint states_after (ops : list fs_op) (fs : filesystem) : list filesystem :=
  match ops with
  | [] => []
  | op :: ops' => apply_op op fs :: states_after ops' (apply_op op fs)
  end.

Module PosixPath.

(** [p.rstrip("/")] *)
Fixpoint rstrip_sep (p : string) : string :=
  match p with
  | EmptyString => EmptyString
  | String c p' =>
      let r := rstrip_sep p' in
      if PyStr.is_empty r && Ascii.eqb c "/" then EmptyString else String c r
  end.

(** [p[:p.rfind("/") + 1]] *)
Fixpoint head_of (p : string) : string :=
  match p with
  | EmptyString => EmptyString
  | String c p' =>
      if PyStr.contains_char "/" p' then String c (head_of p')
      else if Ascii.eqb c "/" then String c EmptyString
      else EmptyString
  end.

(** [os.path.dirname] *)
Definition dirname (p : string) : string :=
  let head := head_of p in
  if PyStr.truthy head && negb (PyStr.all_chars (fun c => Ascii.eqb c "/") head)
  then rstrip_sep head else head.

(** [os.path.join(a, b)] *)
Definition join (a b : string) : string :=
  if PyStr.startswith b "/" then b
  else if negb (PyStr.truthy a) || PyStr.endswith_char a "/" then a ++ b
  else a ++ "/" ++ b.

End PosixPath.

(** ** Effects: a state threaded through calls that may raise *)

Definition Eff (S A : Type) : Type := S -> S * (exn + A).

Definition ret {S A} (x : A) : Eff S A := fun s => (s, inr x).

Definition raise {S A} (e : exn) : Eff S A := fun s => (s, inl e).

Definition bind {S A B} (m : Eff S A) (k : A -> Eff S B) : Eff S B :=
  fun s =>
    match m s with
    | (s', inl e) => (s', inl e)
    | (s', inr x) => k x s'
    end.

Definition get {S} : Eff S S := fun s => (s, inr s).

Definition modify {S} (f : S -> S) : Eff S unit := fun s => (f s, inr tt).

Notation "x <~ m ;; k" := (bind m (fun x => k))
  (at level 100, m at next level, right associativity).
Notation "m ;;; k" := (bind m (fun _ => k))
  (at level 100, right associativity).

(** [try: body finally: final]: [final] always runs, and an exception of
    [final] replaces the outcome of [body]. *)
Definition try_finally {S A} (body : Eff S A) (final : Eff S unit) : Eff S A :=
  fun s =>
    let '(s1, r) := body s in
    match final s1 with
    | (s2, inl e) => (s2, inl e)
    | (s2, inr _) => (s2, r)
    end.

(** [try: body except OSError: handler] *)
Definition try_except_OSError {S} (body handler : Eff S unit) : Eff S unit :=
  fun s =>
    match body s with
    | (s1, inl (OSError _)) => handler s1
    | out => out
    end.

(** ** Operating-system calls: the file system and the trace of its
    mutations *)

Record os_state : Type := {
  files : filesystem;
  trace : list fs_op
}.

Abbreviation OS := (Eff os_state).

Definition mutate (op : fs_op) : OS unit :=
  fun s =>
    ({| files := apply_op op (files s); trace := (trace s ++ [op])%list |}, inr tt).

Definition exists_in (fs : filesystem) (p : string) : bool :=
  bool_decide (is_Some (fs !! p)).

(** [os.makedirs(d, exist_ok=True)]; the empty path is always refused. *)
Definition os_makedirs (env : os_env) (d : string) : OS unit :=
  if negb (PyStr.truthy d) || negb (makedirs_ok env)
  then raise (OSError Makedirs) else ret tt.

(** The first candidate name that does not exist yet ([O_EXCL]). *)
Fixpoint first_fresh (fs : filesystem) (dir pre suf : string)
    (names : list string) : option string :=
  match names with
  | [] => None
  | n :: rest =>
      let file := PosixPath.join dir (pre ++ n ++ suf) in
      if exists_in fs file then first_fresh fs dir pre suf rest else Some file
  end.

(** [tempfile.mkstemp(prefix=pre, suffix=suf, dir=dir)]: creates an empty
    file and returns its path. *)
Definition tempfile_mkstemp (env : os_env) (pre suf dir : string) : OS string :=
  fun s =>
    match first_fresh (files s) dir pre suf (tmp_names env) with
    | None => (s, inl (OSError Mkstemp))
    | Some file => (mutate (OpCreate file) ;;; ret file) s
    end.

(** [with os.fdopen(fd, "w") as f: json.dump(obj, f)]: when the write
    fails the file keeps a truncated text. The strings of the model are
    code points below 256, which the utf-8 file always encodes, so the
    encoder has no failure of its own here: a string with a lone surrogate,
    on which [json.dump(..., ensure_ascii=False)] raises
    [UnicodeEncodeError], is outside the model. *)
Definition json_dump_to (env : os_env) (tmp : string) (obj : json) : OS unit :=
  if dump_ok env then mutate (OpWrite tmp (Doc obj))
  else mutate (OpWrite tmp Unparsable) ;;; raise (OSError Dump).

(** [os.replace(src, dst)] *)
Definition os_replace (env : os_env) (src dst : string) : OS unit :=
  fun s =>
    if replace_ok env && exists_in (files s) src
    then mutate (OpReplace src dst) s
    else (s, inl (OSError Replace)).

(** [os.path.exists(p)] *)
Definition os_path_exists (p : string) : OS bool :=
  fun s => (s, inr (exists_in (files s) p)).

(** [os.remove(p)] *)
Definition os_remove (env : os_env) (p : string) : OS unit :=
  fun s =>
    if remove_ok env && exists_in (files s) p
    then mutate (OpRemove p) s
    else (s, inl (OSError Remove)).

(** ** [sidebar.py]: the cache file *)

(** The [finally] block of [_atomic_write_json]. *)
Definition _atomic_write_cleanup (env : os_env) (tmp : string) : OS unit :=
  try_except_OSError
    (b <~ os_path_exists tmp ;;
     if b then os_remove env tmp else ret tt)
    (ret tt).

Definition _atomic_write_json (env : os_env) (path : string) (obj : json) : OS unit :=
  let d := PosixPath.dirname path in
  os_makedirs env d ;;;
  tmp <~ tempfile_mkstemp env "windoc_" ".json" d ;;
  try_finally
    (json_dump_to env tmp obj ;;;
     os_replace env tmp path)
    (_atomic_write_cleanup env tmp).

(** ** [api.py]: the learn.microsoft.com scraper *)

Definition SEARCH_BASE : string := "https://learn.microsoft.com/api/search".
Definition DOCS_HOST : string := "https://learn.microsoft.com".

(** One element of the search response's [results]: [res.get("title")] and
    [res.get("url")], [None] when the key is absent or null. *)
Record search_hit : Type := {
  hit_title : option string;
  hit_url : option string
}.

(** What the scraper asks of a parsed page. For an [h2]: its stripped text,
    the text of the next [pre] and the text of the next element. For a [p]:
    the stripped text of the previous [h2] and its own text. *)
Record h2_tag : Type := {
  h2_text : string;
  h2_next_pre : option string;
  h2_next : option string
}.

Record p_tag : Type := {
  p_prev_h2 : option string;
  p_text : string
}.

Record BeautifulSoup : Type := {
  og_description : option string;
  h2_tags : list h2_tag;
  p_tags : list p_tag
}.

(** The remote site: the answer to a search and to a page request, [None]
    when the request raises (transport, HTTP status, decoding). *)
Record network : Type := {
  net_search : string -> option (list search_hit);
  net_page : string -> option BeautifulSoup
}.

Inductive request : Type :=
| GetSearch (name : string)
| GetPage (url : string).

Record MSFTLearnScrapper : Type := {
  requested_name : string;
  resolved_name : option string;
  soup : option BeautifulSoup;
  h2_titles : gmap string (list string)
}.

(** The scraper under construction and the requests sent so far. *)
Record scr_state : Type := {
  self : MSFTLearnScrapper;
  sent : list request
}.

Definition send (r : request) : Eff scr_state unit :=
  modify (fun s => {| self := self s; sent := (sent s ++ [r])%list |}).

Definition update_self (f : MSFTLearnScrapper -> MSFTLearnScrapper)
  : Eff scr_state unit :=
  modify (fun s => {| self := f (self s); sent := sent s |}).

(** [session.get(SEARCH_BASE, ...)], [raise_for_status()], [json()] and
    [json_data.get("results") or []]. *)
Definition search_results (net : network) (name : string)
  : Eff scr_state (list search_hit) :=
  send (GetSearch name) ;;;
  match net_search net name with
  | None => raise RequestException
  | Some results => ret results
  end.

(** [BeautifulSoup(session.get(url).content)] *)
Definition get_soup (net : network) (url : string) : Eff scr_state BeautifulSoup :=
  send (GetPage url) ;;;
  match net_page net url with
  | None => raise RequestException
  | Some page => ret page
  end.

(** The loop over [results] of [_init_from_name], up to its [break]. *)
Fixpoint select_url (name : string) (results : list search_hit) : option string :=
  match results with
  | [] => None
  | res :: rest =>
      let title := PyStr.strip (default "" (hit_title res)) in
      let candidate_url := PyStr.strip (default "" (hit_url res)) in
      if negb (PyStr.truthy candidate_url) then select_url name rest
      else
        let candidate_url :=
          if PyStr.startswith candidate_url "/"
          then DOCS_HOST ++ candidate_url else candidate_url in
        if negb (PyStr.contains "/windows/win32/api/" candidate_url)
        then select_url name rest
        else if negb (PyStr.startswith title name) then select_url name rest
        else
          let end_ := String.length name in
          if (end_ <? String.length title)%nat
             && match String.get end_ title with
                | Some c => PyStr.islower_char c
                | None => false
                end
          then select_url name rest
          else Some candidate_url
  end.

(** The loop over [soup.select("p")] filling [h2_titles]. *)
Definition collect_paragraphs (ps : list p_tag) : gmap string (list string) :=
  fold_left
    (fun (acc : gmap string (list string)) p =>
       match p_prev_h2 p with
       | None => acc
       | Some key =>
           if negb (PyStr.truthy (p_text p)) then acc
           else <[key := (default [] (acc !! key) ++ [p_text p])%list]> acc
       end)
    ps ∅.

Definition _init_from_name (net : network) (name : string) : Eff scr_state unit :=
  results <~ search_results net name ;;
  match results with
  | [] => ret tt
  | _ :: _ =>
      match select_url name results with
      | None => ret tt
      | Some url =>
          if negb (PyStr.truthy url) then ret tt
          else
            page <~ get_soup net url ;;
            update_self (fun me =>
              {| requested_name := requested_name me;
                 resolved_name := resolved_name me;
                 soup := Some page;
                 h2_titles := collect_paragraphs (p_tags page) |})
      end
  end.

Definition set_resolved (r : string) : Eff scr_state unit :=
  update_self (fun me =>
    {| requested_name := requested_name me;
       resolved_name := Some r;
       soup := soup me;
       h2_titles := h2_titles me |}).

Definition is_char (o : option ascii) (c : ascii) : bool :=
  match o with Some a => Ascii.eqb a c | None => false end.

(** [MSFTLearnScrapper.__init__], run from the fresh object. *)
Definition MSFTLearnScrapper_init (net : network) (function : string)
  : Eff scr_state unit :=
  _init_from_name net function ;;;
  s <~ get ;;
  if bool_decide (is_Some (soup (self s))) then set_resolved function
  else if PyStr.truthy function
          && (is_char (PyStr.last_char function) "A"
              || is_char (PyStr.last_char function) "W")
  then
    let base := PyStr.drop_last function in
    _init_from_name net base ;;;
    s <~ get ;;
    if bool_decide (is_Some (soup (self s))) then
      if PyStr.endswith_char function "A"
      then set_resolved (base ++ "W")
      else set_resolved function
    else ret tt
  else ret tt.

Definition new_scrapper (function : string) : scr_state :=
  {| self := {| requested_name := function; resolved_name := None;
                soup := None; h2_titles := ∅ |};
     sent := [] |}.

(** [MSFTLearnScrapper(function)]: the object or the exception raised, and
    the requests sent. *)
Definition MSFTLearnScrapper_new (net : network) (function : string)
  : list request * (exn + MSFTLearnScrapper) :=
  match MSFTLearnScrapper_init net function (new_scrapper function) with
  | (s, inl e) => (sent s, inl e)
  | (s, inr _) => (sent s, inr (self s))
  end.

Fixpoint syntax_of_h2s (hs : list h2_tag) : option string :=
  match hs with
  | [] => None
  | h2 :: rest =>
      if String.eqb (h2_text h2) "Syntax" then
        match h2_next_pre h2 with
        | Some pre => Some pre
        | None => h2_next h2
        end
      else syntax_of_h2s rest
  end.

Definition get_syntax (me : MSFTLearnScrapper) : option string :=
  match soup me with
  | None => None
  | Some page => syntax_of_h2s (h2_tags page)
  end.

Definition found_function_docs (me : MSFTLearnScrapper) : bool :=
  bool_decide (is_Some (get_syntax me)).

Definition resolution_note (resolved requested : string) : string :=
  "[Docs resolved to: " ++ resolved ++ " (requested: " ++ requested ++ ")]"
  ++ PyStr.nl ++ PyStr.nl.

Definition get_description (me : MSFTLearnScrapper) (check : bool) : string :=
  match soup me with
  | None => "No Win32 docs found for " ++ requested_name me
  | Some page =>
      if check && negb (bool_decide (is_Some (get_syntax me))) then ""
      else
        let base_desc :=
          match og_description page with
          | Some c => if PyStr.truthy c then c else ""
          | None => ""
          end in
        let note :=
          match resolved_name me with
          | Some r =>
              if PyStr.truthy r && negb (String.eqb r (requested_name me))
              then resolution_note r (requested_name me) else ""
          | None => ""
          end in
        note ++ base_desc
  end.

Definition get_parameters (me : MSFTLearnScrapper) : option (list string) :=
  h2_titles me !! "Parameters".

Definition get_return_value (me : MSFTLearnScrapper) : option (list string) :=
  h2_titles me !! "Return value".

(** ** [sidebar.py]: the scraper worker *)

Record ScrapperThread : Type := {
  function_name : string;
  req_id : Z;
  cache_file : string;
  success : bool;
  syntax : json;
  description : json;
  return_value : json
}.

(** [ScrapperThread.__init__] *)
Definition ScrapperThread_new (function_name : string) (req_id : Z)
    (cache_file : string) : ScrapperThread :=
  {| function_name := function_name; req_id := req_id;
     cache_file := cache_file; success := false;
     syntax := JStr ""; description := JStr ""; return_value := JStr "" |}.

Definition set_outcome (me : ScrapperThread) (ok : bool) (syn desc rv : json)
  : ScrapperThread :=
  {| function_name := function_name me; req_id := req_id me;
     cache_file := cache_file me; success := ok;
     syntax := syn; description := desc; return_value := rv |}.

Definition set_success (me : ScrapperThread) (ok : bool) : ScrapperThread :=
  set_outcome me ok (syntax me) (description me) (return_value me).

(** The value of [cache] after the guarded [json.load(f) or {}]: a missing
    or unreadable file gives the empty dict, and so does a falsy document. *)
Definition read_cache (fs : filesystem) (path : string) : json :=
  match fs !! path with
  | None => JObj ∅
  | Some Unparsable => JObj ∅
  | Some (Doc v) => Py.or_else v (JObj ∅)
  end.

(** The first locked block of [run]: [Some] is an early [return] with the
    cached outcome, [None] falls through to the query; [cache.get] raises
    on a document that is not a dict. *)
Definition lookup_cached (me : ScrapperThread) (cache : json)
  : exn + option ScrapperThread :=
  match cache with
  | JObj m =>
      match Py.dict_get m (function_name me) with
      | JObj entry =>
          if Py.is_False (Py.dict_get entry "found")
          then inr (Some (set_success me false))
          else if Py.is_True (Py.dict_get entry "found")
          then inr (Some (set_outcome me true
                 (Py.or_else (Py.dict_get_default entry "syntax" (JStr "")) (JStr ""))
                 (Py.or_else (Py.dict_get_default entry "description" (JStr "")) (JStr ""))
                 (Py.or_else (Py.dict_get_default entry "return_value" (JStr "")) (JStr ""))))
          else inr None
      | _ => inr None
      end
  | _ => inl AttributeError
  end.

(** The [try] block of [run]: the requests sent and the worker after it. *)
Definition query_docs (net : network) (me : ScrapperThread)
  : list request * ScrapperThread :=
  match MSFTLearnScrapper_new net (function_name me) with
  | (reqs, inl _) => (reqs, set_success me false)
  | (reqs, inr scr) =>
      if negb (bool_decide (is_Some (soup scr))) || negb (found_function_docs scr)
      then (reqs, set_success me false)
      else
        (reqs,
         set_outcome me true
           (JStr (default "" (get_syntax scr)))
           (JStr (get_description scr true))
           (JStr (PyStr.strip
                    (PyStr.join PyStr.nl (default [] (get_return_value scr))))))
  end.

(** The dict stored under the function name. *)
Definition cache_entry (me : ScrapperThread) : json :=
  JObj {[ "found" := JBool (success me);
          "syntax" := syntax me;
          "description" := description me;
          "return_value" := return_value me ]}.

(** The second locked block of [run]; item assignment raises on a document
    that is not a dict. *)
Definition write_cache (env : os_env) (me : ScrapperThread) : OS unit :=
  s <~ get ;;
  match read_cache (files s) (cache_file me) with
  | JObj m =>
      _atomic_write_json env (cache_file me)
        (JObj (<[function_name me := cache_entry me]> m))
  | _ => raise TypeError
  end.

Record run_result : Type := {
  worker : ScrapperThread;
  os_after : os_state;
  requests : list request;
  raised : option exn
}.

(** [ScrapperThread.run], with no other writer of the cache file between
    its two locked blocks. *)
Definition run (env : os_env) (net : network) (me : ScrapperThread)
    (s : os_state) : run_result :=
  if negb (PyStr.truthy (function_name me))
  then {| worker := me; os_after := s; requests := []; raised := None |}
  else
    match lookup_cached me (read_cache (files s) (cache_file me)) with
    | inl e => {| worker := me; os_after := s; requests := []; raised := Some e |}
    | inr (Some me') =>
        {| worker := me'; os_after := s; requests := []; raised := None |}
    | inr None =>
        let '(reqs, me') := query_docs net me in
        match write_cache env me' s with
        | (s', inl e) =>
            {| worker := me'; os_after := s'; requests := reqs; raised := Some e |}
        | (s', inr _) =>
            {| worker := me'; os_after := s'; requests := reqs; raised := None |}
        end
    end.

(** The arguments [finish] hands to the completion callback. *)
Record completion : Type := {
  got_req_id : Z;
  func_name : string;
  got_success : bool;
  got_syntax : json;
  got_desc : json;
  got_rv : json
}.

Definition finish (me : ScrapperThread) : completion :=
  {| got_req_id := req_id me; func_name := function_name me;
     got_success := success me; got_syntax := syntax me;
     got_desc := description me; got_rv := return_value me |}.

(** ** [sidebar.py]: the sidebar widget as request coordinator *)

(** [binaryninja.enums.SymbolType] *)
Inductive SymbolType : Type :=
| FunctionSymbol
| ImportAddressSymbol
| ImportedFunctionSymbol
| DataSymbol
| ImportedDataSymbol
| ExternalSymbol
| LibraryFunctionSymbol
| SymbolicFunctionSymbol
| LocalLabelSymbol.

Record symbol : Type := {
  sym_type : SymbolType;
  sym_name : string
}.

Definition _is_imported_function_symbol (sym : option symbol) : bool :=
  match sym with
  | None => false
  | Some sy =>
      match sym_type sy with
      | ImportedFunctionSymbol | ImportAddressSymbol => true
      | _ => false
      end
  end.

(** What the host answers during one [on_xref_selection]: whether the frame
    gives a binary view, [selection.func.symbol], [selection.addrValid],
    [selection.offset], [selection.start] and [bv.get_symbol_at]. *)
Record xref_selection : Type := {
  has_view : bool;
  func_symbol : option symbol;
  addrValid : bool;
  offset : Z;
  start : Z;
  get_symbol_at : Z -> option symbol
}.

(** [candidate_name] when [on_xref_selection] reaches the local-name test. *)
Definition candidate_name (sel : xref_selection) : string :=
  let c :=
    match func_symbol sel with
    | Some sy =>
        if _is_imported_function_symbol (Some sy)
        then _normalize_symbol_name (sym_name sy) else ""
    | None => ""
    end in
  let c :=
    if negb (PyStr.truthy c) then
      if addrValid sel then
        let addr := if negb (offset sel =? 0) then offset sel else start sel in
        if negb (addr =? 0) then
          let sy := get_symbol_at sel addr in
          if _is_imported_function_symbol sy
          then _normalize_symbol_name (default "" (sym_name <$> sy)) else c
        else c
      else c
    else c in
  PyStr.strip c.

Inductive label : Type := LFunction | LSyntax | LDescription | LRetval.

(** One [QLabel.setText] call. *)
Inductive ui_call : Type := SetText (w : label) (text : string).

Record labels : Type := {
  _function : string;
  _syntax : string;
  _description : string;
  _retval : string
}.

Definition set_label (w : label) (text : string) (ls : labels) : labels :=
  match w with
  | LFunction =>
      {| _function := text; _syntax := _syntax ls;
         _description := _description ls; _retval := _retval ls |}
  | LSyntax =>
      {| _function := _function ls; _syntax := text;
         _description := _description ls; _retval := _retval ls |}
  | LDescription =>
      {| _function := _function ls; _syntax := _syntax ls;
         _description := text; _retval := _retval ls |}
  | LRetval =>
      {| _function := _function ls; _syntax := _syntax ls;
         _description := _description ls; _retval := text |}
  end.

(** The widget: its attributes, and what an observer records of it: the
    workers started and cancelled, the [setText] calls, and the closures
    handed to [execute_on_main_thread] that have not run yet. *)
Record WinDocSidebar : Type := {
  _req_id : Z;
  _worker : option ScrapperThread;
  _timeout : option Z;
  _labels : labels;
  _cache_file : string;
  started : list ScrapperThread;
  cancelled : list ScrapperThread;
  ui_calls : list ui_call;
  main_thread : list completion
}.

Definition timer_ms : Z := 4000.

Definition timed_out_text : string := "Timed out while fetching docs.".

(** [WinDocSidebar.__init__] *)
Definition WinDocSidebar_new (cache_path : string) : WinDocSidebar :=
  {| _req_id := 0; _worker := None; _timeout := None;
     _labels := {| _function := ""; _syntax := "";
                   _description := ""; _retval := "" |};
     _cache_file := cache_path;
     started := []; cancelled := []; ui_calls := []; main_thread := [] |}.

Definition with_req_id (n : Z) (st : WinDocSidebar) : WinDocSidebar :=
  {| _req_id := n; _worker := _worker st; _timeout := _timeout st;
     _labels := _labels st; _cache_file := _cache_file st;
     started := started st; cancelled := cancelled st;
     ui_calls := ui_calls st; main_thread := main_thread st |}.

Definition with_timeout (t : option Z) (st : WinDocSidebar) : WinDocSidebar :=
  {| _req_id := _req_id st; _worker := _worker st; _timeout := t;
     _labels := _labels st; _cache_file := _cache_file st;
     started := started st; cancelled := cancelled st;
     ui_calls := ui_calls st; main_thread := main_thread st |}.

(** [self._worker = None] *)
Definition clear_worker (st : WinDocSidebar) : WinDocSidebar :=
  {| _req_id := _req_id st; _worker := None; _timeout := _timeout st;
     _labels := _labels st; _cache_file := _cache_file st;
     started := started st; cancelled := cancelled st;
     ui_calls := ui_calls st; main_thread := main_thread st |}.

(** [self._worker.cancel()]: the task is flagged, nothing else. *)
Definition cancel (w : ScrapperThread) (st : WinDocSidebar) : WinDocSidebar :=
  {| _req_id := _req_id st; _worker := _worker st; _timeout := _timeout st;
     _labels := _labels st; _cache_file := _cache_file st;
     started := started st; cancelled := (cancelled st ++ [w])%list;
     ui_calls := ui_calls st; main_thread := main_thread st |}.

(** [self._worker = w; self._timeout.start(ms); self._worker.start()] *)
Definition start_worker (w : ScrapperThread) (ms : Z) (st : WinDocSidebar)
  : WinDocSidebar :=
  {| _req_id := _req_id st; _worker := Some w; _timeout := Some ms;
     _labels := _labels st; _cache_file := _cache_file st;
     started := (started st ++ [w])%list; cancelled := cancelled st;
     ui_calls := ui_calls st; main_thread := main_thread st |}.

(** [label.setText(text)] *)
Definition setText (w : label) (text : string) (st : WinDocSidebar)
  : WinDocSidebar :=
  {| _req_id := _req_id st; _worker := _worker st; _timeout := _timeout st;
     _labels := set_label w text (_labels st); _cache_file := _cache_file st;
     started := started st; cancelled := cancelled st;
     ui_calls := (ui_calls st ++ [SetText w text])%list;
     main_thread := main_thread st |}.

Definition with_main_thread (q : list completion) (st : WinDocSidebar)
  : WinDocSidebar :=
  {| _req_id := _req_id st; _worker := _worker st; _timeout := _timeout st;
     _labels := _labels st; _cache_file := _cache_file st;
     started := started st; cancelled := cancelled st;
     ui_calls := ui_calls st; main_thread := q |}.

Definition cancel_current (st : WinDocSidebar) : WinDocSidebar :=
  match _worker st with
  | Some w => clear_worker (cancel w st)
  | None => st
  end.

Definition _cancel_worker (st : WinDocSidebar) : WinDocSidebar :=
  with_timeout None (cancel_current st).

Definition _on_timeout (st : WinDocSidebar) : WinDocSidebar :=
  setText LSyntax timed_out_text (cancel_current st).

Definition on_xref_selection (sel : xref_selection) (st : WinDocSidebar)
  : WinDocSidebar :=
  let st := _cancel_worker st in
  let st := with_req_id (_req_id st + 1) st in
  let req_id := _req_id st in
  if negb (has_view sel) then st
  else
    let candidate := candidate_name sel in
    if _looks_like_local candidate then st
    else start_worker (ScrapperThread_new candidate req_id (_cache_file st))
           timer_ms st.

(** The text a [setText(v or "")] call shows; [setText] raises on a value
    that is not a [str]. *)
Definition text_of (v : json) : option string :=
  match Py.or_else v (JStr "") with
  | JStr s => Some s
  | _ => None
  end.

(** The [setText] calls of [_apply], stopping at the first that raises. *)
Fixpoint set_texts (calls : list (label * json)) (st : WinDocSidebar)
  : WinDocSidebar :=
  match calls with
  | [] => st
  | (w, v) :: rest =>
      match text_of v with
      | Some s => set_texts rest (setText w s st)
      | None => st
      end
  end.

Definition doc_fields (c : completion) : list (label * json) :=
  [ (LFunction, JStr (func_name c)); (LSyntax, got_syntax c);
    (LDescription, got_desc c); (LRetval, got_rv c) ].

(** The closure [_apply] of [on_done], for the completion it captured. *)
Definition _apply (c : completion) (st : WinDocSidebar) : WinDocSidebar :=
  let st := clear_worker (with_timeout None st) in
  if negb (got_success c) then st
  else set_texts (doc_fields c) st.

(** The callback [on_done]: a stale completion is dropped, a current one is
    handed to the main thread. *)
Definition on_done (c : completion) (st : WinDocSidebar) : WinDocSidebar :=
  if negb (got_req_id c =? _req_id st) then st
  else with_main_thread (main_thread st ++ [c])%list st.

(** What can happen to the widget: a selection, the timer, a worker's
    [finish] calling [on_done], and the main thread running the oldest
    closure handed to [execute_on_main_thread]. The timer is single-shot:
    it fires only while armed and is inactive afterwards. A worker calls
    [finish] whether or not it was cancelled: [cancel] only flags the task
    and [run] never reads the flag. *)
Inductive event : Type :=
| XrefSelection (sel : xref_selection)
| TimeoutFires
| WorkerFinished (c : completion)
| MainThreadRuns.

Definition step (st : WinDocSidebar) (ev : event) : WinDocSidebar :=
  match ev with
  | XrefSelection sel => on_xref_selection sel st
  | TimeoutFires =>
      match _timeout st with
      | Some _ => _on_timeout (with_timeout None st)
      | None => st
      end
  | WorkerFinished c => on_done c st
  | MainThreadRuns =>
      match main_thread st with
      | [] => st
      | c :: q => _apply c (with_main_thread q st)
      end
  end.

Definition run_events (st : WinDocSidebar) (evs : list event) : WinDocSidebar :=
  fold_left step evs st.

(** * Vocabulary of the properties

    Definitions used to state the properties: observations on traces, the
    selection rule in the words of the specification, and the concrete
    hosts, sites and disks on which the statements are exercised. *)

(** ** Observations on the coordinator *)

(** The [setText] calls a list of fields produces. *)
Fixpoint texts_shown (calls : list (label * json)) : list ui_call :=
  match calls with
  | [] => []
  | (w, v) :: rest =>
      match text_of v with
      | Some s => SetText w s :: texts_shown rest
      | None => []
      end
  end.

(** The [setText] calls one run of [_apply] makes. *)
Definition apply_calls (c : completion) : list ui_call :=
  if got_success c then texts_shown (doc_fields c) else [].

(** The event is a completion of generation [g]. *)
Definition is_finish_of (g : Z) (ev : event) : bool :=
  match ev with
  | WorkerFinished c => got_req_id c =? g
  | _ => false
  end.

(** How many completions of generation [g] a run of events delivers. *)
Definition count_finished (g : Z) (evs : list event) : nat :=
  length (List.filter (is_finish_of g) evs).

(** The one [setText] call of [_on_timeout]. *)
Definition timeout_call : ui_call := SetText LSyntax timed_out_text.

(** The events of the staleness scenario after the second selection: the
    timer, the main thread, completions of the first worker (generation
    [g1], any outcome) and the completion [c2] of the second. *)
Definition scenario_event (g1 : Z) (c2 : completion) (ev : event) : Prop :=
  match ev with
  | XrefSelection _ => False
  | WorkerFinished c => got_req_id c = g1 \/ c = c2
  | TimeoutFires | MainThreadRuns => True
  end.

(** The timeout text was shown only by a timer that is now inactive. *)
Definition timed (t : list ui_call) (st : WinDocSidebar) : Prop :=
  t = [] \/ (t = [timeout_call] /\ _timeout st = None).

(** The widget after the second selection: the completion of the current
    generation is still awaited, is scheduled on the main thread, or has
    been applied. The index bounds the completions of the current
    generation still to come. *)
Inductive after_second (base : list ui_call) (c2 : completion)
  : nat -> WinDocSidebar -> Prop :=
| Awaited n st t :
    (n <= 1)%nat -> main_thread st = [] ->
    ui_calls st = (base ++ t)%list -> timed t st ->
    after_second base c2 n st
| Scheduled st t :
    main_thread st = [c2] ->
    ui_calls st = (base ++ t)%list -> timed t st ->
    after_second base c2 0 st
| Applied st t :
    main_thread st = [] -> _timeout st = None ->
    ui_calls st = (base ++ t ++ apply_calls c2)%list ->
    t = [] \/ t = [timeout_call] ->
    after_second base c2 0 st.

(** The three labels the timeout does not touch. *)
Definition doc_labels (st : WinDocSidebar) : string * string * string :=
  (_function (_labels st), _description (_labels st), _retval (_labels st)).

(** ** Observations on the file system and the cache *)

(** The file system after a trace of mutations. *)
Definition replay (ops : list fs_op) (fs : filesystem) : filesystem :=
  fold_left (fun fs op => apply_op op fs) ops fs.

(** The state right after [mkstemp] created the empty file [tmp]. *)
Definition created (tmp : string) (s : os_state) : os_state :=
  {| files := <[tmp := Unparsable]> (files s);
     trace := (trace s ++ [OpCreate tmp])%list |}.

(** The [try]/[finally] statement of [_atomic_write_json]. *)
Definition write_and_replace (env : os_env) (path tmp : string) (obj : json)
  : OS unit :=
  try_finally
    (json_dump_to env tmp obj ;;;
     os_replace env tmp path)
    (_atomic_write_cleanup env tmp).

(** The path of the temporary file drawn with the infix [n]. *)
Definition tmp_path (path n : string) : string :=
  PosixPath.join (PosixPath.dirname path) ("windoc_" ++ n ++ ".json").

(** The path separator. *)
Definition is_sep (c : ascii) : bool := Ascii.eqb c "/".

(** The negative entry: [found] false and three empty strings. *)
Definition negative_entry : json :=
  JObj {[ "found" := JBool false; "syntax" := JStr "";
          "description" := JStr ""; "return_value" := JStr "" ]}.

(** The fetch raised, found no page, or found a page without a Syntax
    section. *)
Definition fetch_failed (out : exn + MSFTLearnScrapper) : Prop :=
  match out with
  | inl _ => True
  | inr scr => soup scr = None \/ found_function_docs scr = false
  end.

(** The entry the specification asks for after a fetch: the negative entry
    when the fetch raised, found no page or found a page without a Syntax
    section; otherwise [found] true with the text of the Syntax section,
    the description and the return-value paragraphs joined by newlines. *)
Definition fetched_entry (out : exn + MSFTLearnScrapper) : json :=
  match out with
  | inl _ => negative_entry
  | inr scr =>
      match soup scr, get_syntax scr with
      | Some _, Some syn =>
          JObj {[ "found" := JBool true;
                  "syntax" := JStr syn;
                  "description" := JStr (get_description scr true);
                  "return_value" :=
                    JStr (PyStr.strip
                            (PyStr.join PyStr.nl
                               (default [] (get_return_value scr)))) ]}
      | _, _ => negative_entry
      end
  end.

(** Every call of the cache write succeeds: the directory of the target
    has a name and can be made, one of the names drawn for the temporary
    file is free, and neither the dump nor the replacement fails. *)
Definition calls_succeed (env : os_env) (fs : filesystem) (path : string)
  : bool :=
  PyStr.truthy (PosixPath.dirname path)
  && makedirs_ok env
  && bool_decide
       (is_Some (first_fresh fs (PosixPath.dirname path) "windoc_" ".json"
                   (tmp_names env)))
  && dump_ok env
  && replace_ok env.

(** An entry the worker does not accept as cached: not a dict, or a dict
    whose ["found"] is neither [True] nor [False]. *)
Definition malformed (e : json) : Prop :=
  match e with
  | JObj entry =>
      Py.is_True (Py.dict_get entry "found") = false
      /\ Py.is_False (Py.dict_get entry "found") = false
  | _ => True
  end.

(** What the query leaves in the worker: a failure with the empty strings
    of a fresh worker, or a success with three strings. *)
Definition from_query (w : ScrapperThread) : Prop :=
  (success w = false /\ syntax w = JStr "" /\ description w = JStr ""
   /\ return_value w = JStr "")
  \/ (success w = true
      /\ exists a b c, syntax w = JStr a /\ description w = JStr b
                       /\ return_value w = JStr c).

(** Two workers report the same result fields. *)
Definition same_outcome (a b : ScrapperThread) : Prop :=
  success a = success b /\ syntax a = syntax b
  /\ description a = description b /\ return_value a = return_value b.

(** ** The scraper *)

(** The selection rule in the words of the specification. *)
Module SearchRule.

(** The entry's URL, when it has one, resolved against the documentation
    host if it starts with ["/"]. *)
Definition url_of (res : search_hit) : option string :=
  let u := PyStr.strip (default "" (hit_url res)) in
  if PyStr.truthy u
  then Some (if PyStr.startswith u "/" then DOCS_HOST ++ u else u)
  else None.

(** The URL falls under the platform API documentation path. *)
Definition under_api_docs (u : string) : bool :=
  PyStr.contains "/windows/win32/api/" u.

(** The title starts with the candidate name and the character right after
    that prefix, if there is one, is not a lowercase letter. *)
Definition title_matches (name : string) (res : search_hit) : bool :=
  let title := PyStr.strip (default "" (hit_title res)) in
  PyStr.startswith title name
  && match String.get (String.length name) title with
     | Some c => negb (PyStr.islower_char c)
     | None => true
     end.

(** The URL to fetch for an entry that satisfies all conditions. *)
Definition accepts (name : string) (res : search_hit) : option string :=
  match url_of res with
  | Some u => if under_api_docs u && title_matches name res then Some u else None
  | None => None
  end.

End SearchRule.

(** The scraper untouched, with more requests sent. *)
Definition add_sent (rs : list request) (s : scr_state) : scr_state :=
  {| self := self s; sent := (sent s ++ rs)%list |}.

(** The scraper after [_init_from_name] stored a fetched page. *)
Definition with_page (page : BeautifulSoup) (me : MSFTLearnScrapper)
  : MSFTLearnScrapper :=
  {| requested_name := requested_name me; resolved_name := resolved_name me;
     soup := Some page; h2_titles := collect_paragraphs (p_tags page) |}.

(** The short description of a page: its [og:description], or nothing. *)
Definition og_text (page : BeautifulSoup) : string :=
  match og_description page with
  | Some d => if PyStr.truthy d then d else ""
  | None => ""
  end.

(** ** Concrete hosts, sites and disks *)

(** A click on a token whose function symbol is an import called [name]. *)
Definition imported (name : string) : xref_selection :=
  {| has_view := true;
     func_symbol := Some {| sym_type := ImportedFunctionSymbol; sym_name := name |};
     addrValid := false; offset := 0; start := 0;
     get_symbol_at := fun _ => None |}.

(** Where the plugin keeps [cache.json]. *)
Definition plugin_cache : string := "/home/u/.binaryninja/plugins/BetterWinDocs/cache.json".

(** Completions of a second and of a first worker that found their pages. *)
Definition beep_found : completion :=
  {| got_req_id := 2; func_name := "Beep"; got_success := true;
     got_syntax := JStr "BOOL Beep(DWORD dwFreq, DWORD dwDuration);";
     got_desc := JStr "Generates simple tones on the speaker.";
     got_rv := JStr "If the function succeeds, the return value is nonzero." |}.

Definition sleep_found : completion :=
  {| got_req_id := 1; func_name := "Sleep"; got_success := true;
     got_syntax := JStr "void Sleep(DWORD dwMilliseconds);";
     got_desc := JStr "Suspends the execution of the current thread.";
     got_rv := JStr "" |}.

(** An operating system on which every call succeeds. *)
Definition all_ok (names : list string) : os_env :=
  {| makedirs_ok := true; tmp_names := names; dump_ok := true;
     replace_ok := true; remove_ok := true |}.

(** No cache file yet. *)
Definition empty_disk : os_state := {| files := ∅; trace := [] |}.

(** A site that cannot be reached: every request raises. *)
Definition offline : network :=
  {| net_search := fun _ => None; net_page := fun _ => None |}.

(** A cache file edited by hand: the entry of ["Beep"] is a number. *)
Definition edited_disk : os_state :=
  {| files := {[ plugin_cache := Doc (JObj {[ "Beep" := JInt 42 ]}) ]};
     trace := [] |}.

(** The documentation page of [OpenMutexW] and its address. *)
Definition openmutexw_url : string :=
  "https://learn.microsoft.com/en-us/windows/win32/api/synchapi/nf-synchapi-openmutexw".

Definition openmutexw_page : BeautifulSoup :=
  {| og_description := Some "Opens an existing named mutex object.";
     h2_tags :=
       [ {| h2_text := "Syntax";
            h2_next_pre := Some "HANDLE OpenMutexW(DWORD dwDesiredAccess, BOOL bInheritHandle, LPCWSTR lpName);";
            h2_next := Some "" |};
         {| h2_text := "Return value"; h2_next_pre := None;
            h2_next := Some "If the function succeeds, the return value is a handle to the mutex object." |} ];
     p_tags :=
       [ {| p_prev_h2 := None; p_text := "Opens an existing named mutex object." |};
         {| p_prev_h2 := Some "Return value";
            p_text := "If the function succeeds, the return value is a handle to the mutex object." |};
         {| p_prev_h2 := Some "Return value"; p_text := "" |};
         {| p_prev_h2 := Some "Return value";
            p_text := "If the function fails, the return value is NULL." |} ] |}.

(** A site on which only [OpenMutexW] is documented. *)
Definition docs_site : network :=
  {| net_search := fun _ =>
       Some [ {| hit_title := Some "OpenMutex"; hit_url := None |};
              {| hit_title := Some "OpenMutexes and events";
                 hit_url := Some "/en-us/windows/win32/api/synchapi/overview" |};
              {| hit_title := Some "OpenMutexW function (synchapi.h)";
                 hit_url := Some "/en-us/windows/desktop/sync/using-mutex-objects" |};
              {| hit_title := Some " OpenMutexW function (synchapi.h) ";
                 hit_url := Some "/en-us/windows/win32/api/synchapi/nf-synchapi-openmutexw" |} ];
     net_page := fun u =>
       if String.eqb u openmutexw_url then Some openmutexw_page else None |}.

(** A site whose only page, found for the name [Foo], has no Syntax
    section. *)
Definition foo_url : string :=
  "https://learn.microsoft.com/en-us/windows/win32/api/foo/ns-foo-foo".

Definition foo_page : BeautifulSoup :=
  {| og_description := Some "Describes a foo.";
     h2_tags :=
       [ {| h2_text := "Members"; h2_next_pre := None;
            h2_next := Some "cbSize" |} ];
     p_tags :=
       [ {| p_prev_h2 := None; p_text := "Describes a foo." |};
         {| p_prev_h2 := Some "Members"; p_text := "cbSize" |} ] |}.

Definition foo_site : network :=
  {| net_search := fun _ =>
       Some [ {| hit_title := Some "Foo structure (foo.h)";
                 hit_url := Some "/en-us/windows/win32/api/foo/ns-foo-foo" |} ];
     net_page := fun u =>
       if String.eqb u foo_url then Some foo_page else None |}.

(** * Further model and vocabulary *)

(** ** The steps of the normaliser *)

(** The module qualifier: what follows the first ["!"], stripped. *)
Definition unqualify (s : string) : string :=
  if PyStr.contains_char "!" s then PyStr.strip (PyStr.after_first "!" s) else s.

(** The import prefix. *)
Definition strip_imp (s : string) : string :=
  if PyStr.startswith s "__imp_" then PyStr.drop (String.length "__imp_") s else s.

(** One leading underscore. *)
Definition strip_underscore (s : string) : string :=
  if PyStr.startswith s "_" then PyStr.drop 1 s else s.

(** The stdcall decoration: a last ["@"] followed by digits only. *)
Definition strip_stdcall (s : string) : string :=
  if PyStr.contains_char "@" s
  then let '(base, maybe) := PyStr.rsplit1 "@" s in
       if PyStr.isdigit maybe then base else s
  else s.

(** Neither the first nor the last character is whitespace; not empty. *)
Definition unpadded (n : string) : bool :=
  match n with
  | EmptyString => false
  | String c _ => negb (PyStr.isspace c)
  end
  && match PyStr.last_char n with
     | Some c => negb (PyStr.isspace c)
     | None => false
     end.

(** A name without decoration: no whitespace around it, no module
    qualifier, no ["@"], no leading underscore. *)
Definition plain_name (n : string) : bool :=
  unpadded n
  && negb (PyStr.contains_char "!" n)
  && negb (PyStr.contains_char "@" n)
  && negb (PyStr.startswith n "_").

(** ** Observations on runs of the coordinator *)

(** The event is a selection. *)
Definition is_selection (ev : event) : bool :=
  match ev with XrefSelection _ => true | _ => false end.

(** How many selections a run of events holds. *)
Definition count_selections (evs : list event) : nat :=
  length (List.filter is_selection evs).

(** Neither symbol the host can report for the selection is an imported
    function. *)
Definition not_an_import (sel : xref_selection) : Prop :=
  _is_imported_function_symbol (func_symbol sel) = false
  /\ forall addr, _is_imported_function_symbol (get_symbol_at sel addr) = false.

(** Later workers carry larger generations. *)
Definition increasing_generations (ws : list ScrapperThread) : Prop :=
  forall (i j : nat) (a b : ScrapperThread),
    ws !! i = Some a -> ws !! j = Some b -> (i < j)%nat -> req_id a < req_id b.

(** A worker as the coordinator creates it for the cache file [cache]: a
    name that is not empty, does not look local and has no whitespace
    around it, and the fields of a worker that has not run. *)
Definition well_started (cache : string) (w : ScrapperThread) : Prop :=
  w = ScrapperThread_new (function_name w) (req_id w) cache
  /\ PyStr.truthy (function_name w) = true
  /\ _looks_like_local (function_name w) = false
  /\ PyStr.strip (function_name w) = function_name w.

(** The timer is armed exactly while [self._worker] holds a worker, and
    the held worker is the last one started and carries the current
    generation. *)
Definition held_worker_discipline (st : WinDocSidebar) : Prop :=
  match _worker st with
  | Some w =>
      _timeout st = Some 4000
      /\ req_id w = _req_id st
      /\ list.last (started st) = Some w
  | None => _timeout st = None
  end.

(** The completion reports that nothing was found. *)
Definition not_found_event (ev : event) : Prop :=
  match ev with
  | WorkerFinished c => got_success c = false
  | _ => True
  end.

(** A click on a token that is no import. *)
Definition plain_token : xref_selection :=
  {| has_view := true; func_symbol := None; addrValid := false;
     offset := 0; start := 0; get_symbol_at := fun _ => None |}.

(** The completion of a worker that found nothing for ["Beep"]. *)
Definition beep_missing : completion :=
  {| got_req_id := 1; func_name := "Beep"; got_success := false;
     got_syntax := JStr ""; got_desc := JStr ""; got_rv := JStr "" |}.

(** ** Observations on the cache file *)

(** A cache file the worker cannot use: missing, unreadable as JSON, or
    holding a falsy document ([null], [false], [0], [""], [[]], [{}]). *)
Definition unusable_cache (fs : filesystem) (path : string) : Prop :=
  match fs !! path with
  | None => True
  | Some Unparsable => True
  | Some (Doc v) => Py.truthy v = false
  end.

(** An operating system on which the final replacement fails and the
    temporary file cannot be removed either. *)
Definition replace_fails (names : list string) : os_env :=
  {| makedirs_ok := true; tmp_names := names; dump_ok := true;
     replace_ok := false; remove_ok := false |}.

(** A cache file that holds a list instead of an object. *)
Definition list_disk : os_state :=
  {| files := {[ plugin_cache := Doc (JArr [JStr "Beep"]) ]}; trace := [] |}.

(** A cache file with an entry for ["Sleep"]. *)
Definition sleep_disk : os_state :=
  {| files := {[ plugin_cache
                 := Doc (JObj {[ "Sleep"
                                 := JObj {[ "found" := JBool true;
                                            "syntax" := JStr "void Sleep(DWORD dwMilliseconds);" ]} ]}) ]};
     trace := [] |}.

(** ** Observations on the scraper *)

(** The name ends in the ANSI or the Unicode suffix. *)
Definition has_width_suffix (function : string) : bool :=
  PyStr.truthy function
  && (is_char (PyStr.last_char function) "A"
      || is_char (PyStr.last_char function) "W").

(** The texts of the non-empty paragraphs whose previous [h2] reads [key],
    in document order. *)
Definition texts_under (key : string) (ps : list p_tag) : list string :=
  map p_text
    (List.filter
       (fun p => match p_prev_h2 p with
                 | Some k => String.eqb k key
                 | None => false
                 end
                 && PyStr.truthy (p_text p))
       ps).

(** ** [sidebar.py]: routing selections to the widget of a frame *)

(** A [WinDocSidebar] object together with [self._frame]. Frames and
    widgets are told apart by identity: a frame is a number, a widget is
    its index in the list of the objects created so far. *)
Record sidebar_object : Type := {
  _frame : nat;
  widget : WinDocSidebar
}.

Record ui_state : Type := {
  objects : list sidebar_object;
  _FRAME_TO_SIDEBAR : gmap nat nat
}.

Definition no_widgets : ui_state :=
  {| objects := []; _FRAME_TO_SIDEBAR := ∅ |}.

(** [MSFTDocWidget.createWidget]: [WinDocSidebar.__init__] stores the frame
    and sets [_FRAME_TO_SIDEBAR[self._frame] = self]. *)
Definition createWidget (cache_path : string) (frame : nat) (u : ui_state)
  : ui_state :=
  {| objects :=
       (objects u
        ++ [{| _frame := frame; widget := WinDocSidebar_new cache_path |}])%list;
     _FRAME_TO_SIDEBAR := <[frame := length (objects u)]> (_FRAME_TO_SIDEBAR u) |}.

(** [WinDocSidebar.__del__] of the object [id]. *)
Definition WinDocSidebar_del (id : nat) (u : ui_state) : ui_state :=
  match objects u !! id with
  | Some w =>
      if bool_decide (is_Some (_FRAME_TO_SIDEBAR u !! _frame w)) then
        {| objects := objects u;
           _FRAME_TO_SIDEBAR := delete (_frame w) (_FRAME_TO_SIDEBAR u) |}
      else u
  | None => u
  end.

(** A method call on the object [id]. *)
Definition on_object (id : nat) (f : WinDocSidebar -> WinDocSidebar)
    (u : ui_state) : ui_state :=
  match objects u !! id with
  | Some w =>
      {| objects :=
           <[id := {| _frame := _frame w; widget := f (widget w) |}]> (objects u);
         _FRAME_TO_SIDEBAR := _FRAME_TO_SIDEBAR u |}
  | None => u
  end.

(** [dispatch_xref_selection]; the view of the frame travels in the
    selection, as in [on_xref_selection]. *)
Definition dispatch_xref_selection (frame : nat) (selection : xref_selection)
    (u : ui_state) : ui_state :=
  match _FRAME_TO_SIDEBAR u !! frame with
  | Some w => on_object w (on_xref_selection selection) u
  | None => u
  end.

(** What can happen to the widgets of a session: a widget is created for a
    frame; a widget is finalised; a frame is collected, which drops its
    weak key; the notification reports a selection in a frame; and the
    timer, a worker and the main thread of one widget. *)
Inductive ui_event : Type :=
| WidgetCreated (frame : nat)
| WidgetFinalised (id : nat)
| FrameCollected (frame : nat)
| OnNewSelectionForXref (frame : nat) (selection : xref_selection)
| TimerOf (id : nat)
| WorkerOf (id : nat) (c : completion)
| MainThreadOf (id : nat).

Definition ui_step (cache_path : string) (u : ui_state) (ev : ui_event)
  : ui_state :=
  match ev with
  | WidgetCreated frame => createWidget cache_path frame u
  | WidgetFinalised id => WinDocSidebar_del id u
  | FrameCollected frame =>
      {| objects := objects u;
         _FRAME_TO_SIDEBAR := delete frame (_FRAME_TO_SIDEBAR u) |}
  | OnNewSelectionForXref frame selection =>
      dispatch_xref_selection frame selection u
  | TimerOf id => on_object id (fun st => step st TimeoutFires) u
  | WorkerOf id c => on_object id (fun st => step st (WorkerFinished c)) u
  | MainThreadOf id => on_object id (fun st => step st MainThreadRuns) u
  end.

Definition ui_run (cache_path : string) (u : ui_state) (evs : list ui_event)
  : ui_state :=
  fold_left (ui_step cache_path) evs u.

(** Every route leads to a widget that was created for the routed frame. *)
Definition routes_to_own_frame (u : ui_state) : Prop :=
  forall frame id,
    _FRAME_TO_SIDEBAR u !! frame = Some id ->
    exists w, objects u !! id = Some w /\ _frame w = frame.

(** No frame is routed to the object [id]. *)
Definition unrouted (id : nat) (u : ui_state) : Prop :=
  forall frame, _FRAME_TO_SIDEBAR u !! frame <> Some id.

(** ** [__init__.py]: loading the plugin *)

(** What the module body changes in the host: the attribute it keeps on
    [UIContext], the notifications registered with [UIContext], and the
    sidebar widget types added to [Sidebar]. *)
Record host : Type := {
  has_notification_attr : bool;
  notifications : nat;
  widget_types : nat
}.

Definition fresh_host : host :=
  {| has_notification_attr := false; notifications := 0; widget_types := 0 |}.

(** One execution of the module body. *)
Definition load_plugin (h : host) : host :=
  let h := {| has_notification_attr := has_notification_attr h;
              notifications := notifications h;
              widget_types := S (widget_types h) |} in
  if negb (has_notification_attr h) then
    {| has_notification_attr := true;
       notifications := S (notifications h);
       widget_types := widget_types h |}
  else h.

(** The host reports a selection to every registered notification, each of
    which calls [dispatch_xref_selection]. *)
Definition report_selection (h : host) (frame : nat)
    (selection : xref_selection) (u : ui_state) : ui_state :=
  Nat.iter (notifications h) (dispatch_xref_selection frame selection) u.

(** * Properties *)

(** ** The embedding on small inputs *)

Example normalize_qualified :
  _normalize_symbol_name "KERNEL32.dll!GetProcAddress" = "GetProcAddress".
Proof. reflexivity. Qed.

Example normalize_keeps_other_suffix :
  _normalize_symbol_name "_foo@bar" = "foo@bar".
Proof. reflexivity. Qed.

Example normalize_all_steps :
  _normalize_symbol_name "  KERNEL32.dll! __imp__Beep@8 " = "Beep".
Proof. reflexivity. Qed.

Example thunk_looks_local : _looks_like_local "j_sub_401000" = true.
Proof. reflexivity. Qed.

Example import_does_not_look_local : _looks_like_local "Beep" = false.
Proof. reflexivity. Qed.

Example dirname_plugin :
  PosixPath.dirname "/home/u/plugins/BetterWinDocs/cache.json"
  = "/home/u/plugins/BetterWinDocs".
Proof. reflexivity. Qed.

Example dirname_root : PosixPath.dirname "/cache.json" = "/".
Proof. reflexivity. Qed.

Example dirname_bare : PosixPath.dirname "cache.json" = "".
Proof. reflexivity. Qed.

Example search_skips_until_match :
  select_url "OpenMutex" (default [] (net_search docs_site "OpenMutex"))
  = Some openmutexw_url
  /\ select_url "OpenMutexA" (default [] (net_search docs_site "OpenMutexA"))
     = None.
Proof. split; vm_compute; reflexivity. Qed.

(** One whole lookup: a miss, the fallback from [OpenMutexA] to the page of
    [OpenMutexW], and the entry written to the cache file. *)
Example lookup_openmutexa :
  let r := run (all_ok ["k3x9q_ab"]) docs_site
             (ScrapperThread_new "OpenMutexA" 1 plugin_cache) empty_disk in
  finish (worker r)
  = {| got_req_id := 1; func_name := "OpenMutexA"; got_success := true;
       got_syntax := JStr "HANDLE OpenMutexW(DWORD dwDesiredAccess, BOOL bInheritHandle, LPCWSTR lpName);";
       got_desc := JStr ("[Docs resolved to: OpenMutexW (requested: OpenMutexA)]"
                         ++ PyStr.nl ++ PyStr.nl
                         ++ "Opens an existing named mutex object.");
       got_rv := JStr ("If the function succeeds, the return value is a handle to the mutex object."
                       ++ PyStr.nl
                       ++ "If the function fails, the return value is NULL.") |}
  /\ requests r
     = [GetSearch "OpenMutexA"; GetSearch "OpenMutex"; GetPage openmutexw_url]
  /\ raised r = None
  /\ files (os_after r) = {[ plugin_cache
                              := Doc (JObj {[ "OpenMutexA" := cache_entry (worker r) ]}) ]}
  /\ trace (os_after r)
     = [OpCreate (tmp_path plugin_cache "k3x9q_ab");
        OpWrite (tmp_path plugin_cache "k3x9q_ab")
          (Doc (JObj {[ "OpenMutexA" := cache_entry (worker r) ]}));
        OpReplace (tmp_path plugin_cache "k3x9q_ab") plugin_cache].
Proof. vm_compute. repeat split; reflexivity. Qed.

(** ** Name normalisation and local names *)

Lemma looks_like_local_spec (name : string) :
  _looks_like_local name = true <->
  name = "" \/ PyStr.startswith name "sub_" = true
  \/ PyStr.startswith name "j_sub_" = true.
Proof.
  unfold _looks_like_local, PyStr.truthy.
  rewrite !orb_true_iff, negb_involutive.
  destruct name; simpl; intuition congruence.
Qed.

(** A selection whose candidate name looks local leaves the widget idle:
    the in-flight worker, if any, is cancelled and the generation advances,
    but no worker is started, no timer armed, nothing shown or scheduled. *)
Lemma on_xref_selection_local (sel : xref_selection) (st : WinDocSidebar) :
  _looks_like_local (candidate_name sel) = true ->
  let st' := on_xref_selection sel st in
  started st' = started st /\ _worker st' = None /\ _timeout st' = None
  /\ ui_calls st' = ui_calls st /\ _labels st' = _labels st
  /\ main_thread st' = main_thread st.
Proof.
  intros Hloc. unfold on_xref_selection. rewrite Hloc.
  unfold _cancel_worker, cancel_current.
  destruct (has_view sel), (_worker st) eqn:Hw; simpl;
    repeat split; first [reflexivity | exact Hw].
Qed.

(** C5. The normaliser maps ["KERNEL32.dll!GetProcAddress"],
    ["__imp_GetProcAddress"] and ["_GetProcAddress@8"] to
    ["GetProcAddress"]; ["sub_401000"] looks local, as does every name that
    is empty or begins with a local prefix; and for a selection whose
    candidate is such a name the coordinator starts no worker and reports
    nothing. *)
Theorem C5_normalize_table_and_local_names
    (name : string) (sel : xref_selection) (st : WinDocSidebar) :
  name = "" \/ PyStr.startswith name "sub_" = true
    \/ PyStr.startswith name "j_sub_" = true ->
  candidate_name sel = name ->
  _normalize_symbol_name "KERNEL32.dll!GetProcAddress" = "GetProcAddress"
  /\ _normalize_symbol_name "__imp_GetProcAddress" = "GetProcAddress"
  /\ _normalize_symbol_name "_GetProcAddress@8" = "GetProcAddress"
  /\ _looks_like_local "sub_401000" = true
  /\ _looks_like_local name = true
  /\ started (on_xref_selection sel st) = started st
  /\ _worker (on_xref_selection sel st) = None
  /\ _timeout (on_xref_selection sel st) = None
  /\ ui_calls (on_xref_selection sel st) = ui_calls st
  /\ _labels (on_xref_selection sel st) = _labels st
  /\ main_thread (on_xref_selection sel st) = main_thread st.
Proof.
  intros Hname Hcand.
  assert (Hloc : _looks_like_local name = true)
    by (apply looks_like_local_spec; exact Hname).
  do 5 (split; [first [reflexivity | exact Hloc] |]).
  apply (on_xref_selection_local sel st). rewrite Hcand. exact Hloc.
Qed.

Lemma C5_witness :
  started (on_xref_selection (imported "sub_401000") (WinDocSidebar_new plugin_cache)) = []
  /\ ui_calls (on_xref_selection (imported "sub_401000") (WinDocSidebar_new plugin_cache)) = [].
Proof.
  pose proof (C5_normalize_table_and_local_names "sub_401000"
                (imported "sub_401000") (WinDocSidebar_new plugin_cache)
                (or_intror (or_introl eq_refl)) eq_refl) as H.
  split; [exact (proj1 (proj2 (proj2 (proj2 (proj2 (proj2 H))))))
         | exact (proj1 (proj2 (proj2 (proj2 (proj2 (proj2 (proj2 (proj2 (proj2 H)))))))))].
Defined.

(** ** The coordinator: what reaches the labels *)

Lemma set_texts_ui_calls calls st :
  ui_calls (set_texts calls st) = (ui_calls st ++ texts_shown calls)%list.
Proof.
  revert st. induction calls as [|[w v] rest IH]; intros st; simpl.
  - by rewrite app_nil_r.
  - destruct (text_of v) as [s|]; simpl.
    + rewrite IH. simpl. by rewrite <- app_assoc.
    + by rewrite app_nil_r.
Qed.

Lemma set_texts_frame calls st :
  _req_id (set_texts calls st) = _req_id st
  /\ _worker (set_texts calls st) = _worker st
  /\ _timeout (set_texts calls st) = _timeout st
  /\ main_thread (set_texts calls st) = main_thread st
  /\ started (set_texts calls st) = started st.
Proof.
  revert st. induction calls as [|[w v] rest IH]; intros st; simpl; [done|].
  destruct (text_of v); [|done].
  destruct (IH (setText w s st)) as (-> & -> & -> & -> & ->). done.
Qed.

Lemma apply_ui_calls c st :
  ui_calls (_apply c st) = (ui_calls st ++ apply_calls c)%list.
Proof.
  unfold _apply, apply_calls. destruct (got_success c); cbn [negb].
  - by rewrite set_texts_ui_calls.
  - cbn. by rewrite app_nil_r.
Qed.

Lemma apply_frame c st :
  _req_id (_apply c st) = _req_id st
  /\ _worker (_apply c st) = None
  /\ _timeout (_apply c st) = None
  /\ main_thread (_apply c st) = main_thread st.
Proof.
  unfold _apply. destruct (got_success c); cbn [negb]; [|done].
  destruct (set_texts_frame (doc_fields c) (clear_worker (with_timeout None st)))
    as (-> & -> & -> & -> & _). done.
Qed.

Lemma on_timeout_frame st :
  _req_id (_on_timeout st) = _req_id st
  /\ _worker (_on_timeout st) = None
  /\ _timeout (_on_timeout st) = _timeout st
  /\ main_thread (_on_timeout st) = main_thread st
  /\ ui_calls (_on_timeout st)
     = (ui_calls st ++ [SetText LSyntax timed_out_text])%list
  /\ _labels (_on_timeout st) = set_label LSyntax timed_out_text (_labels st).
Proof.
  unfold _on_timeout, cancel_current.
  destruct (_worker st) eqn:Hw; simpl; rewrite ?Hw; done.
Qed.

(** A completion of another generation than the current one changes
    nothing: nothing is scheduled and no label is touched. *)
Lemma on_done_stale c st :
  got_req_id c <> _req_id st -> on_done c st = st.
Proof.
  intros Hne. unfold on_done.
  destruct (Z.eqb_spec (got_req_id c) (_req_id st)); [contradiction|done].
Qed.

Lemma on_done_current c st :
  got_req_id c = _req_id st ->
  on_done c st = with_main_thread (main_thread st ++ [c])%list st.
Proof. intros He. unfold on_done. by rewrite He, Z.eqb_refl. Qed.

(** A selection of a name that does not look local starts one worker of
    the next generation and arms the timer. *)
Lemma on_xref_selection_starts sel st :
  has_view sel = true ->
  _looks_like_local (candidate_name sel) = false ->
  let w := ScrapperThread_new (candidate_name sel) (_req_id st + 1) (_cache_file st) in
  let st' := on_xref_selection sel st in
  _req_id st' = _req_id st + 1
  /\ _worker st' = Some w
  /\ _timeout st' = Some timer_ms
  /\ started st' = (started st ++ [w])%list
  /\ cancelled st' = (cancelled st ++ match _worker st with Some v => [v] | None => [] end)%list
  /\ ui_calls st' = ui_calls st
  /\ _labels st' = _labels st
  /\ main_thread st' = main_thread st
  /\ _cache_file st' = _cache_file st.
Proof.
  intros Hv Hl. unfold on_xref_selection. rewrite Hv, Hl.
  unfold _cancel_worker, cancel_current.
  destruct (_worker st); simpl; rewrite ?app_nil_r; done.
Qed.

(** ** Staleness: two requests in a row *)

Lemma count_finished_cons g ev evs :
  count_finished g (ev :: evs)
  = ((if is_finish_of g ev then 1 else 0) + count_finished g evs)%nat.
Proof. unfold count_finished. simpl. by destruct (is_finish_of g ev). Qed.

Lemma timed_weaken t st : timed t st -> t = [] \/ t = [timeout_call].
Proof. unfold timed. tauto. Qed.

Lemma after_second_shown base c2 n st :
  after_second base c2 n st ->
  exists t a, ui_calls st = (base ++ t ++ a)%list
    /\ (t = [] \/ t = [timeout_call])
    /\ (a = [] \/ a = apply_calls c2).
Proof.
  intros [n' st' t Hn Hq Hui Ht | st' t Hq Hui Ht | st' t Hq Hto Hui Ht].
  - exists t, []. rewrite app_nil_r. eauto using timed_weaken.
  - exists t, []. rewrite app_nil_r. eauto using timed_weaken.
  - exists t, (apply_calls c2). eauto.
Qed.

Lemma after_second_timeout base c2 n st ms :
  _timeout st = Some ms ->
  after_second base c2 n st ->
  after_second base c2 n (_on_timeout (with_timeout None st)).
Proof.
  intros Hms Hinv.
  destruct (on_timeout_frame (with_timeout None st))
    as (_ & _ & Hto & Hq & Hui & _).
  cbn [with_timeout _timeout main_thread ui_calls] in Hto, Hq, Hui.
  destruct Hinv as [n' st' t Hn Hq' Hui' Ht | st' t Hq' Hui' Ht
                   | st' t Hq' Hto' Hui' Ht].
  - destruct Ht as [-> | [_ Hnone]]; [|congruence].
    apply Awaited with (t := [timeout_call]); [done | congruence | |].
    + rewrite Hui, Hui', app_nil_r. done.
    + right. done.
  - destruct Ht as [-> | [_ Hnone]]; [|congruence].
    apply Scheduled with (t := [timeout_call]); [congruence | |].
    + rewrite Hui, Hui', app_nil_r. done.
    + right. done.
  - congruence.
Qed.

Lemma after_second_main_thread base c2 n st :
  after_second base c2 n st ->
  after_second base c2 n (step st MainThreadRuns).
Proof.
  intros Hinv. simpl.
  destruct Hinv as [n' st' t Hn Hq Hui Ht | st' t Hq Hui Ht
                   | st' t Hq Hto Hui Ht].
  - rewrite Hq. by eapply Awaited.
  - rewrite Hq.
    destruct (apply_frame c2 (with_main_thread [] st')) as (_ & _ & Hto & Hq').
    apply Applied with (t := t); [done | done | | eauto using timed_weaken].
    rewrite apply_ui_calls. simpl. rewrite Hui, <- app_assoc. done.
  - rewrite Hq. by eapply Applied.
Qed.

Lemma scenario_run g1 g2 base c2 :
  g1 <> g2 ->
  forall evs st n,
    _req_id st = g2 ->
    after_second base c2 n st ->
    Forall (scenario_event g1 c2) evs ->
    (count_finished g2 evs <= n)%nat ->
    _req_id (run_events st evs) = g2
    /\ exists m, after_second base c2 m (run_events st evs).
Proof.
  intros Hg. induction evs as [|ev evs IH]; intros st n Hreq Hinv Hall Hcount.
  - simpl. eauto.
  - inversion_clear Hall as [|? ? Hev Hall'].
    rewrite count_finished_cons in Hcount.
    change (run_events st (ev :: evs)) with (run_events (step st ev) evs).
    destruct ev as [sel | | c | ]; simpl in Hev, Hcount.
    + contradiction.
    + destruct (_timeout st) as [ms|] eqn:Hto.
      * apply (IH _ n); [| |exact Hall'|exact Hcount].
        -- simpl. rewrite Hto.
           by destruct (on_timeout_frame (with_timeout None st)) as (-> & _).
        -- simpl. rewrite Hto. by eapply after_second_timeout.
      * apply (IH _ n); [| |exact Hall'|exact Hcount]; simpl; by rewrite Hto.
    + destruct (Z.eqb_spec (got_req_id c) g2) as [Heq | Hne].
      * assert (c = c2) as -> by (destruct Hev; congruence).
        simpl. rewrite on_done_current by congruence.
        destruct Hinv as [n' st' t Hn Hq Hui Ht | st' t Hq Hui Ht
                         | st' t Hq Hto Hui Ht]; [|lia|lia].
        apply (IH _ 0%nat); [done| |done|lia].
        apply Scheduled with (t := t); simpl; [by rewrite Hq|done|done].
      * simpl. rewrite on_done_stale by congruence.
        apply (IH _ n); done.
    + apply (IH _ n); [|by apply after_second_main_thread|done|done].
      simpl. destruct (main_thread st) as [|c q]; [done|].
      by destruct (apply_frame c (with_main_thread q st)) as (-> & _).
Qed.

(** C1. A completion whose generation is not the coordinator's current one
    is dropped by the callback: the widget is unchanged, so nothing is
    scheduled and no label is set. Consequently, when generation 1 is
    issued for a name X and generation 2 for a name Y before the first
    worker completes, whatever the order of the later completions, timer
    and main-thread events, the labels receive at most the timeout text
    and at most one delivery, which is the second worker's. *)
Theorem C1_stale_results_never_reach_the_ui
    (st : WinDocSidebar) (c : completion)
    (st0 : WinDocSidebar) (selX selY : xref_selection)
    (c2 : completion) (evs : list event) :
  got_req_id c <> _req_id st ->
  main_thread st0 = [] ->
  has_view selX = true -> _looks_like_local (candidate_name selX) = false ->
  has_view selY = true -> _looks_like_local (candidate_name selY) = false ->
  got_req_id c2 = _req_id st0 + 2 -> func_name c2 = candidate_name selY ->
  Forall (scenario_event (_req_id st0 + 1) c2) evs ->
  (count_finished (_req_id st0 + 2) evs <= 1)%nat ->
  step st (WorkerFinished c) = st
  /\ started (on_xref_selection selY (on_xref_selection selX st0))
     = (started st0
        ++ [ScrapperThread_new (candidate_name selX) (_req_id st0 + 1) (_cache_file st0);
            ScrapperThread_new (candidate_name selY) (_req_id st0 + 2) (_cache_file st0)])%list
  /\ exists t a,
       ui_calls (run_events (on_xref_selection selY (on_xref_selection selX st0)) evs)
       = (ui_calls st0 ++ t ++ a)%list
       /\ (t = [] \/ t = [timeout_call])
       /\ (a = [] \/ a = apply_calls c2).
Proof.
  intros Hstale Hq0 HvX HlX HvY HlY Hg2 Hname Hevs Hcount.
  split; [exact (on_done_stale c st Hstale)|].
  destruct (on_xref_selection_starts selX st0 HvX HlX)
    as (Hr1 & _ & _ & Hs1 & _ & Hu1 & _ & Hq1 & Hc1).
  destruct (on_xref_selection_starts selY (on_xref_selection selX st0) HvY HlY)
    as (Hr2 & _ & Ht2 & Hs2 & _ & Hu2 & _ & Hq2 & _).
  split.
  - rewrite Hs2, Hs1, Hr1, Hc1, <- app_assoc.
    replace (_req_id st0 + 1 + 1) with (_req_id st0 + 2) by lia. done.
  - assert (Hinv : after_second (ui_calls st0) c2 1
                     (on_xref_selection selY (on_xref_selection selX st0))).
    { apply Awaited with (t := []); [lia | congruence | | by left].
      rewrite app_nil_r. congruence. }
    assert (Hne : _req_id st0 + 1 <> _req_id st0 + 2) by lia.
    assert (Hr : _req_id (on_xref_selection selY (on_xref_selection selX st0))
                 = _req_id st0 + 2) by lia.
    destruct (scenario_run _ _ (ui_calls st0) c2 Hne evs _ 1%nat Hr Hinv Hevs Hcount)
      as (_ & m & Hend).
    exact (after_second_shown _ _ _ _ Hend).
Qed.

Lemma C1_witness :
  exists t a,
    ui_calls (run_events
                (on_xref_selection (imported "Beep")
                   (on_xref_selection (imported "Sleep") (WinDocSidebar_new plugin_cache)))
                [WorkerFinished sleep_found; MainThreadRuns; TimeoutFires;
                 WorkerFinished beep_found; MainThreadRuns])
    = ([] ++ t ++ a)%list
    /\ (t = [] \/ t = [timeout_call])
    /\ (a = [] \/ a = apply_calls beep_found).
Proof.
  refine (proj2 (proj2
    (C1_stale_results_never_reach_the_ui
       (WinDocSidebar_new plugin_cache) sleep_found
       (WinDocSidebar_new plugin_cache) (imported "Sleep") (imported "Beep")
       beep_found
       [WorkerFinished sleep_found; MainThreadRuns; TimeoutFires;
        WorkerFinished beep_found; MainThreadRuns]
       _ eq_refl eq_refl eq_refl eq_refl eq_refl eq_refl eq_refl _ _))).
  - simpl. lia.
  - repeat (apply List.Forall_cons;
            [simpl; first [exact I | left; reflexivity | right; reflexivity] |]).
    apply List.Forall_nil.
  - vm_compute. lia.
Defined.

(** ** Timeout *)

(** C2. One request, the timer fires, and then the cancelled worker
    completes with documentation: the completion still carries the current
    generation, so after the timeout text the labels are updated a second
    time for the same generation. *)
Theorem C2_late_completion_after_timeout_updates_ui :
  let st1 := on_xref_selection (imported "Sleep") (WinDocSidebar_new plugin_cache) in
  let st2 := step st1 TimeoutFires in
  let st3 := run_events st2 [WorkerFinished sleep_found; MainThreadRuns] in
  _req_id st1 = 1
  /\ _timeout st1 = Some 4000
  /\ ui_calls st2 = [SetText LSyntax "Timed out while fetching docs."]
  /\ cancelled st2 = [ScrapperThread_new "Sleep" 1 plugin_cache]
  /\ _worker st2 = None
  /\ _req_id st2 = got_req_id sleep_found
  /\ ui_calls st3
     = [SetText LSyntax "Timed out while fetching docs.";
        SetText LFunction "Sleep";
        SetText LSyntax "void Sleep(DWORD dwMilliseconds);";
        SetText LDescription "Suspends the execution of the current thread.";
        SetText LRetval ""]
  /\ _syntax (_labels st3) = "void Sleep(DWORD dwMilliseconds);".
Proof. vm_compute. repeat split; reflexivity. Qed.

Lemma cancel_current_labels st : _labels (cancel_current st) = _labels st.
Proof. unfold cancel_current. by destruct (_worker st). Qed.

(** Only the main thread's [_apply] writes the three documentation labels. *)
Lemma step_keeps_doc_labels st ev :
  ev <> MainThreadRuns -> doc_labels (step st ev) = doc_labels st.
Proof.
  intros Hev. destruct ev as [sel | | c | ]; simpl; [| | |done].
  - unfold on_xref_selection, _cancel_worker, doc_labels.
    destruct (has_view sel); simpl; [|by rewrite cancel_current_labels].
    destruct (_looks_like_local _); simpl; by rewrite cancel_current_labels.
  - destruct (_timeout st); [|done]. unfold doc_labels.
    by destruct (on_timeout_frame (with_timeout None st)) as (_ & _ & _ & _ & _ & ->).
  - unfold on_done. by destruct (negb _).
Qed.

Lemma run_events_keeps_doc_labels evs st :
  Forall (fun ev => ev <> MainThreadRuns) evs ->
  doc_labels (run_events st evs) = doc_labels st.
Proof.
  revert st. induction evs as [|ev evs IH]; intros st Hall; [done|].
  inversion_clear Hall as [|? ? Hev Hall'].
  change (run_events st (ev :: evs)) with (run_events (step st ev) evs).
  rewrite IH by done. by apply step_keeps_doc_labels.
Qed.

Lemma text_of_str s : text_of (JStr s) = Some s.
Proof. by destruct s. Qed.

Lemma apply_shows c st syn desc rv :
  got_success c = true ->
  text_of (got_syntax c) = Some syn ->
  text_of (got_desc c) = Some desc ->
  text_of (got_rv c) = Some rv ->
  _labels (_apply c st)
  = {| _function := func_name c; _syntax := syn;
       _description := desc; _retval := rv |}.
Proof.
  intros Hs H1 H2 H3. unfold _apply, doc_fields. rewrite Hs.
  cbn [negb set_texts]. rewrite text_of_str, H1, H2, H3. reflexivity.
Qed.

(** C10. When the timeout fires only the syntax label is set, to
    ["Timed out while fetching docs."]; the function-name, description and
    return-value labels keep their texts. After a successful delivery
    followed by any events that deliver nothing more, a timeout therefore
    leaves those three labels showing that delivery's content. *)
Theorem C10_timeout_overwrites_only_syntax
    (st0 st : WinDocSidebar) (c : completion) (syn desc rv : string)
    (evs : list event) :
  got_success c = true ->
  text_of (got_syntax c) = Some syn ->
  text_of (got_desc c) = Some desc ->
  text_of (got_rv c) = Some rv ->
  Forall (fun ev => ev <> MainThreadRuns) evs ->
  (_labels (_on_timeout st0)
   = {| _function := _function (_labels st0);
        _syntax := "Timed out while fetching docs.";
        _description := _description (_labels st0);
        _retval := _retval (_labels st0) |}
   /\ ui_calls (_on_timeout st0)
      = (ui_calls st0 ++ [SetText LSyntax "Timed out while fetching docs."])%list)
  /\ _labels (_on_timeout (run_events (_apply c st) evs))
     = {| _function := func_name c;
          _syntax := "Timed out while fetching docs.";
          _description := desc;
          _retval := rv |}.
Proof.
  intros Hs H1 H2 H3 Hevs.
  assert (Hframe : forall s, _labels (_on_timeout s)
            = {| _function := _function (_labels s);
                 _syntax := "Timed out while fetching docs.";
                 _description := _description (_labels s);
                 _retval := _retval (_labels s) |}).
  { intros s. by destruct (on_timeout_frame s) as (_ & _ & _ & _ & _ & ->). }
  split.
  - split; [apply Hframe|].
    by destruct (on_timeout_frame st0) as (_ & _ & _ & _ & -> & _).
  - rewrite Hframe.
    pose proof (run_events_keeps_doc_labels evs (_apply c st) Hevs) as Hkeep.
    unfold doc_labels in Hkeep.
    rewrite (apply_shows c st syn desc rv Hs H1 H2 H3) in Hkeep.
    simpl in Hkeep. by inversion Hkeep.
Qed.

Lemma C10_witness :
  _labels (_on_timeout
             (run_events (_apply sleep_found (WinDocSidebar_new plugin_cache))
                [XrefSelection (imported "Beep")]))
  = {| _function := "Sleep";
       _syntax := "Timed out while fetching docs.";
       _description := "Suspends the execution of the current thread.";
       _retval := "" |}.
Proof.
  refine (proj2
    (C10_timeout_overwrites_only_syntax
       (WinDocSidebar_new plugin_cache) (WinDocSidebar_new plugin_cache)
       sleep_found _ _ _ [XrefSelection (imported "Beep")]
       eq_refl eq_refl eq_refl eq_refl _)).
  apply List.Forall_cons; [discriminate | apply List.Forall_nil].
Defined.

(** ** The temporary file lies in the directory of the target *)

Lemma contains_char_app c a b :
  PyStr.contains_char c (a ++ b)
  = PyStr.contains_char c a || PyStr.contains_char c b.
Proof.
  induction a as [|x a IH]; [done|]. simpl. by destruct (Ascii.eqb x c).
Qed.

Lemma head_of_sep a b :
  PyStr.contains_char "/" b = false ->
  PosixPath.head_of (a ++ String "/" b) = a ++ "/".
Proof.
  intros Hb. induction a as [|x a IH]; simpl.
  - by rewrite Hb.
  - rewrite contains_char_app. simpl. rewrite orb_true_r. by rewrite IH.
Qed.

Lemma rstrip_sep_snoc a : PosixPath.rstrip_sep (a ++ "/") = PosixPath.rstrip_sep a.
Proof. induction a as [|x a IH]; [done|]. simpl. by rewrite IH. Qed.

Lemma rstrip_sep_id a :
  PyStr.endswith_char a "/" = false -> PosixPath.rstrip_sep a = a.
Proof.
  induction a as [|x a IH]; [done|]. simpl.
  destruct a as [|y a].
  - intros ->. done.
  - intros H. rewrite (IH H). done.
Qed.

Lemma rstrip_sep_no_sep a :
  PyStr.endswith_char (PosixPath.rstrip_sep a) "/" = false.
Proof.
  induction a as [|x a IH]; [done|]. simpl.
  destruct (PosixPath.rstrip_sep a) as [|y r] eqn:Hr; simpl.
  - by destruct (Ascii.eqb x "/") eqn:Hx.
  - exact IH.
Qed.

Lemma all_sep_snoc a :
  PyStr.all_chars is_sep (a ++ "/") = PyStr.all_chars is_sep a.
Proof.
  induction a as [|x a IH]; [done|]. simpl. by rewrite IH.
Qed.

Lemma all_sep_endswith a :
  PyStr.truthy a = true -> PyStr.all_chars is_sep a = true ->
  PyStr.endswith_char a "/" = true.
Proof.
  induction a as [|x a IH]; [done|]. intros _. simpl.
  intros [Hx Ha]%andb_true_iff. destruct a as [|y a]; [exact Hx|].
  by apply IH.
Qed.

Lemma endswith_snoc_form a c :
  PyStr.endswith_char a c = true -> exists b, a = b ++ String c "".
Proof.
  induction a as [|x a IH]; [done|]. simpl. destruct a as [|y a].
  - intros ->%Ascii.eqb_eq. by exists "".
  - intros H. destruct (IH H) as [b ->]. by exists (String x b).
Qed.

Lemma snoc_append b c s : (b ++ String c "") ++ s = b ++ String c s.
Proof.
  induction b as [|x b IH]; [done|].
  change (String x ((b ++ String c "") ++ s) = String x (b ++ String c s)).
  by rewrite IH.
Qed.

Lemma dirname_shape p :
  PyStr.all_chars is_sep (PosixPath.dirname p) = true
  \/ PyStr.endswith_char (PosixPath.dirname p) "/" = false.
Proof.
  unfold PosixPath.dirname. fold is_sep.
  destruct (PyStr.truthy (PosixPath.head_of p)) eqn:Ht; simpl.
  - destruct (PyStr.all_chars is_sep (PosixPath.head_of p)) eqn:Ha; simpl.
    + by left.
    + right. apply rstrip_sep_no_sep.
  - left. by destruct (PosixPath.head_of p).
Qed.

(** A name made of the prefix, an infix without separator and the suffix
    joined to the directory of [path] has that directory as its own. *)
Lemma dirname_tmp_path path n :
  PyStr.truthy (PosixPath.dirname path) = true ->
  PyStr.contains_char "/" n = false ->
  PosixPath.dirname (tmp_path path n) = PosixPath.dirname path.
Proof.
  intros Hd Hn. unfold tmp_path.
  set (d := PosixPath.dirname path) in *.
  assert (Hname : PyStr.contains_char "/" ("windoc_" ++ n ++ ".json") = false).
  { rewrite !contains_char_app, Hn. reflexivity. }
  unfold PosixPath.join.
  change (PyStr.startswith ("windoc_" ++ n ++ ".json") "/") with false.
  rewrite Hd. cbn [negb orb].
  destruct (dirname_shape path) as [Hall | Hend]; fold d in Hall || fold d in Hend.
  - rewrite (all_sep_endswith d Hd Hall).
    destruct (endswith_snoc_form d "/" (all_sep_endswith d Hd Hall)) as [b Hb].
    unfold PosixPath.dirname at 1. fold is_sep.
    rewrite Hb, snoc_append.
    rewrite (head_of_sep b _ Hname), <- Hb, Hd, Hall. reflexivity.
  - rewrite Hend. unfold PosixPath.dirname at 1. fold is_sep.
    change (d ++ "/" ++ "windoc_" ++ n ++ ".json")
      with (d ++ String "/" ("windoc_" ++ n ++ ".json")).
    rewrite (head_of_sep d _ Hname).
    rewrite all_sep_snoc.
    assert (Hnot : PyStr.all_chars is_sep d = false).
    { destruct (PyStr.all_chars is_sep d) eqn:Ha; [|done].
      by rewrite (all_sep_endswith d Hd Ha) in Hend. }
    rewrite Hnot. replace (PyStr.truthy (d ++ "/")) with true by (by destruct d).
    cbn [negb andb]. by rewrite rstrip_sep_snoc, rstrip_sep_id.
Qed.

(** ** Atomic persistence of the cache file *)

Lemma exists_in_true (fs : filesystem) p : exists_in fs p = true <-> is_Some (fs !! p).
Proof. unfold exists_in. by rewrite bool_decide_eq_true. Qed.

Lemma exists_in_false (fs : filesystem) p : exists_in fs p = false <-> fs !! p = None.
Proof.
  unfold exists_in. rewrite bool_decide_eq_false, <- eq_None_not_Some. done.
Qed.

Lemma first_fresh_spec (fs : filesystem) dir pre suf names file :
  first_fresh fs dir pre suf names = Some file ->
  fs !! file = None
  /\ exists n, In n names /\ file = PosixPath.join dir (pre ++ n ++ suf).
Proof.
  induction names as [|n rest IH]; simpl; [done|].
  destruct (exists_in fs _) eqn:Hex.
  - intros H. destruct (IH H) as (Hf & m & Hin & ->). eauto 6.
  - intros [= <-]. apply exists_in_false in Hex. eauto 6.
Qed.

(** The [finally] block swallows every failure of its own. *)
Lemma cleanup_never_raises env tmp s :
  snd (_atomic_write_cleanup env tmp s) = inr tt.
Proof.
  unfold _atomic_write_cleanup, try_except_OSError, bind, os_path_exists,
    os_remove, ret, mutate.
  destruct (exists_in (files s) tmp) eqn:Hex; [|done].
  rewrite Hex. destruct (remove_ok env); done.
Qed.

Lemma cleanup_existing env tmp st :
  is_Some (files st !! tmp) ->
  _atomic_write_cleanup env tmp st
  = (if remove_ok env
     then {| files := delete tmp (files st);
             trace := (trace st ++ [OpRemove tmp])%list |}
     else st, inr tt).
Proof.
  intros Hex%exists_in_true.
  unfold _atomic_write_cleanup, try_except_OSError, bind, os_path_exists,
    os_remove, ret, mutate.
  rewrite Hex, Hex. by destruct (remove_ok env).
Qed.

Lemma cleanup_absent env tmp st :
  files st !! tmp = None -> _atomic_write_cleanup env tmp st = (st, inr tt).
Proof.
  intros Hex%exists_in_false.
  unfold _atomic_write_cleanup, try_except_OSError, bind, os_path_exists,
    os_remove, ret, mutate.
  by rewrite Hex.
Qed.

(** What one call of [_atomic_write_json] does, case by case. *)
Lemma atomic_write_unfold env path obj s :
  _atomic_write_json env path obj s
  = if negb (PyStr.truthy (PosixPath.dirname path)) || negb (makedirs_ok env)
    then (s, inl (OSError Makedirs))
    else
      match first_fresh (files s) (PosixPath.dirname path) "windoc_" ".json"
              (tmp_names env) with
      | None => (s, inl (OSError Mkstemp))
      | Some tmp => write_and_replace env path tmp obj (created tmp s)
      end.
Proof.
  unfold _atomic_write_json, bind, os_makedirs, tempfile_mkstemp.
  destruct (negb (PyStr.truthy _) || negb (makedirs_ok env)); [done|].
  unfold ret at 1. destruct (first_fresh _ _ _ _ _); done.
Qed.

Section AtomicWriteBody.

Variables (env : os_env) (path tmp : string) (obj : json) (s : os_state).
Hypothesis Hfresh : files s !! tmp = None.
Hypothesis Hdistinct : tmp <> path.

Lemma body_success :
  dump_ok env = true -> replace_ok env = true ->
  write_and_replace env path tmp obj (created tmp s)
  = ({| files := <[path := Doc obj]> (files s);
            trace := (trace s ++ [OpCreate tmp; OpWrite tmp (Doc obj);
                                  OpReplace tmp path])%list |}, inr tt).
Proof.
  intros Hd Hr.
  unfold write_and_replace, created, try_finally, bind, json_dump_to,
    os_replace, mutate.
  rewrite Hd. cbn [files trace apply_op]. rewrite Hr.
  assert (Hex : exists_in (<[tmp:=Doc obj]> (<[tmp:=Unparsable]> (files s))) tmp = true).
  { apply exists_in_true. rewrite lookup_insert_eq. eauto. }
  rewrite Hex. cbn [andb files trace apply_op].
  rewrite lookup_insert_eq.
  assert (Hfs : <[path:=Doc obj]>
                  (delete tmp (<[tmp:=Doc obj]> (<[tmp:=Unparsable]> (files s))))
                = <[path:=Doc obj]> (files s)).
  { rewrite insert_insert_eq, delete_insert_id by exact Hfresh. done. }
  rewrite Hfs.
  rewrite cleanup_absent by (simpl; by rewrite lookup_insert_ne).
  by rewrite <- !app_assoc.
Qed.

Lemma body_failure :
  dump_ok env = false \/ replace_ok env = false ->
  exists op ops,
    snd (write_and_replace env path tmp obj (created tmp s)) = inl (OSError op) /\ op <> Remove
    /\ trace (fst (write_and_replace env path tmp obj (created tmp s))) = (trace s ++ OpCreate tmp :: ops)%list
    /\ files (fst (write_and_replace env path tmp obj (created tmp s))) = replay (OpCreate tmp :: ops) (files s)
    /\ Forall (fun fs => fs !! path = files s !! path)
         (states_after (OpCreate tmp :: ops) (files s))
    /\ files (fst (write_and_replace env path tmp obj (created tmp s))) !! path = files s !! path
    /\ (remove_ok env = true -> files (fst (write_and_replace env path tmp obj (created tmp s))) = files s).
Proof.
  intros Hfail.
  assert (Hex : forall c, exists_in (<[tmp:=c]> (<[tmp:=Unparsable]> (files s))) tmp = true).
  { intros c. apply exists_in_true. rewrite lookup_insert_eq. eauto. }
  assert (Hp : forall c, <[tmp:=c]> (<[tmp:=Unparsable]> (files s)) !! path = files s !! path).
  { intros c. by rewrite !lookup_insert_ne. }
  assert (Hp1 : <[tmp:=Unparsable]> (files s) !! path = files s !! path).
  { by rewrite lookup_insert_ne. }
  assert (Hdel : forall c, delete tmp (<[tmp:=c]> (<[tmp:=Unparsable]> (files s))) = files s).
  { intros c. rewrite insert_insert_eq, delete_insert_id by exact Hfresh. done. }
  assert (Hsome : forall c, is_Some (<[tmp:=c]> (<[tmp:=Unparsable]> (files s)) !! tmp)).
  { intros c. by apply exists_in_true. }
  unfold write_and_replace, created, try_finally, bind, json_dump_to,
    os_replace, mutate, raise.
  destruct (dump_ok env) eqn:Hd.
  - destruct Hfail as [|Hr]; [done|]. rewrite Hr.
    cbn [andb files trace apply_op].
    rewrite cleanup_existing by (simpl; apply Hsome).
    exists Replace.
    destruct (remove_ok env) eqn:Hrm; cbn [files trace fst snd].
    + exists [OpWrite tmp (Doc obj); OpRemove tmp].
      rewrite <- !app_assoc. simpl. rewrite Hdel.
      repeat split; try done.
      repeat (apply List.Forall_cons; [by rewrite ?Hdel, ?Hp, ?Hp1|]).
      apply List.Forall_nil.
    + exists [OpWrite tmp (Doc obj)].
      rewrite <- !app_assoc. simpl.
      repeat split; try done.
      repeat (apply List.Forall_cons; [by rewrite ?Hp, ?Hp1|]).
      apply List.Forall_nil.
  - unfold bind. cbn [andb files trace apply_op].
    rewrite cleanup_existing by (simpl; apply Hsome).
    exists Dump.
    destruct (remove_ok env) eqn:Hrm; cbn [files trace fst snd].
    + exists [OpWrite tmp Unparsable; OpRemove tmp].
      rewrite <- !app_assoc. simpl. rewrite Hdel.
      repeat split; try done.
      repeat (apply List.Forall_cons; [by rewrite ?Hdel, ?Hp, ?Hp1|]).
      apply List.Forall_nil.
    + exists [OpWrite tmp Unparsable].
      rewrite <- !app_assoc. simpl.
      repeat split; try done.
      repeat (apply List.Forall_cons; [by rewrite ?Hp, ?Hp1|]).
      apply List.Forall_nil.
Qed.

End AtomicWriteBody.

(** The outcome of one call of [_atomic_write_json], on success and on
    failure. *)
Lemma atomic_write_json_outcome
    (env : os_env) (path : string) (obj : json) (s : os_state) :
  (forall n, path <> tmp_path path n) ->
  (forall tmp s1, snd (_atomic_write_cleanup env tmp s1) = inr tt)
  /\ exists ops,
       trace (fst (_atomic_write_json env path obj s)) = (trace s ++ ops)%list
       /\ files (fst (_atomic_write_json env path obj s)) = replay ops (files s)
       /\ Forall (fun fs => fs !! path = files s !! path
                            \/ fs !! path = Some (Doc obj))
            (states_after ops (files s))
       /\ match snd (_atomic_write_json env path obj s) with
          | inr _ =>
              exists n,
                In n (tmp_names env)
                /\ files s !! tmp_path path n = None
                /\ ops = [OpCreate (tmp_path path n);
                          OpWrite (tmp_path path n) (Doc obj);
                          OpReplace (tmp_path path n) path]
                /\ files (fst (_atomic_write_json env path obj s))
                   = <[path := Doc obj]> (files s)
                /\ (PyStr.contains_char "/" n = false ->
                    PosixPath.dirname (tmp_path path n) = PosixPath.dirname path)
          | inl e =>
              (exists op, e = OSError op /\ op <> Remove)
              /\ files (fst (_atomic_write_json env path obj s)) !! path
                 = files s !! path
              /\ (remove_ok env = true ->
                  files (fst (_atomic_write_json env path obj s)) = files s)
          end.
Proof.
  intros Hname. split; [intros; apply cleanup_never_raises|].
  rewrite atomic_write_unfold.
  destruct (negb (PyStr.truthy _) || negb (makedirs_ok env)) eqn:Hmk.
  { exists []. rewrite app_nil_r. cbn [fst snd replay fold_left states_after].
    split; [done|]. split; [done|]. split; [apply List.Forall_nil|].
    split; [by exists Makedirs|]. done. }
  destruct (first_fresh _ _ _ _ _) as [tmp|] eqn:Hff.
  2:{ exists []. rewrite app_nil_r. cbn [fst snd replay fold_left states_after].
      split; [done|]. split; [done|]. split; [apply List.Forall_nil|].
      split; [by exists Mkstemp|]. done. }
  apply first_fresh_spec in Hff as (Hfresh & n & Hin & Htmp).
  change (PosixPath.join _ _) with (tmp_path path n) in Htmp.
  assert (Hdistinct : tmp <> path) by (subst tmp; intros He; by apply (Hname n)).
  destruct (dump_ok env) eqn:Hd; [destruct (replace_ok env) eqn:Hr|].
  - rewrite (body_success env path tmp obj s Hfresh Hdistinct Hd Hr).
    exists [OpCreate tmp; OpWrite tmp (Doc obj); OpReplace tmp path].
    cbn [fst snd files trace].
    assert (Hrep : replay [OpCreate tmp; OpWrite tmp (Doc obj); OpReplace tmp path]
                     (files s) = <[path := Doc obj]> (files s)).
    { unfold replay. simpl. rewrite lookup_insert_eq.
      by rewrite insert_insert_eq, delete_insert_id. }
    split; [done|]. split; [by rewrite Hrep|]. split.
    + simpl. rewrite lookup_insert_eq.
      apply List.Forall_cons; [left; by rewrite lookup_insert_ne|].
      apply List.Forall_cons; [left; by rewrite !lookup_insert_ne|].
      apply List.Forall_cons; [right; by rewrite lookup_insert_eq|].
      apply List.Forall_nil.
    + exists n. subst tmp. do 4 (split; [done|]).
      apply dirname_tmp_path.
      apply orb_false_iff in Hmk as [Ht _]. by apply negb_false_iff in Ht.
  - destruct (body_failure env path tmp obj s Hfresh Hdistinct (or_intror Hr))
      as (op & ops & Hout & Hop & Htr & Hfs & Hst & Hpath & Hrm).
    exists (OpCreate tmp :: ops). rewrite Hout.
    split; [done|]. split; [done|]. split.
    + eapply List.Forall_impl; [|exact Hst]. simpl. tauto.
    + split; [by exists op|]. done.
  - destruct (body_failure env path tmp obj s Hfresh Hdistinct (or_introl Hd))
      as (op & ops & Hout & Hop & Htr & Hfs & Hst & Hpath & Hrm).
    exists (OpCreate tmp :: ops). rewrite Hout.
    split; [done|]. split; [done|]. split.
    + eapply List.Forall_impl; [|exact Hst]. simpl. tauto.
    + split; [by exists op|]. done.
Qed.

(** C8. Every persistence writes the whole serialised mapping to a file
    newly created by [mkstemp] in the directory of the target (its path is
    the target's directory joined with a name that did not exist, and has
    that directory as its own) and then replaces the target with it: the
    target is only ever changed by that replacement, from its old content
    to the complete new one. On failure
    the target is untouched, the temporary file is removed when possible,
    and the cleanup never raises: a failure of the removal is swallowed
    and the exception that leaves the function is never the cleanup's. *)
Theorem C8_atomic_write_json
    (env : os_env) (path : string) (obj : json) (s : os_state) :
  (forall n, path <> tmp_path path n) ->
  (forall tmp s1, snd (_atomic_write_cleanup env tmp s1) = inr tt)
  /\ exists ops,
       trace (fst (_atomic_write_json env path obj s)) = (trace s ++ ops)%list
       /\ files (fst (_atomic_write_json env path obj s)) = replay ops (files s)
       /\ Forall (fun fs => fs !! path = files s !! path
                            \/ fs !! path = Some (Doc obj))
            (states_after ops (files s))
       /\ match snd (_atomic_write_json env path obj s) with
          | inr _ =>
              exists n,
                In n (tmp_names env)
                /\ files s !! tmp_path path n = None
                /\ ops = [OpCreate (tmp_path path n);
                          OpWrite (tmp_path path n) (Doc obj);
                          OpReplace (tmp_path path n) path]
                /\ files (fst (_atomic_write_json env path obj s))
                   = <[path := Doc obj]> (files s)
                /\ (PyStr.contains_char "/" n = false ->
                    PosixPath.dirname (tmp_path path n) = PosixPath.dirname path)
          | inl e =>
              (exists op, e = OSError op /\ op <> Remove)
              /\ files (fst (_atomic_write_json env path obj s)) !! path
                 = files s !! path
              /\ (remove_ok env = true ->
                  files (fst (_atomic_write_json env path obj s)) = files s)
          end.
Proof. exact (atomic_write_json_outcome env path obj s). Qed.

Lemma plugin_cache_not_temporary n : plugin_cache <> tmp_path plugin_cache n.
Proof. unfold tmp_path. simpl. discriminate. Qed.

Lemma C8_witness :
  files (fst (_atomic_write_json (all_ok ["k3x9q_ab"]) plugin_cache
                (JObj {[ "Beep" := JObj {[ "found" := JBool false ]} ]})
                empty_disk)) !! plugin_cache
  = Some (Doc (JObj {[ "Beep" := JObj {[ "found" := JBool false ]} ]})).
Proof.
  destruct (C8_atomic_write_json (all_ok ["k3x9q_ab"]) plugin_cache
              (JObj {[ "Beep" := JObj {[ "found" := JBool false ]} ]})
              empty_disk plugin_cache_not_temporary)
    as (_ & ops & _ & _ & _ & Hout).
  destruct (snd (_atomic_write_json _ _ _ _)) eqn:Hr.
  - vm_compute in Hr. discriminate Hr.
  - destruct Hout as (n & _ & _ & _ & -> & _). apply lookup_insert_eq.
Defined.

(** ** The worker and the cache *)

Section Worker.

Variables (env : os_env) (net : network).

Lemma query_docs_requests me :
  fst (query_docs net me) = fst (MSFTLearnScrapper_new net (function_name me)).
Proof.
  unfold query_docs.
  destruct (MSFTLearnScrapper_new net (function_name me)) as [reqs [e|scr]]; [done|].
  by destruct (negb _ || negb _).
Qed.

Lemma query_docs_identity me :
  function_name (snd (query_docs net me)) = function_name me
  /\ cache_file (snd (query_docs net me)) = cache_file me
  /\ req_id (snd (query_docs net me)) = req_id me.
Proof.
  unfold query_docs.
  destruct (MSFTLearnScrapper_new net (function_name me)) as [reqs [e|scr]]; [done|].
  by destruct (negb _ || negb _).
Qed.

Lemma query_docs_failed me :
  fetch_failed (snd (MSFTLearnScrapper_new net (function_name me))) ->
  snd (query_docs net me) = set_success me false.
Proof.
  unfold query_docs, fetch_failed.
  destruct (MSFTLearnScrapper_new net (function_name me)) as [reqs [e|scr]];
    simpl; [done|].
  intros [Hs | Hf].
  - rewrite Hs. done.
  - rewrite Hf, orb_true_r. done.
Qed.

Lemma lookup_cached_miss_dict me cache :
  lookup_cached me cache = inr None -> exists m, cache = JObj m.
Proof. destruct cache; simpl; try discriminate. eauto. Qed.

Lemma lookup_cached_malformed me m e :
  m !! function_name me = Some e -> malformed e ->
  lookup_cached me (JObj m) = inr None.
Proof.
  intros Hm He. unfold lookup_cached, Py.dict_get at 1. rewrite Hm. simpl.
  destruct e; try done. destruct He as [Ht Hf]. by rewrite Hf, Ht.
Qed.

Lemma read_cache_written (fs : filesystem) path k v (m : gmap string json) :
  read_cache (<[path := Doc (JObj (<[k := v]> m))]> fs) path = JObj (<[k := v]> m).
Proof.
  unfold read_cache. rewrite lookup_insert_eq. unfold Py.or_else. simpl.
  rewrite bool_decide_eq_false_2; [done|]. apply insert_non_empty.
Qed.

Lemma write_cache_outcome me s m :
  (forall n, cache_file me <> tmp_path (cache_file me) n) ->
  read_cache (files s) (cache_file me) = JObj m ->
  match snd (write_cache env me s) with
  | inr _ =>
      files (fst (write_cache env me s))
      = <[cache_file me := Doc (JObj (<[function_name me := cache_entry me]> m))]>
          (files s)
  | inl e =>
      (exists op, e = OSError op)
      /\ files (fst (write_cache env me s)) !! cache_file me
         = files s !! cache_file me
  end.
Proof.
  intros Hname Hread. unfold write_cache, bind, get. rewrite Hread.
  destruct (atomic_write_json_outcome env (cache_file me)
              (JObj (<[function_name me := cache_entry me]> m)) s Hname)
    as (_ & ops & _ & _ & _ & Hout).
  destruct (snd (_atomic_write_json _ _ _ _)) as [e|[]].
  - destruct Hout as ((op & -> & _) & Hp & _). eauto.
  - by destruct Hout as (n & _ & _ & _ & -> & _).
Qed.

(** [run] on a cache miss: the query, then the write. *)
Lemma run_on_miss me s :
  PyStr.truthy (function_name me) = true ->
  lookup_cached me (read_cache (files s) (cache_file me)) = inr None ->
  worker (run env net me s) = snd (query_docs net me)
  /\ requests (run env net me s) = fst (query_docs net me)
  /\ os_after (run env net me s) = fst (write_cache env (snd (query_docs net me)) s)
  /\ raised (run env net me s)
     = match snd (write_cache env (snd (query_docs net me)) s) with
       | inl e => Some e
       | inr _ => None
       end.
Proof.
  intros Hn Hmiss. unfold run. rewrite Hn, Hmiss. simpl.
  destruct (query_docs net me) as [reqs me']. simpl.
  by destruct (write_cache env me' s) as [s' [e|u]].
Qed.

(** [run] on a hit: no request, no write. *)
Lemma run_on_hit me me' s :
  PyStr.truthy (function_name me) = true ->
  lookup_cached me (read_cache (files s) (cache_file me)) = inr (Some me') ->
  run env net me s
  = {| worker := me'; os_after := s; requests := []; raised := None |}.
Proof. intros Hn Hhit. unfold run. by rewrite Hn, Hhit. Qed.

End Worker.

Lemma init_from_name_sent net name s :
  exists rest,
    sent (fst (_init_from_name net name s)) = (sent s ++ GetSearch name :: rest)%list.
Proof.
  unfold _init_from_name, search_results, get_soup, send, update_self, modify,
    bind, ret, raise.
  destruct (net_search net name) as [[|res results]|]; [by eauto| |by eauto].
  generalize (select_url name (res :: results)). intros [url|]; [|by eauto].
  destruct (negb (PyStr.truthy url)); [by eauto|].
  destruct (net_page net url); cbn [fst sent]; rewrite <- app_assoc; by eauto.
Qed.

(** Constructing a scraper always queries the search endpoint for the
    requested name first. *)
Lemma scrapper_new_sends_search net name :
  exists rest, fst (MSFTLearnScrapper_new net name) = GetSearch name :: rest.
Proof.
  unfold MSFTLearnScrapper_new, MSFTLearnScrapper_init.
  unfold bind at 1.
  destruct (init_from_name_sent net name (new_scrapper name)) as [rest1 H1].
  destruct (_init_from_name net name (new_scrapper name)) as [s1 [e|[]]];
    simpl in H1; [eauto|].
  unfold bind at 1, get at 1.
  destruct (bool_decide _); [unfold set_resolved, update_self, modify; simpl; eauto|].
  destruct (PyStr.truthy name && _); [|unfold ret; simpl; eauto].
  unfold bind at 1.
  destruct (init_from_name_sent net (PyStr.drop_last name) s1) as [rest2 H2].
  destruct (_init_from_name net (PyStr.drop_last name) s1) as [s2 [e|[]]];
    simpl in H2; rewrite H1 in H2; simpl in H2; [eauto|].
  unfold bind, get, set_resolved, update_self, modify, ret.
  destruct (bool_decide _); [destruct (PyStr.endswith_char _ _)|]; simpl; eauto.
Qed.

Lemma cache_entry_well_formed me : ~ malformed (cache_entry me).
Proof.
  unfold malformed, cache_entry, Py.dict_get. rewrite lookup_insert_eq. simpl.
  destruct (success me); intros [? ?]; discriminate.
Qed.

Lemma read_cache_dict (fs : filesystem) path (m : gmap string json) k e :
  fs !! path = Some (Doc (JObj m)) -> m !! k = Some e ->
  read_cache fs path = JObj m.
Proof.
  intros Hf Hk. unfold read_cache, Py.or_else. rewrite Hf. simpl.
  rewrite bool_decide_eq_false_2; [done|].
  intros ->. by rewrite lookup_empty in Hk.
Qed.

(** The write goes through exactly when each of its calls succeeds. *)
Lemma atomic_write_json_succeeds env path obj s :
  (forall n, path <> tmp_path path n) ->
  calls_succeed env (files s) path = true ->
  snd (_atomic_write_json env path obj s) = inr tt
  /\ files (fst (_atomic_write_json env path obj s))
     = <[path := Doc obj]> (files s).
Proof.
  intros Hname Hok. unfold calls_succeed in Hok.
  apply andb_true_iff in Hok as [Hok Hr].
  apply andb_true_iff in Hok as [Hok Hd].
  apply andb_true_iff in Hok as [Hok Hff].
  apply andb_true_iff in Hok as [Ht Hm].
  apply bool_decide_eq_true in Hff as [tmp Hff].
  rewrite atomic_write_unfold, Ht, Hm, Hff. cbn [negb orb].
  apply first_fresh_spec in Hff as (Hfresh & n & _ & Htmp).
  change (PosixPath.join _ _) with (tmp_path path n) in Htmp.
  assert (Hdistinct : tmp <> path) by (subst tmp; intros He; by apply (Hname n)).
  by rewrite (body_success env path tmp obj s Hfresh Hdistinct Hd Hr).
Qed.

Lemma atomic_write_json_fails env path obj s :
  (forall n, path <> tmp_path path n) ->
  calls_succeed env (files s) path = false ->
  (exists op, snd (_atomic_write_json env path obj s) = inl (OSError op))
  /\ files (fst (_atomic_write_json env path obj s)) !! path = files s !! path.
Proof.
  intros Hname Hbad. unfold calls_succeed in Hbad.
  rewrite atomic_write_unfold.
  destruct (PyStr.truthy (PosixPath.dirname path)); cbn [negb orb andb] in *;
    [|by eauto].
  destruct (makedirs_ok env); cbn [negb andb] in *; [|by eauto].
  destruct (first_fresh _ _ _ _ _) as [tmp|] eqn:Hff; [|by eauto].
  rewrite bool_decide_eq_true_2 in Hbad by eauto. cbn [andb] in Hbad.
  apply first_fresh_spec in Hff as (Hfresh & n & _ & Htmp).
  change (PosixPath.join _ _) with (tmp_path path n) in Htmp.
  assert (Hdistinct : tmp <> path) by (subst tmp; intros He; by apply (Hname n)).
  assert (Hfail : dump_ok env = false \/ replace_ok env = false).
  { destruct (dump_ok env); [by right|by left]. }
  destruct (body_failure env path tmp obj s Hfresh Hdistinct Hfail)
    as (op & ops & Hsnd & _ & _ & _ & _ & Hp & _).
  split; [by exists op|exact Hp].
Qed.

Lemma write_cache_by_calls env me s m :
  (forall n, cache_file me <> tmp_path (cache_file me) n) ->
  read_cache (files s) (cache_file me) = JObj m ->
  if calls_succeed env (files s) (cache_file me)
  then snd (write_cache env me s) = inr tt
       /\ files (fst (write_cache env me s))
          = <[cache_file me := Doc (JObj (<[function_name me := cache_entry me]> m))]>
              (files s)
  else (exists op, snd (write_cache env me s) = inl (OSError op))
       /\ files (fst (write_cache env me s)) !! cache_file me
          = files s !! cache_file me.
Proof.
  intros Hname Hread. unfold write_cache, bind, get. rewrite Hread.
  destruct (calls_succeed env (files s) (cache_file me)) eqn:Hc.
  - by apply atomic_write_json_succeeds.
  - by apply atomic_write_json_fails.
Qed.

(** [run] on a cache miss, by whether the calls of the write succeed. *)
Lemma run_on_miss_by_calls env net name g path s m :
  PyStr.truthy name = true ->
  (forall n, path <> tmp_path path n) ->
  read_cache (files s) path = JObj m ->
  lookup_cached (ScrapperThread_new name g path) (JObj m) = inr None ->
  let r := run env net (ScrapperThread_new name g path) s in
  (calls_succeed env (files s) path = true ->
   raised r = None
   /\ files (os_after r)
      = <[path := Doc (JObj (<[name := cache_entry (worker r)]> m))]> (files s))
  /\ (calls_succeed env (files s) path = false ->
      (exists op, raised r = Some (OSError op))
      /\ files (os_after r) !! path = files s !! path).
Proof.
  intros Hn Hname Hread Hmiss r. rewrite <- Hread in Hmiss.
  destruct (run_on_miss env net (ScrapperThread_new name g path) s Hn Hmiss)
    as (Hw & _ & Hos & Hr). fold r in Hw, Hos, Hr.
  destruct (query_docs_identity net (ScrapperThread_new name g path))
    as (Hfn & Hcf & _). cbn [function_name cache_file ScrapperThread_new] in Hfn, Hcf.
  pose proof (write_cache_by_calls env
                (snd (query_docs net (ScrapperThread_new name g path))) s m)
    as Hout.
  rewrite Hcf, Hfn, <- Hw in Hout. specialize (Hout Hname Hread).
  rewrite <- Hw in Hos, Hr. rewrite Hr, Hos.
  split; intros Hc; rewrite Hc in Hout.
  - destruct Hout as [-> ->]. done.
  - destruct Hout as [[op ->] ->]. eauto.
Qed.

(** What the query leaves in a fresh worker is the entry the specification
    asks for. *)
Lemma cache_entry_fetched net name g path :
  cache_entry (snd (query_docs net (ScrapperThread_new name g path)))
  = fetched_entry (snd (MSFTLearnScrapper_new net name)).
Proof.
  unfold query_docs, fetched_entry, found_function_docs.
  cbn [function_name ScrapperThread_new].
  destruct (MSFTLearnScrapper_new net name) as [reqs [e|scr]]; [done|].
  cbn [snd]. unfold get_syntax. destruct (soup scr) as [page|]; [|done].
  rewrite bool_decide_eq_true_2 by eauto. cbn [negb orb].
  destruct (syntax_of_h2s (h2_tags page)) as [syn|].
  - rewrite bool_decide_eq_true_2 by eauto. done.
  - rewrite bool_decide_eq_false_2 by (by intros [? ?]). done.
Qed.

(** C3. On the network path (a cache miss), when the fetch raises, finds
    no page, or finds a page without a Syntax section, the worker's outcome
    is [found = false] with empty syntax, description and return-value
    strings, and that negative entry is what is persisted: when the calls
    of the write succeed the worker returns normally and the cache file
    holds the old mapping with the negative entry under the name; when one
    of them fails the worker raises that [OSError] and the file is as it
    was. *)
Theorem C3_failed_fetch_is_negative_and_cached
    (env : os_env) (net : network) (name : string) (g : Z) (path : string)
    (s : os_state) :
  PyStr.truthy name = true ->
  (forall n, path <> tmp_path path n) ->
  lookup_cached (ScrapperThread_new name g path) (read_cache (files s) path)
  = inr None ->
  fetch_failed (snd (MSFTLearnScrapper_new net name)) ->
  let r := run env net (ScrapperThread_new name g path) s in
  finish (worker r)
  = {| got_req_id := g; func_name := name; got_success := false;
       got_syntax := JStr ""; got_desc := JStr ""; got_rv := JStr "" |}
  /\ cache_entry (worker r) = negative_entry
  /\ (calls_succeed env (files s) path = true ->
      raised r = None
      /\ exists m,
           read_cache (files s) path = JObj m
           /\ files (os_after r)
              = <[path := Doc (JObj (<[name := negative_entry]> m))]> (files s)
           /\ read_cache (files (os_after r)) path
              = JObj (<[name := negative_entry]> m))
  /\ (calls_succeed env (files s) path = false ->
      (exists op, raised r = Some (OSError op))
      /\ files (os_after r) !! path = files s !! path).
Proof.
  intros Hn Hname Hmiss Hfail r.
  destruct (run_on_miss env net (ScrapperThread_new name g path) s Hn Hmiss)
    as (Hw & _). fold r in Hw.
  rewrite (query_docs_failed net (ScrapperThread_new name g path) Hfail) in Hw.
  assert (Hentry : cache_entry (worker r) = negative_entry) by by rewrite Hw.
  split; [by rewrite Hw|]. split; [exact Hentry|].
  destruct (lookup_cached_miss_dict _ _ Hmiss) as [m Hm].
  rewrite Hm in Hmiss.
  destruct (run_on_miss_by_calls env net name g path s m Hn Hname Hm Hmiss)
    as [Hgood Hbad]. fold r in Hgood, Hbad. rewrite Hentry in Hgood.
  split; [|exact Hbad].
  intros Hc. destruct (Hgood Hc) as [Hr Hfiles]. split; [exact Hr|].
  exists m. split; [done|]. split; [exact Hfiles|].
  rewrite Hfiles. apply read_cache_written.
Qed.

(** C9. When the cache file holds, under the requested name, an entry that
    is not a dict or whose ["found"] is neither [True] nor [False], the
    worker treats the name as a miss: it queries the site afresh, its
    outcome is the entry of that fetch, which is well formed and so differs
    from the old one, and it overwrites the malformed entry with it: when
    the calls of the write succeed the worker returns normally and the file
    holds the old mapping with the new entry under the name; when one of
    them fails the worker raises that [OSError] and the file is as it
    was. *)
Theorem C9_malformed_entry_is_refetched_and_overwritten
    (env : os_env) (net : network) (name : string) (g : Z) (path : string)
    (s : os_state) (m : gmap string json) (e : json) :
  PyStr.truthy name = true ->
  (forall n, path <> tmp_path path n) ->
  files s !! path = Some (Doc (JObj m)) ->
  m !! name = Some e ->
  malformed e ->
  let r := run env net (ScrapperThread_new name g path) s in
  requests r = fst (MSFTLearnScrapper_new net name)
  /\ (exists rest, requests r = GetSearch name :: rest)
  /\ cache_entry (worker r) = fetched_entry (snd (MSFTLearnScrapper_new net name))
  /\ ~ malformed (cache_entry (worker r))
  /\ cache_entry (worker r) <> e
  /\ (calls_succeed env (files s) path = true ->
      raised r = None
      /\ files (os_after r)
         = <[path := Doc (JObj (<[name := cache_entry (worker r)]> m))]> (files s))
  /\ (calls_succeed env (files s) path = false ->
      (exists op, raised r = Some (OSError op))
      /\ files (os_after r) !! path = files s !! path).
Proof.
  intros Hn Hname Hfile Hkey Hbad r.
  pose proof (read_cache_dict _ _ _ _ _ Hfile Hkey) as Hread.
  assert (Hmiss : lookup_cached (ScrapperThread_new name g path) (JObj m)
                  = inr None)
    by by apply (lookup_cached_malformed _ m e).
  assert (Hmiss' : lookup_cached (ScrapperThread_new name g path)
                     (read_cache (files s) path) = inr None)
    by by rewrite Hread.
  destruct (run_on_miss env net (ScrapperThread_new name g path) s Hn Hmiss')
    as (Hw & Hq & _). fold r in Hw, Hq.
  split; [by rewrite Hq, query_docs_requests|].
  split; [rewrite Hq, query_docs_requests; apply scrapper_new_sends_search|].
  split; [rewrite Hw; apply cache_entry_fetched|].
  split; [apply cache_entry_well_formed|].
  split.
  - intros Heq. apply (cache_entry_well_formed (worker r)). by rewrite Heq.
  - exact (run_on_miss_by_calls env net name g path s m Hn Hname Hread Hmiss).
Qed.

Lemma C3_witness :
  let r := run (all_ok ["k3x9q_ab"]) offline
             (ScrapperThread_new "Beep" 1 plugin_cache) empty_disk in
  got_success (finish (worker r)) = false
  /\ raised r = None
  /\ files (os_after r) !! plugin_cache
     = Some (Doc (JObj {[ "Beep" := negative_entry ]})).
Proof.
  intros r.
  destruct (C3_failed_fetch_is_negative_and_cached
              (all_ok ["k3x9q_ab"]) offline "Beep" 1 plugin_cache empty_disk
              eq_refl plugin_cache_not_temporary eq_refl I)
    as (Hfin & _ & Hgood & _).
  fold r in Hfin, Hgood.
  destruct Hgood as (Hr & m & Hm & Hfiles & _); [vm_compute; reflexivity|].
  split; [by rewrite Hfin|]. split; [exact Hr|].
  injection Hm as <-. rewrite Hfiles. apply lookup_insert_eq.
Defined.

Lemma C9_witness :
  let r := run (all_ok ["k3x9q_ab"]) offline
             (ScrapperThread_new "Beep" 1 plugin_cache) edited_disk in
  requests r = [GetSearch "Beep"]
  /\ raised r = None
  /\ files (os_after r) !! plugin_cache
     = Some (Doc (JObj {[ "Beep" := negative_entry ]})).
Proof.
  intros r.
  destruct (C9_malformed_entry_is_refetched_and_overwritten
              (all_ok ["k3x9q_ab"]) offline "Beep" 1 plugin_cache edited_disk
              {[ "Beep" := JInt 42 ]} (JInt 42)
              eq_refl plugin_cache_not_temporary)
    as (Hreq & _ & Hentry & _ & _ & Hgood & _).
  - apply lookup_singleton_eq.
  - apply lookup_singleton_eq.
  - exact I.
  - fold r in Hreq, Hentry, Hgood.
    destruct Hgood as (Hr & Hfiles); [vm_compute; reflexivity|].
    split; [exact Hreq|]. split; [exact Hr|].
    rewrite Hfiles, Hentry, lookup_insert_eq.
    change (fetched_entry (MSFTLearnScrapper_new offline "Beep").2)
      with negative_entry.
    by rewrite insert_singleton_eq.
Defined.

(** ** Two lookups in a row *)

(** C4, as stated, fails in two ways. The key ["Beep"] is present in the
    cache file and a lookup of ["Beep"] replaces its entry. And when the
    write of a first lookup fails, the second lookup of the same name
    fetches again: two fetches for one name. *)
Lemma C4_counterexample :
  (let r := run (all_ok ["k3x9q_ab"]) offline
              (ScrapperThread_new "Beep" 1 plugin_cache) edited_disk in
   files edited_disk !! plugin_cache = Some (Doc (JObj {[ "Beep" := JInt 42 ]}))
   /\ raised r = None
   /\ files (os_after r) !! plugin_cache
      = Some (Doc (JObj {[ "Beep" := negative_entry ]})))
  /\ (let r1 := run (replace_fails ["k3x9q_ab"]) docs_site
                  (ScrapperThread_new "OpenMutexW" 1 plugin_cache) empty_disk in
      let r2 := run (all_ok ["mmmmmmmm"]) docs_site
                  (ScrapperThread_new "OpenMutexW" 2 plugin_cache) (os_after r1) in
      raised r1 = Some (OSError Replace)
      /\ requests r1 = [GetSearch "OpenMutexW"; GetPage openmutexw_url]
      /\ requests r2 = [GetSearch "OpenMutexW"; GetPage openmutexw_url]).
Proof.
  cbv zeta. split.
  - split; [apply lookup_singleton_eq|].
    split; [vm_compute; reflexivity|]. vm_compute. reflexivity.
  - split; [vm_compute; reflexivity|].
    split; vm_compute; reflexivity.
Qed.

Lemma cache_entry_fields me :
  exists entry : gmap string json,
    cache_entry me = JObj entry
    /\ entry !! "found" = Some (JBool (success me))
    /\ entry !! "syntax" = Some (syntax me)
    /\ entry !! "description" = Some (description me)
    /\ entry !! "return_value" = Some (return_value me).
Proof.
  eexists. split; [reflexivity|].
  repeat split; by simplify_map_eq.
Qed.

Lemma query_docs_from_query net name g path :
  from_query (snd (query_docs net (ScrapperThread_new name g path))).
Proof.
  unfold query_docs.
  destruct (MSFTLearnScrapper_new net _) as [reqs [e|scr]]; [by left|].
  destruct (negb _ || negb _); [by left|].
  right. simpl. eauto 10.
Qed.

Lemma or_else_str s : Py.or_else (JStr s) (JStr "") = JStr s.
Proof. by destruct s. Qed.

(** A fresh worker reads back the outcome another worker stored. *)
Lemma lookup_cached_stored name g path w (m : gmap string json) :
  from_query w ->
  exists b,
    lookup_cached (ScrapperThread_new name g path)
      (JObj (<[name := cache_entry w]> m)) = inr (Some b)
    /\ same_outcome b w.
Proof.
  intros Hw. unfold lookup_cached, Py.dict_get at 1.
  cbn [function_name ScrapperThread_new]. rewrite lookup_insert_eq.
  destruct (cache_entry_fields w) as (entry & -> & Hf & Hs & Hd & Hr).
  cbn [default from_option id]. unfold Py.dict_get, Py.dict_get_default. rewrite Hf, Hs, Hd, Hr.
  cbn [default from_option id].
  destruct Hw as [(Hsucc & H1 & H2 & H3) | (Hsucc & a & b & c & H1 & H2 & H3)];
    rewrite Hsucc; cbn [Py.is_False Py.is_True].
  - eexists. split; [reflexivity|]. unfold same_outcome. simpl.
    by rewrite H1, H2, H3.
  - eexists. split; [reflexivity|]. unfold same_outcome. simpl.
    by rewrite H1, H2, H3, !or_else_str.
Qed.

(** Two fresh workers for one name read the same cached outcome. *)
Lemma lookup_cached_fresh name g1 g2 path cache a :
  lookup_cached (ScrapperThread_new name g1 path) cache = inr (Some a) ->
  exists b,
    lookup_cached (ScrapperThread_new name g2 path) cache = inr (Some b)
    /\ same_outcome b a.
Proof.
  unfold lookup_cached. cbn [function_name ScrapperThread_new].
  destruct cache as [| | | | | |m]; try discriminate.
  destruct (Py.dict_get m name) as [| | | | | |entry]; try discriminate.
  destruct (Py.is_False _).
  - intros [= <-]. eexists. split; [reflexivity|]. by unfold same_outcome.
  - destruct (Py.is_True _); [|discriminate].
    intros [= <-]. eexists. split; [reflexivity|]. by unfold same_outcome.
Qed.

Lemma lookup_cached_well_formed me (m entry : gmap string json) :
  m !! function_name me = Some (JObj entry) ->
  ~ malformed (JObj entry) ->
  exists me', lookup_cached me (JObj m) = inr (Some me').
Proof.
  intros Hk Hwf. unfold lookup_cached, Py.dict_get at 1. rewrite Hk. cbn [default from_option id].
  destruct (Py.is_False _) eqn:Hf; [eauto|].
  destruct (Py.is_True _) eqn:Ht; [eauto|].
  exfalso. apply Hwf. by split.
Qed.

(** C4 (amended). When a first lookup of a name returns without raising,
    the two lookups make at most one fetch: the first sends no request or
    those of one construction of the scraper, and a second lookup of the
    same name right after it sends no request, leaves the file system as
    the first left it and reports the same outcome as the first. The first
    lookup returns without raising whenever the cache is read as an object
    and the calls of its write succeed. And a lookup of a key whose cached
    entry is well formed (a dict whose ["found"] is [True] or [False]) sends
    no request, does not raise and does not write. *)
Theorem C4_second_lookup_is_answered_from_cache
    (env1 env2 : os_env) (net1 net2 : network) (name : string) (g1 g2 : Z)
    (path : string) (s : os_state) :
  (forall n, path <> tmp_path path n) ->
  let r1 := run env1 net1 (ScrapperThread_new name g1 path) s in
  let r2 := run env2 net2 (ScrapperThread_new name g2 path) (os_after r1) in
  (raised r1 = None ->
   (requests r1 = [] \/ requests r1 = fst (MSFTLearnScrapper_new net1 name))
   /\ requests r2 = []
   /\ raised r2 = None
   /\ os_after r2 = os_after r1
   /\ same_outcome (worker r2) (worker r1))
  /\ (forall m : gmap string json,
        read_cache (files s) path = JObj m ->
        calls_succeed env1 (files s) path = true ->
        raised r1 = None)
  /\ (forall (m entry : gmap string json),
        files s !! path = Some (Doc (JObj m)) ->
        m !! name = Some (JObj entry) ->
        ~ malformed (JObj entry) ->
        requests r1 = [] /\ raised r1 = None /\ os_after r1 = s).
Proof.
  intros Hname r1 r2.
  destruct (PyStr.truthy name) eqn:Hn.
  2:{ subst r2 r1. unfold run. cbn [function_name ScrapperThread_new].
      rewrite Hn. cbn [negb os_after worker requests raised].
      rewrite ?Hn. cbn [negb os_after worker requests raised].
      split; [intros _; split; [by left|by unfold same_outcome]|].
      split; [done|]. intros m' entry _ _ _. done. }
  destruct (lookup_cached (ScrapperThread_new name g1 path)
              (read_cache (files s) path)) as [e | [a|]] eqn:Hlook.
  - assert (Hr1 : raised r1 = Some e).
    { subst r1. unfold run. cbn [function_name cache_file ScrapperThread_new].
      by rewrite Hn, Hlook. }
    split; [intros Hok; rewrite Hr1 in Hok; discriminate|].
    split.
    + intros m Hm _. rewrite Hm in Hlook. unfold lookup_cached in Hlook.
      destruct (Py.dict_get m _); try discriminate.
      destruct (Py.is_False _); [discriminate|].
      by destruct (Py.is_True _).
    + intros m' entry Hfile Hkey Hwf. exfalso.
      pose proof (read_cache_dict _ _ _ _ _ Hfile Hkey) as Hrd.
      rewrite Hrd in Hlook.
      destruct (lookup_cached_well_formed (ScrapperThread_new name g1 path)
                  m' entry Hkey Hwf) as [me' Hhit].
      rewrite Hhit in Hlook. discriminate.
  - pose proof (run_on_hit env1 net1 (ScrapperThread_new name g1 path) a s
                  Hn Hlook) as H1. fold r1 in H1.
    destruct (lookup_cached_fresh name g1 g2 path _ a Hlook) as (b & Hb & Hsame).
    assert (H2 : r2 = {| worker := b; os_after := s; requests := []; raised := None |}).
    { subst r2. rewrite H1. cbn [os_after].
      by apply (run_on_hit env2 net2 (ScrapperThread_new name g2 path) b s). }
    rewrite H2, H1. cbn [worker os_after requests raised].
    split; [intros _; split; [by left|done]|]. split; [done|].
    intros m' entry _ _ _. done.
  - destruct (run_on_miss env1 net1 (ScrapperThread_new name g1 path) s Hn Hlook)
      as (Hw & Hq & _). fold r1 in Hw, Hq.
    destruct (lookup_cached_miss_dict _ _ Hlook) as [m Hm].
    pose proof Hlook as Hmiss. rewrite Hm in Hmiss.
    destruct (run_on_miss_by_calls env1 net1 name g1 path s m Hn Hname Hm Hmiss)
      as [Hgood Hbad]. fold r1 in Hgood, Hbad.
    split; [|split].
    + intros Hok.
      destruct (calls_succeed env1 (files s) path) eqn:Hc.
      2:{ destruct (Hbad eq_refl) as [[op Hop] _]. rewrite Hop in Hok.
          discriminate. }
      destruct (Hgood eq_refl) as [_ Hout].
      assert (Hread : read_cache (files (os_after r1)) path
                      = JObj (<[name := cache_entry (worker r1)]> m)).
      { rewrite Hout. apply read_cache_written. }
      assert (Hfq : from_query (worker r1)).
      { rewrite Hw. apply query_docs_from_query. }
      destruct (lookup_cached_stored name g2 path (worker r1) m Hfq)
        as (b & Hb & Hsame).
      rewrite <- Hread in Hb.
      pose proof (run_on_hit env2 net2 (ScrapperThread_new name g2 path) b
                    (os_after r1) Hn Hb) as H2. fold r2 in H2.
      rewrite H2. cbn [worker os_after requests raised].
      split; [right; by rewrite Hq, query_docs_requests|].
      split; [done|]. split; [done|]. split; [done|exact Hsame].
    + intros m' Hm' Hc. rewrite Hm in Hm'. injection Hm' as <-.
      by destruct (Hgood Hc).
    + intros m' entry Hfile Hkey Hwf. exfalso.
      pose proof (read_cache_dict _ _ _ _ _ Hfile Hkey) as Hrd.
      rewrite Hrd in Hlook.
      destruct (lookup_cached_well_formed (ScrapperThread_new name g1 path)
                  m' entry Hkey Hwf) as [me' Hhit].
      rewrite Hhit in Hlook. discriminate.
Qed.

Lemma C4_witness :
  let r1 := run (all_ok ["k3x9q_ab"]) docs_site
              (ScrapperThread_new "OpenMutexW" 1 plugin_cache) empty_disk in
  let r2 := run (all_ok ["mmmmmmmm"]) docs_site
              (ScrapperThread_new "OpenMutexW" 2 plugin_cache) (os_after r1) in
  requests r1 = [GetSearch "OpenMutexW"; GetPage openmutexw_url]
  /\ requests r2 = []
  /\ os_after r2 = os_after r1
  /\ same_outcome (worker r2) (worker r1).
Proof.
  intros r1 r2.
  destruct (C4_second_lookup_is_answered_from_cache
              (all_ok ["k3x9q_ab"]) (all_ok ["mmmmmmmm"]) docs_site docs_site
              "OpenMutexW" 1 2 plugin_cache empty_disk plugin_cache_not_temporary)
    as (Htwice & Hreturns & _).
  fold r1 in Htwice, Hreturns. fold r2 in Htwice.
  assert (Hok : raised r1 = None).
  { apply (Hreturns ∅); vm_compute; reflexivity. }
  destruct (Htwice Hok) as (_ & H2 & _ & Hos & Hsame).
  split; [vm_compute; reflexivity|]. split; [exact H2|].
  split; [exact Hos | exact Hsame].
Defined.

(** ** The scraper: choosing a search result *)

Lemma get_beyond n s : (String.length s <= n)%nat -> String.get n s = None.
Proof.
  revert n. induction s as [|c s IH]; intros n Hn; [by destruct n|].
  destruct n as [|n]; simpl in *; [lia|]. apply IH. lia.
Qed.

(** One round of the loop of [_init_from_name] agrees with the rule. *)
Lemma select_url_cons name res rest :
  select_url name (res :: rest)
  = match SearchRule.accepts name res with
    | Some u => Some u
    | None => select_url name rest
    end.
Proof.
  cbn [select_url].
  unfold SearchRule.accepts, SearchRule.url_of, SearchRule.under_api_docs,
    SearchRule.title_matches.
  destruct (PyStr.truthy (PyStr.strip (default "" (hit_url res)))); cbn [negb]; [|done].
  destruct (PyStr.contains _ _); cbn [negb andb]; [|done].
  destruct (PyStr.startswith (PyStr.strip (default "" (hit_title res))) name);
    cbn [negb andb]; [|done].
  destruct (String.length name <? String.length _)%nat eqn:Hlen.
  - cbn [andb]. by destruct (String.get _ _) as [c|]; [destruct (PyStr.islower_char c)|].
  - apply Nat.ltb_ge in Hlen. by rewrite (get_beyond _ _ Hlen).
Qed.

Lemma select_url_some name results u :
  select_url name results = Some u <->
  exists before res after,
    results = (before ++ res :: after)%list
    /\ Forall (fun r => SearchRule.accepts name r = None) before
    /\ SearchRule.accepts name res = Some u.
Proof.
  induction results as [|res rest IH].
  - split; [done|]. intros (before & r & after & Heq & _). by destruct before.
  - rewrite select_url_cons.
    destruct (SearchRule.accepts name res) as [v|] eqn:Hacc.
    + split.
      * intros [= <-]. exists [], res, rest. by repeat split.
      * intros ([|b before] & r & after & Heq & Hall & Hr); simplify_eq/=.
        -- congruence.
        -- apply Forall_cons_1 in Hall as [Hb _]. congruence.
    + rewrite IH. split.
      * intros (before & r & after & -> & Hall & Hr).
        exists (res :: before), r, after. split; [done|]. split; [|done].
        by apply List.Forall_cons.
      * intros ([|b before] & r & after & Heq & Hall & Hr); simplify_eq/=.
        apply Forall_cons_1 in Hall as [_ Hall]. eauto 6.
Qed.

Lemma select_url_none name results :
  select_url name results = None <->
  Forall (fun r => SearchRule.accepts name r = None) results.
Proof.
  induction results as [|res rest IH]; [by split|].
  rewrite select_url_cons, List.Forall_cons_iff.
  destruct (SearchRule.accepts name res) as [v|]; [|by rewrite IH; intuition].
  split; [done|]. by intros [? _].
Qed.

Lemma selected_url_truthy name results u :
  select_url name results = Some u -> PyStr.truthy u = true.
Proof.
  intros (before & res & after & _ & _ & Hacc)%select_url_some.
  unfold SearchRule.accepts in Hacc.
  destruct (SearchRule.url_of res) as [v|]; [|done].
  destruct (SearchRule.under_api_docs v) eqn:Hu; [|done].
  destruct (SearchRule.title_matches name res); [|done].
  simplify_eq/=. by destruct u.
Qed.

Lemma init_from_name_no_match net name results s :
  net_search net name = Some results ->
  select_url name results = None ->
  _init_from_name net name s = (add_sent [GetSearch name] s, inr tt).
Proof.
  intros Hs Hsel.
  unfold _init_from_name, search_results, send, modify, bind, ret, add_sent.
  rewrite Hs. destruct results as [|res rest]; [done|]. by rewrite Hsel.
Qed.

Lemma init_from_name_match net name results s u :
  net_search net name = Some results ->
  select_url name results = Some u ->
  _init_from_name net name s
  = match net_page net u with
    | Some page =>
        ({| self := with_page page (self s);
            sent := (sent s ++ [GetSearch name; GetPage u])%list |}, inr tt)
    | None => (add_sent [GetSearch name; GetPage u] s, inl RequestException)
    end.
Proof.
  intros Hs Hsel. pose proof (selected_url_truthy _ _ _ Hsel) as Ht.
  unfold _init_from_name, search_results, get_soup, send, update_self, modify,
    bind, ret, raise, add_sent.
  rewrite Hs. destruct results as [|res rest]; [done|]. rewrite Hsel, Ht.
  cbn [negb self sent].
  by destruct (net_page net u); cbn [self sent]; rewrite <- app_assoc.
Qed.

(** C7. From the ordered result list the fetcher takes the first entry
    that has a URL, whose URL (resolved against the documentation host
    when it starts with ["/"]) falls under the API documentation path,
    whose title starts with the candidate name, and whose character right
    after that prefix, if any, is not a lowercase letter; it then requests
    that URL. When no entry satisfies the conditions no page is requested
    and the scraper is left without a page. *)
Theorem C7_first_matching_search_result
    (net : network) (name : string) (results : list search_hit) (s : scr_state) :
  net_search net name = Some results ->
  (forall u,
     select_url name results = Some u <->
     exists before res after,
       results = (before ++ res :: after)%list
       /\ Forall (fun r => SearchRule.accepts name r = None) before
       /\ SearchRule.accepts name res = Some u)
  /\ (select_url name results = None <->
      Forall (fun r => SearchRule.accepts name r = None) results)
  /\ match select_url name results with
     | Some u =>
         sent (fst (_init_from_name net name s))
         = (sent s ++ [GetSearch name; GetPage u])%list
         /\ (forall page, net_page net u = Some page ->
             _init_from_name net name s
             = ({| self := with_page page (self s);
                   sent := (sent s ++ [GetSearch name; GetPage u])%list |},
                inr tt))
     | None =>
         _init_from_name net name s = (add_sent [GetSearch name] s, inr tt)
     end.
Proof.
  intros Hs. split; [intros u; apply select_url_some|].
  split; [apply select_url_none|].
  destruct (select_url name results) as [u|] eqn:Hsel.
  - rewrite (init_from_name_match net name results s u Hs Hsel). split.
    + by destruct (net_page net u).
    + by intros page ->.
  - by apply (init_from_name_no_match net name results).
Qed.

Lemma C7_witness :
  sent (fst (_init_from_name docs_site "OpenMutex" (new_scrapper "OpenMutexA")))
  = [GetSearch "OpenMutex"; GetPage openmutexw_url].
Proof.
  exact (proj1 (proj2 (proj2
    (C7_first_matching_search_result docs_site "OpenMutex" _
       (new_scrapper "OpenMutexA") eq_refl)))).
Defined.

(** ** The scraper: the ANSI/Unicode fallback *)

Section Suffix.

Variables (base : string) (c : ascii).

Lemma last_char_snoc : PyStr.last_char (base ++ String c "") = Some c.
Proof.
  induction base as [|a b IH]; [done|]. simpl. rewrite IH.
  by destruct (b ++ String c "") eqn:Hb; [destruct b|].
Qed.

Lemma drop_last_snoc : PyStr.drop_last (base ++ String c "") = base.
Proof.
  induction base as [|a b IH]; [done|]. simpl. rewrite IH.
  by destruct (b ++ String c "") eqn:Hb; [destruct b|].
Qed.

Lemma endswith_char_snoc c' :
  PyStr.endswith_char (base ++ String c "") c' = Ascii.eqb c c'.
Proof.
  induction base as [|a b IH]; [done|]. simpl. rewrite IH.
  by destruct (b ++ String c "") eqn:Hb; [destruct b|].
Qed.

Lemma truthy_snoc : PyStr.truthy (base ++ String c "") = true.
Proof. by destruct base. Qed.

Lemma eqb_snoc c' :
  String.eqb (base ++ String c' "") (base ++ String c "") = Ascii.eqb c' c.
Proof.
  induction base as [|a b IH]; simpl.
  - by destruct (Ascii.eqb c' c).
  - by rewrite Ascii.eqb_refl.
Qed.

End Suffix.

Lemma init_from_name_self net name s :
  requested_name (self (fst (_init_from_name net name s))) = requested_name (self s)
  /\ resolved_name (self (fst (_init_from_name net name s))) = resolved_name (self s).
Proof.
  destruct (net_search net name) as [results|] eqn:Hs.
  - destruct (select_url name results) as [u|] eqn:Hsel.
    + rewrite (init_from_name_match net name results s u Hs Hsel).
      by destruct (net_page net u).
    + by rewrite (init_from_name_no_match net name results s Hs Hsel).
  - unfold _init_from_name, search_results, send, modify, bind, raise.
    by rewrite Hs.
Qed.

(** C6, as stated, fails: the request ["FooA"] is resolved through its
    base to ["FooW"], but the page has no Syntax section, and the
    description asked for with [check] set is the empty string, without the
    resolution note. Without [check] the note is there. *)
Lemma C6_counterexample :
  exists scr,
    snd (MSFTLearnScrapper_new foo_site "FooA") = inr scr
    /\ requested_name scr = "FooA"
    /\ resolved_name scr = Some "FooW"
    /\ soup scr = Some foo_page
    /\ get_description scr true = ""
    /\ get_description scr false
       = "[Docs resolved to: FooW (requested: FooA)]"
         ++ PyStr.nl ++ PyStr.nl ++ "Describes a foo.".
Proof.
  eexists. split; [vm_compute; reflexivity|].
  repeat split; vm_compute; reflexivity.
Qed.

(** C6 (amended). For a requested name ending in [A] or [W] whose own
    search finds no page while the search for its base (the name without
    the suffix) does: if the request ended in [A] the resolved name is
    base + ["W"], if it ended in [W] the resolved name is the request
    itself. The description asked for with [check] set on a page without a
    Syntax section is the empty string; in every other case it is the
    page's short description, preceded for a request ending in [A] by the
    resolution note naming the resolved and the requested name, and by
    nothing for a request ending in [W]. *)
Theorem C6_ansi_unicode_fallback
    (net : network) (base : string) (c : ascii) (s1 s2 : scr_state)
    (page : BeautifulSoup) (check : bool) :
  c = "A"%char \/ c = "W"%char ->
  _init_from_name net (base ++ String c "") (new_scrapper (base ++ String c ""))
  = (s1, inr tt) ->
  soup (self s1) = None ->
  _init_from_name net base s1 = (s2, inr tt) ->
  soup (self s2) = Some page ->
  exists scr,
    snd (MSFTLearnScrapper_new net (base ++ String c "")) = inr scr
    /\ soup scr = Some page
    /\ requested_name scr = base ++ String c ""
    /\ resolved_name scr
       = Some (if Ascii.eqb c "A" then base ++ "W" else base ++ String c "")
    /\ get_description scr check
       = if check && negb (bool_decide (is_Some (syntax_of_h2s (h2_tags page))))
         then ""
         else (if Ascii.eqb c "A"
               then "[Docs resolved to: " ++ (base ++ "W") ++ " (requested: "
                    ++ (base ++ "A") ++ ")]" ++ PyStr.nl ++ PyStr.nl
               else "")
              ++ og_text page.
Proof.
  intros Hc H1 Hs1 H2 Hs2.
  pose proof (init_from_name_self net (base ++ String c "")
                (new_scrapper (base ++ String c ""))) as [Hrq1 _].
  rewrite H1 in Hrq1. cbn [fst new_scrapper self requested_name] in Hrq1.
  pose proof (init_from_name_self net base s1) as [Hrq2 _].
  rewrite H2 in Hrq2. cbn [fst] in Hrq2. rewrite Hrq1 in Hrq2.
  unfold MSFTLearnScrapper_new, MSFTLearnScrapper_init.
  unfold bind at 1. rewrite H1. unfold bind at 1, get at 1.
  rewrite Hs1. rewrite bool_decide_eq_false_2 by (by intros [? ?]).
  rewrite truthy_snoc, last_char_snoc, drop_last_snoc, endswith_char_snoc.
  assert (Hsuffix : is_char (Some c) "A" || is_char (Some c) "W" = true)
    by (destruct Hc as [-> | ->]; reflexivity).
  rewrite Hsuffix. cbn [andb].
  unfold bind at 1. rewrite H2. unfold bind at 1, get at 1.
  rewrite Hs2. rewrite bool_decide_eq_true_2 by eauto.
  destruct Hc as [-> | ->]; cbn [Ascii.eqb Bool.eqb andb];
    unfold set_resolved, update_self, modify; cbn [fst snd self sent];
    rewrite Hrq2, Hs2; eexists; (split; [reflexivity|]);
    (split; [reflexivity|]); (split; [reflexivity|]); (split; [reflexivity|]).
  - unfold get_description, get_syntax. cbn [soup resolved_name requested_name].
    destruct (check && _); [done|].
    rewrite truthy_snoc, eqb_snoc. reflexivity.
  - unfold get_description, get_syntax. cbn [soup resolved_name requested_name].
    destruct (check && _); [done|].
    rewrite truthy_snoc, String.eqb_refl. reflexivity.
Qed.

Lemma C6_witness :
  exists scr,
    snd (MSFTLearnScrapper_new docs_site "OpenMutexA") = inr scr
    /\ resolved_name scr = Some "OpenMutexW"
    /\ get_description scr true
       = "[Docs resolved to: OpenMutexW (requested: OpenMutexA)]"
         ++ PyStr.nl ++ PyStr.nl ++ "Opens an existing named mutex object.".
Proof.
  assert (H1 : _init_from_name docs_site ("OpenMutex" ++ "A") (new_scrapper ("OpenMutex" ++ "A"))
               = (add_sent [GetSearch "OpenMutexA"] (new_scrapper "OpenMutexA"), inr tt))
    by (vm_compute; reflexivity).
  assert (H2 : _init_from_name docs_site "OpenMutex"
                 (add_sent [GetSearch "OpenMutexA"] (new_scrapper "OpenMutexA"))
               = ({| self := with_page openmutexw_page (self (new_scrapper "OpenMutexA"));
                     sent := [GetSearch "OpenMutexA"; GetSearch "OpenMutex";
                              GetPage openmutexw_url] |}, inr tt))
    by (vm_compute; reflexivity).
  destruct (C6_ansi_unicode_fallback docs_site "OpenMutex" "A" _ _
              openmutexw_page true
              (or_introl eq_refl) H1 eq_refl H2 eq_refl)
    as (scr & Hnew & _ & _ & Hres & Hdesc).
  exists scr. split; [exact Hnew|]. split; [exact Hres | exact Hdesc].
Defined.

(** * Further properties *)

(** ** The normaliser on decorated names *)

Lemma append_cons c a b : String c a ++ b = String c (a ++ b).
Proof. reflexivity. Qed.

Lemma append_nil b : "" ++ b = b.
Proof. reflexivity. Qed.

Lemma normalize_steps name :
  _normalize_symbol_name name
  = if negb (PyStr.truthy name) then ""
    else PyStr.strip
           (strip_stdcall (strip_underscore (strip_imp (unqualify (PyStr.strip name))))).
Proof. reflexivity. Qed.

Lemma digit_char_facts c :
  PyStr.isdigit_char c = true ->
  PyStr.isspace c = false /\ Ascii.eqb c "!" = false /\ Ascii.eqb c "@" = false.
Proof.
  destruct c as [[] [] [] [] [] [] [] []]; vm_compute; intros H;
    first [discriminate H | repeat split; reflexivity].
Qed.

Lemma lstrip_head s :
  match PyStr.lstrip s with
  | EmptyString => True
  | String c _ => PyStr.isspace c = false
  end.
Proof.
  induction s as [|c s IH]; [done|]. simpl.
  destruct (PyStr.isspace c) eqn:Hc; [exact IH | exact Hc].
Qed.

Lemma rstrip_head t :
  match t with EmptyString => True | String c _ => PyStr.isspace c = false end ->
  match PyStr.rstrip t with
  | EmptyString => True
  | String c _ => PyStr.isspace c = false
  end.
Proof.
  destruct t as [|c t]; [done|]. simpl. intros Hc.
  rewrite Hc, andb_false_r. exact Hc.
Qed.

Lemma rstrip_last t c :
  PyStr.last_char (PyStr.rstrip t) = Some c -> PyStr.isspace c = false.
Proof.
  induction t as [|a t IH]; [done|]. simpl.
  destruct (PyStr.rstrip t) as [|b r] eqn:Hr; simpl.
  - destruct (PyStr.isspace a) eqn:Ha; [done|]. by intros [= <-].
  - exact IH.
Qed.

Lemma last_char_app a x :
  PyStr.truthy x = true -> PyStr.last_char (a ++ x) = PyStr.last_char x.
Proof.
  intros Hx. induction a as [|c a IH]; [done|].
  rewrite append_cons. simpl. rewrite IH.
  destruct (a ++ x) eqn:Hax; [|done].
  by destruct a, x.
Qed.

Lemma rstrip_fixed x c :
  PyStr.last_char x = Some c -> PyStr.isspace c = false -> PyStr.rstrip x = x.
Proof.
  induction x as [|a x IH]; [done|]. simpl. intros Hl Hc.
  destruct x as [|b x].
  - injection Hl as ->. simpl. by rewrite Hc.
  - rewrite (IH Hl Hc). done.
Qed.

Lemma unpadded_spec n :
  unpadded n = true ->
  PyStr.truthy n = true /\ PyStr.lstrip n = n /\ PyStr.rstrip n = n
  /\ PyStr.strip n = n.
Proof.
  unfold unpadded. intros [Hh Hl]%andb_true_iff.
  destruct n as [|c n]; [done|]. apply negb_true_iff in Hh.
  destruct (PyStr.last_char (String c n)) as [l|] eqn:Hlast; [|done].
  apply negb_true_iff in Hl.
  assert (Hls : PyStr.lstrip (String c n) = String c n) by (simpl; by rewrite Hh).
  assert (Hrs : PyStr.rstrip (String c n) = String c n) by (by eapply rstrip_fixed).
  repeat split; try done. unfold PyStr.strip. by rewrite Hls.
Qed.

Lemma strip_ends x :
  match PyStr.strip x with
  | EmptyString => True
  | String c _ => PyStr.isspace c = false
  end
  /\ (forall c, PyStr.last_char (PyStr.strip x) = Some c -> PyStr.isspace c = false).
Proof.
  unfold PyStr.strip. split.
  - apply rstrip_head, lstrip_head.
  - intros c. apply rstrip_last.
Qed.

Lemma last_char_some c r : exists l, PyStr.last_char (String c r) = Some l.
Proof.
  revert c. induction r as [|b r IH]; intros c; simpl; [eauto|]. apply IH.
Qed.

Lemma stripped_fixed r :
  match r with EmptyString => True | String c _ => PyStr.isspace c = false end ->
  (forall c, PyStr.last_char r = Some c -> PyStr.isspace c = false) ->
  PyStr.strip r = r.
Proof.
  intros Hh Hl. destruct r as [|c r]; [done|].
  destruct (last_char_some c r) as [l Hlast].
  apply unpadded_spec. unfold unpadded. by rewrite Hh, Hlast, (Hl l).
Qed.

Lemma strip_idem x : PyStr.strip (PyStr.strip x) = PyStr.strip x.
Proof. destruct (strip_ends x). by apply stripped_fixed. Qed.

(** X1. Whatever the input, the normalised name has no whitespace at
    either end: stripping it again changes nothing. *)
Theorem normalize_result_is_stripped (name : string) :
  PyStr.strip (_normalize_symbol_name name) = _normalize_symbol_name name
  /\ match _normalize_symbol_name name with
     | EmptyString => True
     | String c _ => PyStr.isspace c = false
     end
  /\ (forall c, PyStr.last_char (_normalize_symbol_name name) = Some c ->
                PyStr.isspace c = false).
Proof.
  rewrite normalize_steps. destruct (negb (PyStr.truthy name)); [done|].
  destruct (strip_ends (strip_stdcall (strip_underscore (strip_imp
              (unqualify (PyStr.strip name)))))) as [Hh Hl].
  split; [by apply stripped_fixed|]. by split.
Qed.

Lemma plain_name_spec n :
  plain_name n = true ->
  unpadded n = true /\ PyStr.contains_char "!" n = false
  /\ PyStr.contains_char "@" n = false /\ PyStr.startswith n "_" = false.
Proof.
  unfold plain_name. rewrite !andb_true_iff, !negb_true_iff. tauto.
Qed.

(** The first character of a plain name is not an underscore, so no prefix
    beginning with one matches it, whatever follows the name. *)
Lemma prefix_cons a p b s :
  String.prefix (String a p) (String b s)
  = if ascii_dec a b then String.prefix p s else false.
Proof. reflexivity. Qed.

Lemma prefix_app a b : String.prefix a (a ++ b) = true.
Proof.
  induction a as [|c a IH]; [by destruct b|].
  rewrite append_cons, prefix_cons. by destruct (ascii_dec c c).
Qed.

Lemma drop_app a b : PyStr.drop (String.length a) (a ++ b) = b.
Proof. induction a as [|c a IH]; [done|]. by rewrite append_cons. Qed.

Lemma plain_no_underscore_prefix n p x :
  PyStr.truthy n = true -> PyStr.startswith n "_" = false ->
  PyStr.startswith (n ++ x) (String "_" p) = false.
Proof.
  destruct n as [|c n]; [done|]. intros _. unfold PyStr.startswith.
  rewrite append_cons, !prefix_cons.
  destruct (ascii_dec "_" c); [by destruct n | done].
Qed.

Lemma strip_imp_plain n x :
  PyStr.truthy n = true -> PyStr.startswith n "_" = false ->
  strip_imp (n ++ x) = n ++ x.
Proof.
  intros Hn Hu. unfold strip_imp.
  by rewrite (plain_no_underscore_prefix n _ x Hn Hu).
Qed.

Lemma strip_underscore_plain n x :
  PyStr.truthy n = true -> PyStr.startswith n "_" = false ->
  strip_underscore (n ++ x) = n ++ x.
Proof.
  intros Hn Hu. unfold strip_underscore.
  by rewrite (plain_no_underscore_prefix n _ x Hn Hu).
Qed.

Lemma append_empty_r s : s ++ "" = s.
Proof. induction s as [|c s IH]; [done|]. by rewrite append_cons, IH. Qed.

(** The decoration steps leave a plain name as it is. *)
Lemma undecorate_plain n :
  plain_name n = true ->
  PyStr.strip (strip_stdcall (strip_underscore (strip_imp n))) = n.
Proof.
  intros (Hpad & _ & Hat & Hu)%plain_name_spec.
  destruct (unpadded_spec n Hpad) as (Hn & _ & _ & Hstrip).
  rewrite <- (append_empty_r n) at 1.
  rewrite strip_imp_plain, strip_underscore_plain, append_empty_r by done.
  unfold strip_stdcall. by rewrite Hat.
Qed.

(** X2. A plain name is a fixed point of the normaliser, and the import
    prefix ["__imp_"] in front of a plain name is removed exactly. *)
Theorem normalize_plain_and_import_prefix (n : string) :
  plain_name n = true ->
  _normalize_symbol_name n = n
  /\ _normalize_symbol_name ("__imp_" ++ n) = n.
Proof.
  intros Hplain.
  pose proof (plain_name_spec n Hplain) as (Hpad & Hbang & Hat & Hu).
  destruct (unpadded_spec n Hpad) as (Hn & Hl & Hr & Hstrip).
  split.
  - rewrite normalize_steps, Hn, Hstrip. cbn [negb].
    unfold unqualify. rewrite Hbang. by apply undecorate_plain.
  - rewrite normalize_steps.
    assert (Hs : PyStr.strip ("__imp_" ++ n) = "__imp_" ++ n).
    { apply unpadded_spec. unfold unpadded.
      rewrite (last_char_app "__imp_" n Hn).
      destruct n as [|c n]; [done|].
      apply andb_true_iff in Hpad as [_ Hlast]. by rewrite Hlast. }
    rewrite Hs. change (PyStr.truthy ("__imp_" ++ n)) with true. cbn [negb].
    unfold unqualify. rewrite contains_char_app, Hbang.
    change (PyStr.contains_char "!" "__imp_") with false. cbn [orb].
    assert (Himp : strip_imp ("__imp_" ++ n) = n).
    { unfold strip_imp, PyStr.startswith. by rewrite prefix_app, drop_app. }
    rewrite Himp.
    rewrite <- (append_empty_r n) at 1.
    rewrite strip_underscore_plain, append_empty_r by done.
    unfold strip_stdcall. by rewrite Hat.
Qed.

Lemma normalize_plain_witness :
  _normalize_symbol_name "GetProcAddress" = "GetProcAddress"
  /\ _normalize_symbol_name ("__imp_" ++ "GetProcAddress") = "GetProcAddress".
Proof. exact (normalize_plain_and_import_prefix "GetProcAddress" eq_refl). Defined.

Lemma lstrip_app_mid m c x :
  PyStr.isspace c = false ->
  PyStr.lstrip (m ++ String c x) = PyStr.lstrip m ++ String c x.
Proof.
  intros Hc. induction m as [|a m IH].
  - rewrite append_nil. simpl. by rewrite Hc.
  - rewrite append_cons. simpl. by destruct (PyStr.isspace a).
Qed.

Lemma lstrip_contains c m :
  PyStr.contains_char c m = false -> PyStr.contains_char c (PyStr.lstrip m) = false.
Proof.
  induction m as [|a m IH]; [done|]. simpl.
  destruct (Ascii.eqb a c) eqn:Hac; [done|]. intros Hm.
  destruct (PyStr.isspace a); [by apply IH|]. simpl. by rewrite Hac.
Qed.

Lemma after_first_app c y x :
  PyStr.contains_char c y = false ->
  PyStr.after_first c (y ++ String c x) = x.
Proof.
  induction y as [|a y IH].
  - intros _. rewrite append_nil. simpl. by rewrite Ascii.eqb_refl.
  - rewrite append_cons. simpl. destruct (Ascii.eqb a c); [done|]. exact IH.
Qed.

Lemma rstrip_app_fixed a x c :
  PyStr.last_char x = Some c -> PyStr.isspace c = false ->
  PyStr.rstrip (a ++ x) = a ++ x.
Proof.
  intros Hl Hc. apply (rstrip_fixed _ c); [|done].
  rewrite last_char_app; [done|]. by destruct x.
Qed.

Lemma last_char_cons_plain a n :
  PyStr.truthy n = true -> PyStr.last_char (String a n) = PyStr.last_char n.
Proof. by destruct n. Qed.

Lemma unpadded_last n :
  unpadded n = true ->
  exists c, PyStr.last_char n = Some c /\ PyStr.isspace c = false.
Proof.
  unfold unpadded. intros [_ Hl]%andb_true_iff.
  destruct (PyStr.last_char n) as [c|]; [|done].
  exists c. by apply negb_true_iff in Hl.
Qed.

(** X3. A module qualifier in front of a plain name is discarded: whatever
    stands before the first ["!"] (with or without whitespace around it),
    the normalised name is the plain name after it. *)
Theorem normalize_discards_module_qualifier (m n : string) :
  PyStr.contains_char "!" m = false ->
  plain_name n = true ->
  _normalize_symbol_name (m ++ "!" ++ n) = n.
Proof.
  intros Hm Hplain.
  pose proof (plain_name_spec n Hplain) as (Hpad & Hbang & Hat & Hu).
  destruct (unpadded_spec n Hpad) as (Hn & Hl & Hr & Hstrip).
  destruct (unpadded_last n Hpad) as (c & Hlast & Hc).
  change (m ++ "!" ++ n) with (m ++ String "!" n).
  rewrite normalize_steps.
  replace (PyStr.truthy (m ++ String "!" n)) with true by (by destruct m).
  cbn [negb].
  assert (Hs : PyStr.strip (m ++ String "!" n) = PyStr.lstrip m ++ String "!" n).
  { unfold PyStr.strip. rewrite lstrip_app_mid by done.
    apply (rstrip_app_fixed _ _ c); [|done].
    by rewrite last_char_cons_plain. }
  rewrite Hs. unfold unqualify.
  rewrite contains_char_app. simpl PyStr.contains_char at 2.
  rewrite orb_true_r.
  rewrite after_first_app by (by apply lstrip_contains).
  rewrite Hstrip. by apply undecorate_plain.
Qed.

Lemma normalize_discards_module_qualifier_witness :
  _normalize_symbol_name (" KERNEL32.dll" ++ "!" ++ "GetProcAddress")
  = "GetProcAddress".
Proof.
  exact (normalize_discards_module_qualifier " KERNEL32.dll" "GetProcAddress"
           eq_refl eq_refl).
Defined.

Lemma all_digits_facts d :
  PyStr.all_chars PyStr.isdigit_char d = true ->
  PyStr.contains_char "!" d = false /\ PyStr.contains_char "@" d = false.
Proof.
  induction d as [|a d IH]; [done|]. simpl.
  intros [Ha Hd]%andb_true_iff.
  destruct (digit_char_facts a Ha) as (_ & -> & ->). by apply IH.
Qed.

Lemma isdigit_last d :
  PyStr.isdigit d = true ->
  exists c, PyStr.last_char d = Some c /\ PyStr.isspace c = false.
Proof.
  unfold PyStr.isdigit. intros [Ht Hall]%andb_true_iff.
  induction d as [|a d IH]; [done|].
  simpl in Hall. apply andb_true_iff in Hall as [Ha Hd].
  destruct d as [|b d].
  - exists a. split; [done|]. by destruct (digit_char_facts a Ha).
  - destruct (IH eq_refl Hd) as (c & Hl & Hc). by exists c.
Qed.

Lemma rsplit1_app n d :
  PyStr.contains_char "@" d = false ->
  PyStr.rsplit1 "@" (n ++ String "@" d) = (n, d).
Proof.
  intros Hd. induction n as [|a n IH].
  - rewrite append_nil. simpl. by rewrite Hd.
  - rewrite append_cons. simpl.
    rewrite contains_char_app. simpl PyStr.contains_char at 2.
    by rewrite orb_true_r, IH.
Qed.

(** X4. The stdcall decoration of a plain name is removed: a plain name
    followed by ["@"] and digits, with or without the leading underscore,
    normalises to the plain name. *)
Theorem normalize_removes_stdcall_decoration (n d : string) :
  plain_name n = true ->
  PyStr.isdigit d = true ->
  _normalize_symbol_name ("_" ++ n ++ "@" ++ d) = n
  /\ _normalize_symbol_name (n ++ "@" ++ d) = n.
Proof.
  intros Hplain Hdig.
  pose proof (plain_name_spec n Hplain) as (Hpad & Hbang & Hat & Hu).
  destruct (unpadded_spec n Hpad) as (Hn & Hl & Hr & Hstrip).
  destruct (isdigit_last d Hdig) as (c & Hlast & Hc).
  pose proof Hdig as Hdig'. unfold PyStr.isdigit in Hdig'.
  apply andb_true_iff in Hdig' as [Hd Hall].
  destruct (all_digits_facts d Hall) as [Hdbang Hdat].
  change (n ++ "@" ++ d) with (n ++ String "@" d).
  change ("_" ++ n ++ String "@" d) with (String "_" (n ++ String "@" d)).
  assert (Hlast' : PyStr.last_char (n ++ String "@" d) = Some c).
  { rewrite last_char_app by done. by rewrite last_char_cons_plain. }
  assert (Hnb : PyStr.contains_char "!" (n ++ String "@" d) = false).
  { rewrite contains_char_app, Hbang. simpl. exact Hdbang. }
  assert (Hcore : PyStr.strip (strip_stdcall (n ++ String "@" d)) = n).
  { unfold strip_stdcall. rewrite contains_char_app. simpl PyStr.contains_char at 2.
    rewrite orb_true_r, rsplit1_app, Hdig by done. exact Hstrip. }
  assert (Hhead : match n ++ String "@" d with
                  | EmptyString => False
                  | String a _ => PyStr.isspace a = false
                  end).
  { destruct n as [|a n]; [done|]. rewrite append_cons.
    unfold unpadded in Hpad. apply andb_true_iff in Hpad as [Ha _].
    by apply negb_true_iff in Ha. }
  split.
  - rewrite normalize_steps. cbn [PyStr.truthy PyStr.is_empty negb].
    assert (Hs : PyStr.strip (String "_" (n ++ String "@" d))
                 = String "_" (n ++ String "@" d)).
    { apply unpadded_spec. unfold unpadded.
      rewrite last_char_cons_plain by (by destruct n).
      by rewrite Hlast', Hc. }
    rewrite Hs. unfold unqualify.
    replace (PyStr.contains_char "!" (String "_" (n ++ String "@" d))) with false
      by (simpl; by rewrite Hnb).
    assert (Himp : strip_imp (String "_" (n ++ String "@" d))
                   = String "_" (n ++ String "@" d)).
    { unfold strip_imp, PyStr.startswith. rewrite prefix_cons.
      destruct (ascii_dec "_" "_"); [|done].
      pose proof (plain_no_underscore_prefix n "imp_" (String "@" d) Hn Hu) as Hp.
      unfold PyStr.startswith in Hp. by rewrite Hp. }
    rewrite Himp.
    assert (Hund : strip_underscore (String "_" (n ++ String "@" d))
                   = n ++ String "@" d).
    { unfold strip_underscore, PyStr.startswith. rewrite prefix_cons.
      destruct (ascii_dec "_" "_"); [|done].
      by destruct (n ++ String "@" d). }
    rewrite Hund. exact Hcore.
  - rewrite normalize_steps.
    replace (PyStr.truthy (n ++ String "@" d)) with true by (by destruct n).
    cbn [negb].
    assert (Hs : PyStr.strip (n ++ String "@" d) = n ++ String "@" d).
    { apply unpadded_spec. unfold unpadded. rewrite Hlast', Hc.
      destruct (n ++ String "@" d); [done|]. by rewrite Hhead. }
    rewrite Hs. unfold unqualify. rewrite Hnb.
    rewrite strip_imp_plain, strip_underscore_plain by done. exact Hcore.
Qed.

Lemma normalize_removes_stdcall_decoration_witness :
  _normalize_symbol_name ("_" ++ "GetProcAddress" ++ "@" ++ "8") = "GetProcAddress"
  /\ _normalize_symbol_name ("GetProcAddress" ++ "@" ++ "8") = "GetProcAddress".
Proof.
  exact (normalize_removes_stdcall_decoration "GetProcAddress" "8" eq_refl eq_refl).
Defined.

(** ** The coordinator: every selection and every run *)

Lemma cancel_worker_frame st :
  _req_id (_cancel_worker st) = _req_id st
  /\ _worker (_cancel_worker st) = None
  /\ _timeout (_cancel_worker st) = None
  /\ _labels (_cancel_worker st) = _labels st
  /\ _cache_file (_cancel_worker st) = _cache_file st
  /\ started (_cancel_worker st) = started st
  /\ cancelled (_cancel_worker st)
     = (cancelled st ++ match _worker st with Some w => [w] | None => [] end)%list
  /\ ui_calls (_cancel_worker st) = ui_calls st
  /\ main_thread (_cancel_worker st) = main_thread st.
Proof.
  unfold _cancel_worker, cancel_current.
  destruct (_worker st) eqn:Hw; simpl; rewrite ?Hw, ?app_nil_r; done.
Qed.

(** [on_xref_selection] in one equation: cancel, advance the generation,
    and start a worker only for a view and a name that does not look
    local. *)
Lemma on_xref_selection_eq sel st :
  on_xref_selection sel st
  = let st1 := with_req_id (_req_id st + 1) (_cancel_worker st) in
    if has_view sel && negb (_looks_like_local (candidate_name sel))
    then start_worker
           (ScrapperThread_new (candidate_name sel) (_req_id st + 1) (_cache_file st))
           timer_ms st1
    else st1.
Proof.
  unfold on_xref_selection.
  destruct (cancel_worker_frame st) as (Hr & _ & _ & _ & Hc & _).
  cbn [with_req_id _req_id _cache_file]. rewrite Hr, Hc.
  destruct (has_view sel); [|done].
  by destruct (_looks_like_local (candidate_name sel)).
Qed.

Lemma candidate_name_not_import sel :
  not_an_import sel -> candidate_name sel = "".
Proof.
  intros [Hf Ha]. unfold candidate_name.
  destruct (func_symbol sel) as [sy|] eqn:Hsy.
  - rewrite Hf. cbn [PyStr.truthy PyStr.is_empty negb].
    destruct (addrValid sel); [|done].
    destruct (negb (_ =? 0)); [|done]. by rewrite Ha.
  - cbn [PyStr.truthy PyStr.is_empty negb].
    destruct (addrValid sel); [|done].
    destruct (negb (_ =? 0)); [|done]. by rewrite Ha.
Qed.

(** X5. Every selection, whether or not it starts a lookup, advances the
    generation by exactly one, so the callback drops a completion that
    carries the previous generation. The only worker it calls [cancel] on
    is the one held in [self._worker] at that moment: when the attribute is
    empty nothing is cancelled, whatever workers were started before. *)
Theorem selection_supersedes_pending_request
    (sel : xref_selection) (st : WinDocSidebar) (c : completion) :
  got_req_id c = _req_id st ->
  _req_id (on_xref_selection sel st) = _req_id st + 1
  /\ cancelled (on_xref_selection sel st)
     = (cancelled st ++ match _worker st with Some w => [w] | None => [] end)%list
  /\ step (on_xref_selection sel st) (WorkerFinished c) = on_xref_selection sel st.
Proof.
  intros Hc.
  destruct (cancel_worker_frame st) as (Hr & _ & _ & _ & _ & _ & Hcan & _).
  assert (Hreq : _req_id (on_xref_selection sel st) = _req_id st + 1).
  { rewrite on_xref_selection_eq. cbv zeta.
    by destruct (has_view sel && negb _). }
  split; [exact Hreq|]. split.
  - rewrite on_xref_selection_eq. cbv zeta.
    by destruct (has_view sel && negb _).
  - simpl. apply on_done_stale. rewrite Hreq, Hc. lia.
Qed.

Lemma selection_supersedes_pending_request_witness :
  step (on_xref_selection plain_token
          (on_xref_selection (imported "Sleep") (WinDocSidebar_new plugin_cache)))
       (WorkerFinished sleep_found)
  = on_xref_selection plain_token
      (on_xref_selection (imported "Sleep") (WinDocSidebar_new plugin_cache)).
Proof.
  exact (proj2 (proj2
    (selection_supersedes_pending_request plain_token
       (on_xref_selection (imported "Sleep") (WinDocSidebar_new plugin_cache))
       sleep_found eq_refl))).
Defined.

(** X6. Only an imported-function symbol can start a lookup: when the
    frame gives no binary view, or neither the selected function's symbol
    nor the symbol at the selected address is an imported function, no
    worker is started, no timer armed, no label set and nothing scheduled. *)
Theorem only_imports_start_lookups (sel : xref_selection) (st : WinDocSidebar) :
  has_view sel = false \/ not_an_import sel ->
  started (on_xref_selection sel st) = started st
  /\ _worker (on_xref_selection sel st) = None
  /\ _timeout (on_xref_selection sel st) = None
  /\ ui_calls (on_xref_selection sel st) = ui_calls st
  /\ _labels (on_xref_selection sel st) = _labels st
  /\ main_thread (on_xref_selection sel st) = main_thread st.
Proof.
  intros Hsel. rewrite on_xref_selection_eq. cbv zeta.
  assert (Hno : has_view sel && negb (_looks_like_local (candidate_name sel)) = false).
  { destruct Hsel as [-> | Hni]; [done|].
    rewrite (candidate_name_not_import sel Hni). apply andb_false_r. }
  rewrite Hno.
  destruct (cancel_worker_frame st) as (_ & Hw & Ht & Hl & _ & Hs & _ & Hu & Hq).
  done.
Qed.

Lemma only_imports_start_lookups_witness :
  started (on_xref_selection plain_token
             (on_xref_selection (imported "Sleep") (WinDocSidebar_new plugin_cache)))
  = [ScrapperThread_new "Sleep" 1 plugin_cache].
Proof.
  refine (proj1 (only_imports_start_lookups plain_token
            (on_xref_selection (imported "Sleep") (WinDocSidebar_new plugin_cache)) _)).
  right. split; [reflexivity | intros addr; reflexivity].
Defined.

Lemma set_texts_keeps calls st :
  _cache_file (set_texts calls st) = _cache_file st
  /\ cancelled (set_texts calls st) = cancelled st.
Proof.
  revert st. induction calls as [|[w v] rest IH]; intros st; simpl; [done|].
  destruct (text_of v); [|done].
  by destruct (IH (setText w s st)) as (-> & ->).
Qed.

(** What an event other than a selection leaves alone: the generation, the
    workers started and the cache path; the worker and the timer are kept
    or both cleared. *)
Lemma step_other st ev :
  is_selection ev = false ->
  _req_id (step st ev) = _req_id st
  /\ started (step st ev) = started st
  /\ _cache_file (step st ev) = _cache_file st
  /\ ((_worker (step st ev) = _worker st /\ _timeout (step st ev) = _timeout st)
      \/ (_worker (step st ev) = None /\ _timeout (step st ev) = None)).
Proof.
  destruct ev as [sel | | c | ]; [done| | |]; intros _; simpl.
  - destruct (_timeout st) eqn:Ht; [|by repeat split; try left].
    destruct (on_timeout_frame (with_timeout None st)) as (-> & -> & -> & _).
    unfold _on_timeout, cancel_current. cbn [with_timeout _worker].
    destruct (_worker st); simpl; repeat split; by right.
  - unfold on_done. destruct (negb _); simpl; repeat split; by left.
  - destruct (main_thread st) as [|c q]; [by repeat split; try left|].
    destruct (apply_frame c (with_main_thread q st)) as (-> & -> & -> & _).
    unfold _apply. destruct (negb (got_success c)).
    + simpl. repeat split; by right.
    + destruct (set_texts_frame (doc_fields c)
                  (clear_worker (with_timeout None (with_main_thread q st))))
        as (_ & _ & _ & _ & ->).
      destruct (set_texts_keeps (doc_fields c)
                  (clear_worker (with_timeout None (with_main_thread q st))))
        as (-> & _).
      simpl. repeat split; by right.
Qed.

Lemma step_discipline st ev :
  held_worker_discipline st -> held_worker_discipline (step st ev).
Proof.
  intros Hinv. destruct (is_selection ev) eqn:Hsel.
  - destruct ev as [sel| | |]; try done. simpl.
    rewrite on_xref_selection_eq. cbv zeta.
    destruct (cancel_worker_frame st) as (Hr & Hw & Ht & _).
    destruct (has_view sel && negb _); unfold held_worker_discipline;
      cbn [with_req_id start_worker _worker _timeout _req_id started
           ScrapperThread_new req_id].
    + by rewrite last_snoc.
    + by rewrite Hw.
  - destruct (step_other st ev Hsel) as (Hr & Hs & _ & [[Hw Ht] | [Hw Ht]]);
      unfold held_worker_discipline in *.
    + by rewrite Hw, Ht, Hr, Hs.
    + by rewrite Hw.
Qed.

Lemma not_local_truthy n : _looks_like_local n = false -> PyStr.truthy n = true.
Proof.
  unfold _looks_like_local. destruct (PyStr.truthy n); [done|]. done.
Qed.

Lemma candidate_name_stripped sel :
  PyStr.strip (candidate_name sel) = candidate_name sel.
Proof. unfold candidate_name. apply strip_idem. Qed.

Lemma step_started cache st ev :
  _cache_file st = cache ->
  Forall (well_started cache) (started st) ->
  _cache_file (step st ev) = cache
  /\ Forall (well_started cache) (started (step st ev)).
Proof.
  intros Hc Hall. destruct (is_selection ev) eqn:Hsel.
  - destruct ev as [sel| | |]; try done. simpl.
    rewrite on_xref_selection_eq. cbv zeta.
    destruct (cancel_worker_frame st) as (_ & _ & _ & _ & Hcf & Hs & _).
    destruct (has_view sel && negb _) eqn:Hgo;
      cbn [with_req_id start_worker _cache_file started]; rewrite Hcf, Hs;
      (split; [done|]); [|done].
    apply andb_true_iff in Hgo as [_ Hloc]. apply negb_true_iff in Hloc.
    apply Forall_app. split; [done|]. apply Forall_singleton.
    unfold well_started. cbn [ScrapperThread_new function_name req_id]. rewrite Hc.
    by auto using not_local_truthy, candidate_name_stripped.
  - destruct (step_other st ev Hsel) as (_ & -> & -> & _). done.
Qed.

Lemma step_generations st ev :
  increasing_generations (started st) ->
  Forall (fun w => 1 <= req_id w <= _req_id st) (started st) ->
  0 <= _req_id st ->
  increasing_generations (started (step st ev))
  /\ Forall (fun w => 1 <= req_id w <= _req_id (step st ev)) (started (step st ev))
  /\ 0 <= _req_id (step st ev)
  /\ _req_id (step st ev)
     = _req_id st + (if is_selection ev then 1 else 0).
Proof.
  intros Hinc Hall Hpos. destruct (is_selection ev) eqn:Hsel.
  - destruct ev as [sel| | |]; try done. simpl.
    rewrite on_xref_selection_eq. cbv zeta.
    destruct (cancel_worker_frame st) as (Hr & _ & _ & _ & _ & Hs & _).
    assert (Hall' : Forall (fun w => 1 <= req_id w <= _req_id st + 1) (started st)).
    { eapply List.Forall_impl; [|exact Hall]. simpl. intros w Hw. lia. }
    destruct (has_view sel && negb _);
      cbn [with_req_id start_worker _req_id started]; rewrite Hs;
      (split; [|split; [|split; [lia|done]]]); try done.
    + intros i j a b Hi Hj Hij.
      apply lookup_snoc_Some in Hi as [[Hil Hi] | [-> <-]];
        apply lookup_snoc_Some in Hj as [[Hjl Hj] | [-> <-]].
      * by eapply Hinc.
      * simpl. apply list_elem_of_lookup_2, list_elem_of_In in Hi.
        rewrite List.Forall_forall in Hall. pose proof (Hall a Hi). lia.
      * lia.
      * lia.
    + apply Forall_app. split; [done|]. apply Forall_singleton. simpl. lia.
  - destruct (step_other st ev Hsel) as (-> & -> & _). rewrite Z.add_0_r. done.
Qed.

Lemma run_events_cons st ev evs :
  run_events st (ev :: evs) = run_events (step st ev) evs.
Proof. reflexivity. Qed.

Lemma count_selections_cons ev evs :
  count_selections (ev :: evs)
  = ((if is_selection ev then 1 else 0) + count_selections evs)%nat.
Proof. unfold count_selections. simpl. by destruct (is_selection ev). Qed.

Lemma set_texts_cancelled calls st :
  cancelled (set_texts calls st) = cancelled st.
Proof.
  revert st. induction calls as [|[w v] rest IH]; intros st; simpl; [done|].
  destruct (text_of v); [|done]. by rewrite IH.
Qed.

(** X7. In every state the widget reaches, the timer is armed exactly
    while [self._worker] holds a worker; the held worker is the last one
    started and carries the current generation, and the timer runs for
    4000 ms. Being held is not being awaited: the closure the main thread
    runs empties [self._worker] and stops the timer without calling
    [cancel] and without looking at the generation, whichever completion it
    was scheduled for. *)
Theorem timer_armed_iff_worker_held (cache : string) (evs : list event) :
  let st := run_events (WinDocSidebar_new cache) evs in
  held_worker_discipline st
  /\ forall c q,
       main_thread st = c :: q ->
       _worker (step st MainThreadRuns) = None
       /\ _timeout (step st MainThreadRuns) = None
       /\ _req_id (step st MainThreadRuns) = _req_id st
       /\ started (step st MainThreadRuns) = started st
       /\ cancelled (step st MainThreadRuns) = cancelled st.
Proof.
  intros st. split.
  - assert (H : forall st0, held_worker_discipline st0 ->
                            held_worker_discipline (run_events st0 evs)).
    { clear st. induction evs as [|ev evs IH]; intros st0 Hst; [done|].
      rewrite run_events_cons. by apply IH, step_discipline. }
    apply H. done.
  - intros c q Hq.
    destruct (step_other st MainThreadRuns eq_refl) as (Hr & Hs & _).
    split; [|split; [|split; [exact Hr|split; [exact Hs|]]]];
      cbn [step]; rewrite Hq.
    + by destruct (apply_frame c (with_main_thread q st)) as (_ & -> & _).
    + by destruct (apply_frame c (with_main_thread q st)) as (_ & _ & -> & _).
    + unfold _apply. destruct (negb (got_success c)); [done|].
      by rewrite set_texts_cancelled.
Qed.

(** X8. The generation counter equals the number of selections seen, one
    per selection whether or not it started a worker; the workers started
    carry strictly increasing generations between 1 and the counter. *)
Theorem generations_count_selections (cache : string) (evs : list event) :
  _req_id (run_events (WinDocSidebar_new cache) evs)
  = Z.of_nat (count_selections evs)
  /\ increasing_generations (started (run_events (WinDocSidebar_new cache) evs))
  /\ Forall (fun w => 1 <= req_id w
                      <= _req_id (run_events (WinDocSidebar_new cache) evs))
       (started (run_events (WinDocSidebar_new cache) evs)).
Proof.
  assert (H : forall st,
    increasing_generations (started st) ->
    Forall (fun w => 1 <= req_id w <= _req_id st) (started st) ->
    0 <= _req_id st ->
    _req_id (run_events st evs) = _req_id st + Z.of_nat (count_selections evs)
    /\ increasing_generations (started (run_events st evs))
    /\ Forall (fun w => 1 <= req_id w <= _req_id (run_events st evs))
         (started (run_events st evs))).
  { induction evs as [|ev evs IH]; intros st Hinc Hall Hpos.
    - simpl. rewrite Z.add_0_r. done.
    - rewrite run_events_cons, count_selections_cons.
      destruct (step_generations st ev Hinc Hall Hpos) as (Hinc' & Hall' & Hpos' & Hr).
      destruct (IH _ Hinc' Hall' Hpos') as (Hreq & Hi & Ha).
      split; [|done]. rewrite Hreq, Hr. destruct (is_selection ev); lia. }
  destruct (H (WinDocSidebar_new cache)) as (Hreq & Hi & Ha).
  - intros i j a b Hi. done.
  - simpl. constructor.
  - simpl. lia.
  - split; [|done]. rewrite Hreq. simpl. lia.
Qed.

(** X9. Every worker the coordinator starts is a fresh worker for its own
    cache file whose function name is not empty, does not look local and
    has no whitespace around it: the empty-name guard of the worker is
    never what ends a lookup the coordinator started. *)
Theorem started_workers_are_well_formed (cache : string) (evs : list event) :
  Forall (well_started cache) (started (run_events (WinDocSidebar_new cache) evs)).
Proof.
  assert (H : forall st,
    _cache_file st = cache -> Forall (well_started cache) (started st) ->
    Forall (well_started cache) (started (run_events st evs))).
  { induction evs as [|ev evs IH]; intros st Hc Hall; [done|].
    rewrite run_events_cons.
    destruct (step_started cache st ev Hc Hall) as [Hc' Hall']. by apply IH. }
  apply H; [done|]. simpl. constructor.
Qed.

Lemma step_not_found st ev :
  not_found_event ev ->
  Forall (fun c => got_success c = false) (main_thread st) ->
  Forall (fun c => got_success c = false) (main_thread (step st ev))
  /\ doc_labels (step st ev) = doc_labels st
  /\ (_syntax (_labels (step st ev)) = _syntax (_labels st)
      \/ _syntax (_labels (step st ev)) = timed_out_text)
  /\ exists k, ui_calls (step st ev) = (ui_calls st ++ repeat timeout_call k)%list.
Proof.
  intros Hev Hq.
  assert (Hsame : forall st', ui_calls st' = ui_calls st ->
            exists k, ui_calls st' = (ui_calls st ++ repeat timeout_call k)%list).
  { intros st' ->. exists 0%nat. simpl. by rewrite app_nil_r. }
  destruct ev as [sel | | c | ].
  - simpl. rewrite on_xref_selection_eq. cbv zeta.
    destruct (cancel_worker_frame st) as (_ & _ & _ & Hl & _ & _ & _ & Hu & Hm).
    unfold doc_labels.
    destruct (has_view sel && negb _);
      cbn [with_req_id start_worker main_thread _labels ui_calls];
      rewrite Hl, Hm; auto.
  - simpl. destruct (_timeout st); [|by auto].
    destruct (on_timeout_frame (with_timeout None st))
      as (_ & _ & _ & Hm & Hu & Hl).
    unfold doc_labels. rewrite Hm, Hl. cbn [with_timeout main_thread _labels set_label
      _function _description _retval _syntax].
    repeat split; [done|by right|]. exists 1%nat. by rewrite Hu.
  - simpl. unfold on_done. destruct (negb _); [by auto|].
    cbn [with_main_thread main_thread doc_labels _labels ui_calls].
    split; [|by auto]. apply Forall_app. split; [done|]. by apply Forall_singleton.
  - simpl. destruct (main_thread st) as [|c q] eqn:Hmt; [by rewrite Hmt; auto|].
    apply Forall_cons_1 in Hq as [Hc Hq]. unfold _apply. rewrite Hc. cbn [negb].
    cbn [clear_worker with_timeout with_main_thread main_thread doc_labels _labels ui_calls].
    auto.
Qed.

(** X10. A completion that reports nothing found never reaches a label:
    in a run where every completion is negative, the only [setText] calls
    are the timeout texts, the function-name, description and
    return-value labels keep their texts, and the syntax label keeps its
    text or shows the timeout text. *)
Theorem not_found_never_updates_labels (st : WinDocSidebar) (evs : list event) :
  Forall not_found_event evs ->
  Forall (fun c => got_success c = false) (main_thread st) ->
  doc_labels (run_events st evs) = doc_labels st
  /\ (_syntax (_labels (run_events st evs)) = _syntax (_labels st)
      \/ _syntax (_labels (run_events st evs)) = timed_out_text)
  /\ exists k, ui_calls (run_events st evs)
               = (ui_calls st ++ repeat timeout_call k)%list.
Proof.
  revert st. induction evs as [|ev evs IH]; intros st Hevs Hq.
  - simpl. repeat split; [by left|]. exists 0%nat. simpl. by rewrite app_nil_r.
  - inversion_clear Hevs as [|? ? Hev Hevs'].
    rewrite run_events_cons.
    destruct (step_not_found st ev Hev Hq) as (Hq' & Hd & Hs & k1 & Hu).
    destruct (IH (step st ev) Hevs' Hq') as (Hd' & Hs' & k2 & Hu').
    split; [congruence|]. split.
    + destruct Hs' as [Hs' | Hs']; [|by right]. rewrite Hs'. exact Hs.
    + exists (k1 + k2)%nat. rewrite Hu', Hu, <- app_assoc. f_equal.
      by rewrite repeat_app.
Qed.

Lemma not_found_never_updates_labels_witness :
  doc_labels (run_events (_apply sleep_found (WinDocSidebar_new plugin_cache))
                [XrefSelection (imported "Beep"); WorkerFinished beep_missing;
                 MainThreadRuns])
  = ("Sleep", "Suspends the execution of the current thread.", "").
Proof.
  refine (proj1 (not_found_never_updates_labels
            (_apply sleep_found (WinDocSidebar_new plugin_cache))
            [XrefSelection (imported "Beep"); WorkerFinished beep_missing;
             MainThreadRuns] _ _)).
  - repeat (apply List.Forall_cons; [simpl; first [exact I | reflexivity]|]).
    apply List.Forall_nil.
  - vm_compute. apply List.Forall_nil.
Defined.

(** ** From a click to the labels *)

(** X11. A click on an import whose name does not look local, answered
    from the network: when the worker the coordinator started returns and
    its completion is delivered before anything else happens, a found
    result puts the candidate name and the worker's three strings on the
    four labels, a not-found result leaves labels and calls as they were,
    and either way the timer is stopped and no worker is in flight. *)
Theorem lookup_result_reaches_labels
    (env : os_env) (net : network) (sel : xref_selection)
    (st : WinDocSidebar) (s : os_state) :
  has_view sel = true ->
  _looks_like_local (candidate_name sel) = false ->
  main_thread st = [] ->
  lookup_cached
    (ScrapperThread_new (candidate_name sel) (_req_id st + 1) (_cache_file st))
    (read_cache (files s) (_cache_file st)) = inr None ->
  let w := ScrapperThread_new (candidate_name sel) (_req_id st + 1) (_cache_file st) in
  let r := run env net w s in
  let st3 := run_events (on_xref_selection sel st)
               [WorkerFinished (finish (worker r)); MainThreadRuns] in
  _worker (on_xref_selection sel st) = Some w
  /\ _worker st3 = None /\ _timeout st3 = None
  /\ if success (worker r)
     then exists syn desc rv,
            syntax (worker r) = JStr syn /\ description (worker r) = JStr desc
            /\ return_value (worker r) = JStr rv
            /\ _labels st3
               = {| _function := candidate_name sel; _syntax := syn;
                    _description := desc; _retval := rv |}
     else _labels st3 = _labels st /\ ui_calls st3 = ui_calls st.
Proof.
  intros Hv Hloc Hq Hmiss w r st3.
  pose proof (not_local_truthy _ Hloc) as Hn.
  destruct (run_on_miss env net w s Hn Hmiss) as (Hw & _).
  fold r in Hw.
  destruct (query_docs_identity net w) as (Hfn & _ & Hrid).
  pose proof (query_docs_from_query net (candidate_name sel) (_req_id st + 1)
                (_cache_file st)) as Hfq.
  fold w in Hfq. rewrite <- Hw in Hfn, Hrid, Hfq.
  cbn [w function_name req_id ScrapperThread_new] in Hfn, Hrid.
  destruct (on_xref_selection_starts sel st Hv Hloc)
    as (Hr1 & Hw1 & Ht1 & _ & _ & Hu1 & Hl1 & Hq1 & _).
  split; [exact Hw1|].
  assert (Hcur : got_req_id (finish (worker r)) = _req_id (on_xref_selection sel st)).
  { cbn [finish got_req_id]. by rewrite Hrid, Hr1. }
  assert (Hst3 : st3 = _apply (finish (worker r))
                         (with_main_thread [] (on_xref_selection sel st))).
  { subst st3. unfold run_events. cbn [fold_left step].
    rewrite (on_done_current _ _ Hcur), Hq1, Hq.
    cbn [with_main_thread main_thread app]. reflexivity. }
  destruct (apply_frame (finish (worker r))
              (with_main_thread [] (on_xref_selection sel st)))
    as (_ & Hw3 & Ht3 & _).
  rewrite Hst3. split; [exact Hw3|]. split; [exact Ht3|].
  destruct Hfq as [(Hs & _) | (Hs & a & b & c & Ha & Hb & Hc)]; rewrite Hs.
  - unfold _apply. cbn [finish got_success]. rewrite Hs. cbn [negb].
    cbn [clear_worker with_timeout with_main_thread _labels ui_calls]. done.
  - exists a, b, c. do 3 (split; [done|]).
    rewrite (apply_shows (finish (worker r)) _ a b c).
    + cbn [finish func_name]. by rewrite Hfn.
    + done.
    + cbn [finish got_syntax]. rewrite Ha. apply text_of_str.
    + cbn [finish got_desc]. rewrite Hb. apply text_of_str.
    + cbn [finish got_rv]. rewrite Hc. apply text_of_str.
Qed.

Lemma lookup_result_reaches_labels_witness :
  _labels (run_events
             (on_xref_selection (imported "OpenMutexA") (WinDocSidebar_new plugin_cache))
             [WorkerFinished
                (finish (worker (run (all_ok ["k3x9q_ab"]) docs_site
                                   (ScrapperThread_new "OpenMutexA" 1 plugin_cache)
                                   empty_disk)));
              MainThreadRuns])
  = {| _function := "OpenMutexA";
       _syntax := "HANDLE OpenMutexW(DWORD dwDesiredAccess, BOOL bInheritHandle, LPCWSTR lpName);";
       _description := "[Docs resolved to: OpenMutexW (requested: OpenMutexA)]"
                       ++ PyStr.nl ++ PyStr.nl
                       ++ "Opens an existing named mutex object.";
       _retval := "If the function succeeds, the return value is a handle to the mutex object."
                  ++ PyStr.nl ++ "If the function fails, the return value is NULL." |}.
Proof.
  pose proof (lookup_result_reaches_labels (all_ok ["k3x9q_ab"]) docs_site
                (imported "OpenMutexA") (WinDocSidebar_new plugin_cache) empty_disk
                eq_refl eq_refl eq_refl eq_refl) as H.
  cbv zeta in H. destruct H as (_ & _ & _ & H).
  change (candidate_name (imported "OpenMutexA")) with "OpenMutexA" in H.
  change (_req_id (WinDocSidebar_new plugin_cache) + 1) with 1 in H.
  change (_cache_file (WinDocSidebar_new plugin_cache)) with plugin_cache in H.
  assert (Hs : success (worker (run (all_ok ["k3x9q_ab"]) docs_site
                          (ScrapperThread_new "OpenMutexA" 1 plugin_cache)
                          empty_disk)) = true) by (vm_compute; reflexivity).
  rewrite Hs in H. destruct H as (syn & desc & rv & Hsyn & Hdesc & Hrv & Hlab).
  rewrite Hlab. vm_compute in Hsyn, Hdesc, Hrv.
  injection Hsyn as <-. injection Hdesc as <-. injection Hrv as <-.
  reflexivity.
Defined.

(** ** The worker and unusual cache files *)

Lemma read_cache_unusable fs path :
  unusable_cache fs path -> read_cache fs path = JObj ∅.
Proof.
  unfold unusable_cache, read_cache.
  destruct (fs !! path) as [[|v]|]; [done| |done].
  unfold Py.or_else. by intros ->.
Qed.

Lemma lookup_cached_empty me : lookup_cached me (JObj ∅) = inr None.
Proof. unfold lookup_cached, Py.dict_get. by rewrite lookup_empty. Qed.

(** X12. A cache file that is missing, cannot be parsed, or holds a falsy
    document counts as an empty cache: the worker queries the site and,
    when the write goes through, the file holds exactly one entry, the
    outcome under the requested name. *)
Theorem unusable_cache_is_replaced
    (env : os_env) (net : network) (name : string) (g : Z) (path : string)
    (s : os_state) :
  PyStr.truthy name = true ->
  (forall n, path <> tmp_path path n) ->
  unusable_cache (files s) path ->
  let r := run env net (ScrapperThread_new name g path) s in
  (exists rest, requests r = GetSearch name :: rest)
  /\ match raised r with
     | None =>
         files (os_after r)
         = <[path := Doc (JObj {[ name := cache_entry (worker r) ]})]> (files s)
     | Some e => exists op, e = OSError op
     end.
Proof.
  intros Hn Hname Hbad r.
  pose proof (read_cache_unusable _ _ Hbad) as Hread.
  assert (Hmiss : lookup_cached (ScrapperThread_new name g path)
                    (read_cache (files s) path) = inr None)
    by (rewrite Hread; apply lookup_cached_empty).
  destruct (run_on_miss env net (ScrapperThread_new name g path) s Hn Hmiss)
    as (Hw & Hq & Hos & Hr).
  fold r in Hw, Hq, Hos, Hr.
  destruct (query_docs_identity net (ScrapperThread_new name g path))
    as (Hfn & Hcf & _). simpl in Hfn, Hcf.
  split; [rewrite Hq, query_docs_requests; apply scrapper_new_sends_search|].
  pose proof (write_cache_outcome env
                (snd (query_docs net (ScrapperThread_new name g path))) s ∅) as Hout.
  rewrite Hcf, Hfn in Hout. specialize (Hout Hname Hread).
  rewrite Hr, Hos, Hw.
  destruct (snd (write_cache env _ s)) as [e|u].
  - by destruct Hout as [Hop _].
  - by rewrite Hout, insert_empty.
Qed.

Lemma unusable_cache_is_replaced_witness :
  exists rest,
    requests (run (all_ok ["k3x9q_ab"]) offline
                (ScrapperThread_new "Beep" 1 plugin_cache)
                {| files := {[ plugin_cache := Doc (JArr []) ]}; trace := [] |})
    = GetSearch "Beep" :: rest.
Proof.
  refine (proj1 (unusable_cache_is_replaced (all_ok ["k3x9q_ab"]) offline "Beep" 1
            plugin_cache {| files := {[ plugin_cache := Doc (JArr []) ]}; trace := [] |}
            eq_refl plugin_cache_not_temporary _)).
  unfold unusable_cache. cbn [files]. by rewrite lookup_singleton_eq.
Defined.

(** X13. A cache file that holds a truthy JSON value other than an object
    (a non-empty list or string, a non-zero number, [true]) makes the
    worker raise [AttributeError] at its first look-up: no request is
    sent, nothing is written and the worker's fields stay as created. *)
Theorem non_object_cache_document_raises
    (env : os_env) (net : network) (name : string) (g : Z) (path : string)
    (s : os_state) (v : json) :
  PyStr.truthy name = true ->
  files s !! path = Some (Doc v) ->
  Py.truthy v = true ->
  (forall m, v <> JObj m) ->
  run env net (ScrapperThread_new name g path) s
  = {| worker := ScrapperThread_new name g path; os_after := s;
       requests := []; raised := Some AttributeError |}.
Proof.
  intros Hn Hfile Hv Hobj. unfold run. cbn [function_name cache_file ScrapperThread_new].
  rewrite Hn. cbn [negb]. unfold read_cache, Py.or_else. rewrite Hfile, Hv.
  destruct v; try done. by destruct (Hobj m).
Qed.

Lemma non_object_cache_document_raises_witness :
  raised (run (all_ok ["k3x9q_ab"]) docs_site
            (ScrapperThread_new "Beep" 1 plugin_cache) list_disk)
  = Some AttributeError.
Proof.
  rewrite (non_object_cache_document_raises (all_ok ["k3x9q_ab"]) docs_site
             "Beep" 1 plugin_cache list_disk (JArr [JStr "Beep"])).
  - reflexivity.
  - reflexivity.
  - apply lookup_singleton_eq.
  - reflexivity.
  - intros m. discriminate.
Defined.

(** X14. A lookup that returns normally leaves every other entry of the
    cache and every other file as they were. *)
Theorem lookup_preserves_other_entries
    (env : os_env) (net : network) (name : string) (g : Z) (path : string)
    (s : os_state) (m : gmap string json) :
  (forall n, path <> tmp_path path n) ->
  read_cache (files s) path = JObj m ->
  raised (run env net (ScrapperThread_new name g path) s) = None ->
  let r := run env net (ScrapperThread_new name g path) s in
  (exists m' : gmap string json,
     read_cache (files (os_after r)) path = JObj m'
     /\ forall k, k <> name -> m' !! k = m !! k)
  /\ forall p, p <> path -> files (os_after r) !! p = files s !! p.
Proof.
  intros Hname Hread Hok r. fold r in Hok.
  destruct (PyStr.truthy name) eqn:Hn.
  2:{ subst r. unfold run. cbn [function_name ScrapperThread_new]. rewrite Hn.
      cbn [negb os_after]. split; [by exists m|done]. }
  destruct (lookup_cached (ScrapperThread_new name g path)
              (read_cache (files s) path)) as [e | [a|]] eqn:Hlook.
  - exfalso. subst r. unfold run in Hok. cbn [function_name cache_file
      ScrapperThread_new] in Hok. rewrite Hn, Hlook in Hok. discriminate.
  - pose proof (run_on_hit env net (ScrapperThread_new name g path) a s Hn Hlook)
      as H1. fold r in H1. rewrite H1. cbn [os_after]. split; [by exists m|done].
  - destruct (run_on_miss env net (ScrapperThread_new name g path) s Hn Hlook)
      as (Hw & _ & Hos & Hr). fold r in Hw, Hos, Hr.
    destruct (query_docs_identity net (ScrapperThread_new name g path))
      as (Hfn & Hcf & _). simpl in Hfn, Hcf.
    pose proof (write_cache_outcome env
                  (snd (query_docs net (ScrapperThread_new name g path))) s m)
      as Hout.
    rewrite Hcf, Hfn in Hout. specialize (Hout Hname Hread).
    rewrite Hok in Hr.
    destruct (snd (write_cache env _ s)) as [e|u]; [discriminate|].
    rewrite <- Hos in Hout. rewrite Hout. split.
    + eexists. split; [apply read_cache_written|].
      intros k Hk. by rewrite lookup_insert_ne.
    + intros p Hp. by rewrite lookup_insert_ne.
Qed.

Lemma lookup_preserves_other_entries_witness :
  exists m' : gmap string json,
    read_cache (files (os_after (run (all_ok ["k3x9q_ab"]) offline
                                   (ScrapperThread_new "Beep" 1 plugin_cache)
                                   sleep_disk))) plugin_cache = JObj m'
    /\ forall k, k <> "Beep" ->
         m' !! k
         = ({[ "Sleep" := JObj {[ "found" := JBool true;
                                  "syntax" := JStr "void Sleep(DWORD dwMilliseconds);" ]} ]}
            : gmap string json) !! k.
Proof.
  refine (proj1 (lookup_preserves_other_entries (all_ok ["k3x9q_ab"]) offline
            "Beep" 1 plugin_cache sleep_disk _ plugin_cache_not_temporary _ _)).
  - vm_compute. reflexivity.
  - vm_compute. reflexivity.
Defined.

Lemma write_cache_raises env me s m e :
  (forall n, cache_file me <> tmp_path (cache_file me) n) ->
  read_cache (files s) (cache_file me) = JObj m ->
  snd (write_cache env me s) = inl e ->
  (exists op, e = OSError op /\ op <> Remove)
  /\ files (fst (write_cache env me s)) !! cache_file me = files s !! cache_file me.
Proof.
  intros Hname Hread. unfold write_cache, bind, get. rewrite Hread.
  destruct (atomic_write_json_outcome env (cache_file me)
              (JObj (<[function_name me := cache_entry me]> m)) s Hname)
    as (_ & ops & _ & _ & _ & Hout).
  destruct (snd (_atomic_write_json _ _ _ _)) as [e'|[]]; [|done].
  intros [= <-]. by destruct Hout as (Hop & Hp & _).
Qed.

Lemma lookup_cached_raises me cache e :
  lookup_cached me cache = inl e ->
  e = AttributeError /\ forall m, cache <> JObj m.
Proof.
  unfold lookup_cached.
  destruct cache as [| | | | | |m]; try (by intros [= <-]).
  destruct (Py.dict_get m (function_name me)); try discriminate.
  destruct (Py.is_False _); [discriminate|]. by destruct (Py.is_True _).
Qed.

(** X15. An exception of the scraper never leaves the worker: whatever the
    network does, a lookup whose cache is read as an object and whose write
    succeeds in each of its calls returns normally. What the worker does
    raise is either the [AttributeError] of a cache document that is not an
    object, before any request, or the exception of its own cache write
    after the query, which leaves the cache file as it was. *)
Theorem scraper_errors_never_leave_the_worker
    (env : os_env) (net : network) (name : string) (g : Z) (path : string)
    (s : os_state) :
  (forall n, path <> tmp_path path n) ->
  let r := run env net (ScrapperThread_new name g path) s in
  (forall m : gmap string json,
     read_cache (files s) path = JObj m ->
     calls_succeed env (files s) path = true ->
     raised r = None)
  /\ (forall e,
        raised r = Some e ->
        (e = AttributeError /\ requests r = [] /\ os_after r = s
         /\ forall m, read_cache (files s) path <> JObj m)
        \/ (snd (write_cache env (worker r) s) = inl e
            /\ requests r = fst (MSFTLearnScrapper_new net name)
            /\ files (os_after r) !! path = files s !! path)).
Proof.
  intros Hname r.
  destruct (PyStr.truthy name) eqn:Hn.
  2:{ subst r. unfold run. cbn [function_name ScrapperThread_new].
      rewrite Hn. cbn [negb raised]. split; [done|]. intros e [=]. }
  destruct (lookup_cached (ScrapperThread_new name g path)
              (read_cache (files s) path)) as [e' | [a|]] eqn:Hlook.
  - assert (Hr : r = {| worker := ScrapperThread_new name g path; os_after := s;
                        requests := []; raised := Some e' |}).
    { subst r. unfold run. cbn [function_name cache_file ScrapperThread_new].
      by rewrite Hn, Hlook. }
    destruct (lookup_cached_raises _ _ _ Hlook) as [-> Hno].
    rewrite Hr. cbn [raised requests os_after]. split.
    + intros m Hm _. by destruct (Hno m).
    + intros e [= <-]. left. done.
  - pose proof (run_on_hit env net (ScrapperThread_new name g path) a s
                  Hn Hlook) as H1. fold r in H1.
    rewrite H1. cbn [raised]. split; [done|]. intros e [=].
  - destruct (run_on_miss env net (ScrapperThread_new name g path) s Hn Hlook)
      as (Hw & Hq & Hos & Hr). fold r in Hw, Hq, Hos, Hr.
    destruct (lookup_cached_miss_dict _ _ Hlook) as [m Hm].
    pose proof Hlook as Hmiss. rewrite Hm in Hmiss.
    destruct (query_docs_identity net (ScrapperThread_new name g path))
      as (_ & Hcf & _). cbn [cache_file ScrapperThread_new] in Hcf.
    split.
    + intros m' _ Hc.
      by destruct (run_on_miss_by_calls env net name g path s m Hn Hname Hm Hmiss)
        as [Hgood _]; destruct (Hgood Hc).
    + intros e He. right. rewrite <- Hw in Hr, Hos.
      rewrite He in Hr.
      destruct (snd (write_cache env (worker r) s)) as [e''|u] eqn:Hwr;
        [|discriminate].
      injection Hr as ->.
      split; [done|]. split; [by rewrite Hq, query_docs_requests|].
      pose proof (write_cache_raises env (worker r) s m e'') as Hout.
      rewrite Hw, Hcf in Hout. rewrite Hw in Hwr.
      destruct (Hout Hname Hm Hwr) as [_ Hp].
      rewrite Hos, Hw. exact Hp.
Qed.

Lemma scraper_errors_never_leave_the_worker_witness :
  raised (run (all_ok ["k3x9q_ab"]) offline
            (ScrapperThread_new "Beep" 1 plugin_cache) empty_disk) = None.
Proof.
  apply (proj1 (scraper_errors_never_leave_the_worker
                  (all_ok ["k3x9q_ab"]) offline "Beep" 1 plugin_cache empty_disk
                  plugin_cache_not_temporary) ∅).
  - vm_compute. reflexivity.
  - vm_compute. reflexivity.
Defined.

Lemma head_of_bare p :
  PyStr.contains_char "/" p = false -> PosixPath.head_of p = "".
Proof.
  induction p as [|c p IH]; [done|]. simpl.
  destruct (Ascii.eqb c "/"); [done|]. intros Hp. by rewrite Hp.
Qed.

(** X16. A cache path without a directory part can never be written:
    [os.makedirs] is called with the empty path and raises, before any
    temporary file is created. A worker given such a path therefore
    raises after every query that misses and caches nothing. *)
Theorem bare_cache_path_is_never_written
    (env : os_env) (net : network) (name : string) (g : Z) (path : string)
    (obj : json) (s : os_state) :
  PyStr.contains_char "/" path = false ->
  PyStr.truthy name = true ->
  lookup_cached (ScrapperThread_new name g path) (read_cache (files s) path)
  = inr None ->
  _atomic_write_json env path obj s = (s, inl (OSError Makedirs))
  /\ raised (run env net (ScrapperThread_new name g path) s)
     = Some (OSError Makedirs)
  /\ os_after (run env net (ScrapperThread_new name g path) s) = s
  /\ requests (run env net (ScrapperThread_new name g path) s)
     = fst (MSFTLearnScrapper_new net name).
Proof.
  intros Hbare Hn Hmiss.
  assert (Hw : forall o, _atomic_write_json env path o s = (s, inl (OSError Makedirs))).
  { intros o. rewrite atomic_write_unfold. unfold PosixPath.dirname.
    by rewrite (head_of_bare path Hbare). }
  split; [apply Hw|].
  destruct (run_on_miss env net (ScrapperThread_new name g path) s Hn Hmiss)
    as (_ & Hq & Hos & Hr).
  destruct (lookup_cached_miss_dict _ _ Hmiss) as [m Hm].
  destruct (query_docs_identity net (ScrapperThread_new name g path))
    as (_ & Hcf & _). simpl in Hcf.
  assert (Hwc : write_cache env (snd (query_docs net (ScrapperThread_new name g path))) s
                = (s, inl (OSError Makedirs))).
  { unfold write_cache, bind, get. rewrite Hcf, Hm. apply Hw. }
  rewrite Hwc in Hos, Hr.
  by rewrite Hr, Hos, Hq, query_docs_requests.
Qed.

Lemma bare_cache_path_is_never_written_witness :
  raised (run (all_ok ["k3x9q_ab"]) docs_site
            (ScrapperThread_new "OpenMutexA" 1 "cache.json") empty_disk)
  = Some (OSError Makedirs).
Proof.
  exact (proj1 (proj2
    (bare_cache_path_is_never_written (all_ok ["k3x9q_ab"]) docs_site
       "OpenMutexA" 1 "cache.json" JNull empty_disk eq_refl eq_refl eq_refl))).
Defined.

(** ** The scraper: requests and pages *)

Lemma select_url_under_api_docs name results u :
  select_url name results = Some u -> SearchRule.under_api_docs u = true.
Proof.
  intros (before & res & after & _ & _ & Hacc)%select_url_some.
  unfold SearchRule.accepts in Hacc.
  destruct (SearchRule.url_of res) as [v|]; [|done].
  destruct (SearchRule.under_api_docs v) eqn:Hu; [|done].
  destruct (SearchRule.title_matches name res); [|done].
  by injection Hacc as <-.
Qed.

(** The outcomes of one [_init_from_name]: the search raised or matched
    nothing and the scraper is as before; or a page under the API
    documentation path was requested and either stored or the request
    raised. *)
Lemma init_from_name_outcomes net name s :
  (exists r, _init_from_name net name s = (add_sent [GetSearch name] s, r)
             /\ (r = inr tt \/ r = inl RequestException))
  \/ (exists u, SearchRule.under_api_docs u = true
        /\ ((exists page,
               _init_from_name net name s
               = ({| self := with_page page (self s);
                     sent := (sent s ++ [GetSearch name; GetPage u])%list |}, inr tt))
            \/ _init_from_name net name s
               = (add_sent [GetSearch name; GetPage u] s, inl RequestException))).
Proof.
  destruct (net_search net name) as [results|] eqn:Hs.
  - destruct (select_url name results) as [u|] eqn:Hsel.
    + right. exists u. split; [by eapply select_url_under_api_docs|].
      rewrite (init_from_name_match net name results s u Hs Hsel).
      destruct (net_page net u); eauto.
    + left. rewrite (init_from_name_no_match net name results s Hs Hsel). eauto.
  - left. unfold _init_from_name, search_results, send, modify, bind, raise.
    rewrite Hs. eauto.
Qed.

(** The constructor, with its sequencing written out. *)
Lemma scrapper_init_unfold net f s0 :
  MSFTLearnScrapper_init net f s0
  = match _init_from_name net f s0 with
    | (s1, inl e) => (s1, inl e)
    | (s1, inr _) =>
        if bool_decide (is_Some (soup (self s1))) then set_resolved f s1
        else if has_width_suffix f then
          match _init_from_name net (PyStr.drop_last f) s1 with
          | (s2, inl e) => (s2, inl e)
          | (s2, inr _) =>
              if bool_decide (is_Some (soup (self s2))) then
                if PyStr.endswith_char f "A"
                then set_resolved (PyStr.drop_last f ++ "W") s2
                else set_resolved f s2
              else (s2, inr tt)
          end
        else (s1, inr tt)
    end.
Proof.
  unfold MSFTLearnScrapper_init, bind, get, ret, has_width_suffix.
  destruct (_init_from_name net f s0) as [s1 [e|[]]]; [done|].
  destruct (bool_decide (is_Some (soup (self s1)))); [done|].
  destruct (PyStr.truthy f && _); [|done].
  destruct (_init_from_name net (PyStr.drop_last f) s1) as [s2 [e|[]]]; [done|].
  destruct (bool_decide (is_Some (soup (self s2)))); [|done].
  by destruct (PyStr.endswith_char f "A").
Qed.

Lemma scrapper_new_sent net f :
  fst (MSFTLearnScrapper_new net f)
  = sent (fst (MSFTLearnScrapper_init net f (new_scrapper f))).
Proof.
  unfold MSFTLearnScrapper_new.
  by destruct (MSFTLearnScrapper_init net f (new_scrapper f)) as [s [e|u]].
Qed.

Lemma set_resolved_sent r s : sent (fst (set_resolved r s)) = sent s.
Proof. reflexivity. Qed.

(** The requests one construction of the scraper sends. *)
Lemma scrapper_new_requests net f :
  fst (MSFTLearnScrapper_new net f) = [GetSearch f]
  \/ (exists u, SearchRule.under_api_docs u = true
        /\ fst (MSFTLearnScrapper_new net f) = [GetSearch f; GetPage u])
  \/ (has_width_suffix f = true
      /\ fst (MSFTLearnScrapper_new net f)
         = [GetSearch f; GetSearch (PyStr.drop_last f)])
  \/ (has_width_suffix f = true
      /\ exists u, SearchRule.under_api_docs u = true
           /\ fst (MSFTLearnScrapper_new net f)
              = [GetSearch f; GetSearch (PyStr.drop_last f); GetPage u]).
Proof.
  rewrite scrapper_new_sent, scrapper_init_unfold.
  destruct (init_from_name_outcomes net f (new_scrapper f))
    as [(r & -> & [-> | ->]) | (u & Hu & [[page ->] | ->])].
  - cbn [add_sent new_scrapper self soup sent app].
    rewrite bool_decide_eq_false_2 by (by intros [? ?]).
    destruct (has_width_suffix f) eqn:Hsuf; [|by left].
    set (s1 := add_sent [GetSearch f] (new_scrapper f)).
    destruct (init_from_name_outcomes net (PyStr.drop_last f) s1)
      as [(r & -> & [-> | ->]) | (v & Hv & [[page ->] | ->])].
    + right; right; left. split; [done|].
      cbn [add_sent s1 self soup sent app].
      by rewrite bool_decide_eq_false_2 by (by intros [? ?]).
    + right; right; left. done.
    + right; right; right. split; [done|]. exists v. split; [done|].
      cbn [with_page self soup sent s1 app].
      rewrite bool_decide_eq_true_2 by eauto.
      by destruct (PyStr.endswith_char f "A").
    + right; right; right. split; [done|]. by exists v.
  - by left.
  - right; left. exists u. split; [done|].
    cbn [with_page self soup sent new_scrapper app].
    by rewrite bool_decide_eq_true_2 by eauto.
  - right; left. by exists u.
Qed.

(** X17. One construction of the scraper sends at most three requests, in
    this order: the search for the requested name; then, only when that
    found no page and the name ends in [A] or [W], the search for the name
    without its suffix; then at most one page request, which is the last. *)
Theorem scraper_sends_at_most_three_requests (net : network) (f : string) :
  exists searches pages,
    fst (MSFTLearnScrapper_new net f) = (searches ++ pages)%list
    /\ (searches = [GetSearch f]
        \/ (has_width_suffix f = true
            /\ searches = [GetSearch f; GetSearch (PyStr.drop_last f)]))
    /\ (pages = [] \/ exists u, pages = [GetPage u]).
Proof.
  destruct (scrapper_new_requests net f)
    as [-> | [(u & _ & ->) | [(Hs & ->) | (Hs & u & _ & ->)]]].
  - exists [GetSearch f], []. repeat split; by left.
  - exists [GetSearch f], [GetPage u].
    repeat split; [by left | right; by exists u].
  - exists [GetSearch f; GetSearch (PyStr.drop_last f)], [].
    repeat split; [by right | by left].
  - exists [GetSearch f; GetSearch (PyStr.drop_last f)], [GetPage u].
    repeat split; [by right | right; by exists u].
Qed.

(** X18. The scraper never requests a page outside the API documentation
    path: every page URL it asks for contains ["/windows/win32/api/"]. *)
Theorem scraper_only_fetches_api_pages (net : network) (f u : string) :
  In (GetPage u) (fst (MSFTLearnScrapper_new net f)) ->
  PyStr.contains "/windows/win32/api/" u = true.
Proof.
  destruct (scrapper_new_requests net f)
    as [-> | [(v & Hv & ->) | [(Hs & ->) | (Hs & v & Hv & ->)]]];
    simpl; intros Hin; intuition (try discriminate); by simplify_eq.
Qed.

Lemma scraper_only_fetches_api_pages_witness :
  PyStr.contains "/windows/win32/api/" openmutexw_url = true.
Proof.
  apply (scraper_only_fetches_api_pages docs_site "OpenMutexA" openmutexw_url).
  vm_compute. right. right. left. reflexivity.
Defined.

Lemma scrapper_new_unfold net f :
  MSFTLearnScrapper_new net f
  = match MSFTLearnScrapper_init net f (new_scrapper f) with
    | (s, inl e) => (sent s, inl e)
    | (s, inr _) => (sent s, inr (self s))
    end.
Proof. reflexivity. Qed.

Lemma scrapper_new_direct_hit net f results u page :
  net_search net f = Some results ->
  select_url f results = Some u ->
  net_page net u = Some page ->
  MSFTLearnScrapper_new net f
  = ([GetSearch f; GetPage u],
     inr {| requested_name := f; resolved_name := Some f; soup := Some page;
            h2_titles := collect_paragraphs (p_tags page) |}).
Proof.
  intros Hs Hsel Hp.
  rewrite scrapper_new_unfold, scrapper_init_unfold.
  rewrite (init_from_name_match net f results _ u Hs Hsel), Hp.
  cbn [with_page self soup].
  by rewrite bool_decide_eq_true_2 by eauto.
Qed.

Lemma description_without_note f page titles check :
  get_description
    {| requested_name := f; resolved_name := Some f; soup := Some page;
       h2_titles := titles |} check
  = (if check && negb (bool_decide (is_Some (syntax_of_h2s (h2_tags page))))
     then "" else og_text page).
Proof.
  unfold get_description, get_syntax, og_text.
  cbn [soup resolved_name requested_name].
  destruct (check && _); [done|].
  by rewrite String.eqb_refl, andb_false_r.
Qed.

(** X19. When the search for the requested name itself finds a page, the
    scraper stops there: it sends the search and the page request only, the
    resolved name is the requested name, also for a name ending in [A], and
    the description carries no resolution note. *)
Theorem direct_hit_resolves_to_requested_name
    (net : network) (f : string) (results : list search_hit) (u : string)
    (page : BeautifulSoup) :
  net_search net f = Some results ->
  select_url f results = Some u ->
  net_page net u = Some page ->
  exists scr,
    MSFTLearnScrapper_new net f = ([GetSearch f; GetPage u], inr scr)
    /\ requested_name scr = f
    /\ resolved_name scr = Some f
    /\ soup scr = Some page
    /\ get_description scr false = og_text page
    /\ get_description scr true
       = (if found_function_docs scr then og_text page else "").
Proof.
  intros Hs Hsel Hp.
  rewrite (scrapper_new_direct_hit net f results u page Hs Hsel Hp).
  eexists. split; [reflexivity|]. cbn [requested_name resolved_name soup].
  repeat split; rewrite description_without_note; [done|].
  unfold found_function_docs, get_syntax. cbn [soup andb].
  by destruct (bool_decide (is_Some (syntax_of_h2s (h2_tags page)))).
Qed.

Lemma direct_hit_resolves_to_requested_name_witness :
  exists scr,
    MSFTLearnScrapper_new docs_site "OpenMutexW"
    = ([GetSearch "OpenMutexW"; GetPage openmutexw_url], inr scr)
    /\ resolved_name scr = Some "OpenMutexW"
    /\ get_description scr true = "Opens an existing named mutex object.".
Proof.
  destruct (direct_hit_resolves_to_requested_name docs_site "OpenMutexW"
              (default [] (net_search docs_site "OpenMutexW"))
              openmutexw_url openmutexw_page)
    as (scr & Hnew & _ & Hres & Hsoup & _ & Hdesc).
  - reflexivity.
  - vm_compute. reflexivity.
  - vm_compute. reflexivity.
  - exists scr. split; [exact Hnew|]. split; [exact Hres|].
    rewrite Hdesc. unfold found_function_docs, get_syntax. rewrite Hsoup.
    vm_compute. reflexivity.
Defined.

(** X20. When the search for a name that does not end in [A] or [W] finds
    no page, the scraper gives up after that one request: no second search,
    no page, no syntax, no sections, and the description is the fixed
    sentence naming the requested name, with or without the check. *)
Theorem miss_without_suffix_is_final
    (net : network) (f : string) (results : list search_hit) :
  has_width_suffix f = false ->
  net_search net f = Some results ->
  select_url f results = None ->
  exists scr,
    MSFTLearnScrapper_new net f = ([GetSearch f], inr scr)
    /\ resolved_name scr = None
    /\ found_function_docs scr = false
    /\ get_syntax scr = None
    /\ get_parameters scr = None
    /\ get_return_value scr = None
    /\ forall check,
         get_description scr check = "No Win32 docs found for " ++ f.
Proof.
  intros Hsuf Hs Hsel.
  rewrite scrapper_new_unfold, scrapper_init_unfold.
  rewrite (init_from_name_no_match net f results _ Hs Hsel).
  cbn [add_sent new_scrapper self soup].
  rewrite bool_decide_eq_false_2 by (by intros [? ?]).
  rewrite Hsuf. eexists. split; [reflexivity|].
  repeat split.
Qed.

Lemma miss_without_suffix_is_final_witness :
  exists scr,
    MSFTLearnScrapper_new docs_site "Sleep" = ([GetSearch "Sleep"], inr scr)
    /\ get_description scr true = "No Win32 docs found for Sleep".
Proof.
  destruct (miss_without_suffix_is_final docs_site "Sleep"
              (default [] (net_search docs_site "Sleep")))
    as (scr & Hnew & _ & _ & _ & _ & _ & Hdesc).
  - reflexivity.
  - reflexivity.
  - vm_compute. reflexivity.
  - exists scr. split; [exact Hnew|]. exact (Hdesc true).
Defined.

(** X21. A request that raises ends the construction of the scraper with
    that exception: whether the search for the requested name or the fetch
    of its page fails, no search for the base name follows, also for a name
    ending in [A] or [W]. *)
Theorem request_error_aborts_construction
    (net : network) (f : string) :
  (net_search net f = None
   \/ exists results u,
        net_search net f = Some results
        /\ select_url f results = Some u /\ net_page net u = None) ->
  exists reqs,
    MSFTLearnScrapper_new net f = (reqs, inl RequestException)
    /\ (reqs = [GetSearch f] \/ exists u, reqs = [GetSearch f; GetPage u]).
Proof.
  intros [Hs | (results & u & Hs & Hsel & Hp)];
    rewrite scrapper_new_unfold, scrapper_init_unfold.
  - unfold _init_from_name, search_results, send, modify, bind, raise.
    rewrite Hs. cbn [new_scrapper sent app]. eauto.
  - rewrite (init_from_name_match net f results _ u Hs Hsel), Hp.
    cbn [add_sent new_scrapper sent app]. eauto.
Qed.

Lemma request_error_aborts_construction_witness :
  exists reqs,
    MSFTLearnScrapper_new offline "OpenMutexA" = (reqs, inl RequestException)
    /\ (reqs = [GetSearch "OpenMutexA"]
        \/ exists u, reqs = [GetSearch "OpenMutexA"; GetPage u]).
Proof.
  apply (request_error_aborts_construction offline "OpenMutexA").
  left. reflexivity.
Defined.

(** ** The scraper: sections of a page *)

Lemma collect_paragraphs_from ps key (acc : gmap string (list string)) :
  fold_left
    (fun (acc : gmap string (list string)) p =>
       match p_prev_h2 p with
       | None => acc
       | Some key =>
           if negb (PyStr.truthy (p_text p)) then acc
           else <[key := (default [] (acc !! key) ++ [p_text p])%list]> acc
       end)
    ps acc !! key
  = match texts_under key ps with
    | [] => acc !! key
    | l => Some (default [] (acc !! key) ++ l)%list
    end.
Proof.
  revert acc. induction ps as [|p ps IH]; intros acc; [done|].
  cbn [fold_left]. rewrite IH. unfold texts_under. cbn [List.filter].
  destruct (p_prev_h2 p) as [k|]; [|done].
  destruct (PyStr.truthy (p_text p)) eqn:Ht; cbn [negb];
    [|by rewrite andb_false_r].
  rewrite andb_true_r.
  destruct (String.eqb k key) eqn:Hk.
  - apply String.eqb_eq in Hk as ->. rewrite lookup_insert_eq.
    cbn [map default from_option id].
    fold (texts_under key ps).
    destruct (texts_under key ps) as [|t l]; [done|].
    by rewrite <- app_assoc.
  - apply String.eqb_neq in Hk. by rewrite lookup_insert_ne.
Qed.

Lemma collect_paragraphs_lookup ps key :
  collect_paragraphs ps !! key
  = match texts_under key ps with [] => None | l => Some l end.
Proof.
  unfold collect_paragraphs. rewrite collect_paragraphs_from.
  rewrite lookup_empty. by destruct (texts_under key ps).
Qed.

(** X22. The sections of a fetched page: under a heading the scraper keeps
    the texts of the non-empty paragraphs that follow it, in document
    order, and keeps no entry for a heading without such a paragraph; the
    parameters and the return value are the entries of ["Parameters"] and
    ["Return value"], built from the page alone. *)
Theorem sections_are_nonempty_paragraphs_in_order
    (page : BeautifulSoup) (me : MSFTLearnScrapper) (key : string) :
  (collect_paragraphs (p_tags page) !! key
   = match texts_under key (p_tags page) with
     | [] => None
     | l => Some l
     end)
  /\ (forall l, collect_paragraphs (p_tags page) !! key = Some l ->
        l <> [] /\ Forall (fun t => PyStr.truthy t = true) l)
  /\ get_parameters (with_page page me)
     = collect_paragraphs (p_tags page) !! "Parameters"
  /\ get_return_value (with_page page me)
     = collect_paragraphs (p_tags page) !! "Return value".
Proof.
  split; [apply collect_paragraphs_lookup|]. split; [|done].
  intros l. rewrite collect_paragraphs_lookup.
  destruct (texts_under key (p_tags page)) as [|t l'] eqn:Ht; [done|].
  intros [= <-]. split; [done|]. rewrite <- Ht.
  unfold texts_under. apply List.Forall_forall. intros x Hin.
  apply in_map_iff in Hin as (p & <- & Hp).
  apply filter_In in Hp as (_ & Hp).
  by apply andb_true_iff in Hp as (_ & Hp).
Qed.

(** X23. What a fresh query reports for a function whose own search finds
    a page with a Syntax section: found, the text of that section, the
    page's short description without a note, and as return value the
    non-empty paragraphs under ["Return value"] joined by newlines and
    stripped, the empty string when there is none. *)
Theorem fresh_query_reports_page_sections
    (net : network) (me : ScrapperThread) (results : list search_hit)
    (u : string) (page : BeautifulSoup) (syn : string) :
  net_search net (function_name me) = Some results ->
  select_url (function_name me) results = Some u ->
  net_page net u = Some page ->
  syntax_of_h2s (h2_tags page) = Some syn ->
  query_docs net me
  = ([GetSearch (function_name me); GetPage u],
     set_outcome me true (JStr syn) (JStr (og_text page))
       (JStr (PyStr.strip
                (PyStr.join PyStr.nl
                   (texts_under "Return value" (p_tags page)))))).
Proof.
  intros Hs Hsel Hp Hsyn. unfold query_docs.
  rewrite (scrapper_new_direct_hit net _ results u page Hs Hsel Hp).
  rewrite description_without_note.
  unfold found_function_docs, get_syntax, get_return_value.
  cbn [soup h2_titles]. rewrite Hsyn.
  rewrite !bool_decide_eq_true_2 by eauto. cbn [negb orb andb default from_option id].
  rewrite collect_paragraphs_lookup.
  by destruct (texts_under "Return value" (p_tags page)).
Qed.

Lemma fresh_query_reports_page_sections_witness :
  return_value
    (snd (query_docs docs_site (ScrapperThread_new "OpenMutexW" 1 plugin_cache)))
  = JStr ("If the function succeeds, the return value is a handle to the mutex object."
          ++ PyStr.nl ++ "If the function fails, the return value is NULL.").
Proof.
  rewrite (fresh_query_reports_page_sections docs_site
             (ScrapperThread_new "OpenMutexW" 1 plugin_cache)
             (default [] (net_search docs_site "OpenMutexW"))
             openmutexw_url openmutexw_page
             "HANDLE OpenMutexW(DWORD dwDesiredAccess, BOOL bInheritHandle, LPCWSTR lpName);").
  - vm_compute. reflexivity.
  - reflexivity.
  - vm_compute. reflexivity.
  - vm_compute. reflexivity.
  - reflexivity.
Defined.

(** ** Routing selections to widgets *)

Lemma on_object_routes id f u :
  _FRAME_TO_SIDEBAR (on_object id f u) = _FRAME_TO_SIDEBAR u.
Proof. unfold on_object. by destruct (objects u !! id). Qed.

Lemma on_object_lookup id f u j :
  objects (on_object id f u) !! j
  = (if bool_decide (j = id)
     then (fun w => {| _frame := _frame w; widget := f (widget w) |})
            <$> objects u !! j
     else objects u !! j).
Proof.
  unfold on_object. destruct (decide (j = id)) as [->|Hne].
  - rewrite bool_decide_eq_true_2 by done.
    destruct (objects u !! id) as [w|] eqn:Hw; cbn [objects].
    + rewrite list_lookup_insert_eq; [done|].
      by eapply lookup_lt_Some.
    + done.
  - rewrite bool_decide_eq_false_2 by done.
    destruct (objects u !! id) as [w|] eqn:Hw; cbn [objects]; [|done].
    by rewrite list_lookup_insert_ne.
Qed.

Lemma on_object_length id f u :
  length (objects (on_object id f u)) = length (objects u).
Proof.
  unfold on_object. destruct (objects u !! id); cbn [objects]; [|done].
  by rewrite length_insert.
Qed.

Lemma on_object_routes_to_own_frame id f u :
  routes_to_own_frame u -> routes_to_own_frame (on_object id f u).
Proof.
  intros Hu frame j. rewrite on_object_routes, on_object_lookup.
  intros (w & Hw & Hf)%Hu. rewrite Hw. case_bool_decide; eauto.
Qed.

Lemma ui_step_routes_to_own_frame path u ev :
  routes_to_own_frame u -> routes_to_own_frame (ui_step path u ev).
Proof.
  intros Hu.
  destruct ev as [fr | id | fr | fr sel | id | id c | id]; cbn [ui_step];
    try by apply on_object_routes_to_own_frame.
  - intros frame j. unfold createWidget. cbn [objects _FRAME_TO_SIDEBAR].
    destruct (decide (fr = frame)) as [->|Hne].
    + rewrite lookup_insert_eq. intros [= <-].
      exists {| _frame := frame; widget := WinDocSidebar_new path |}.
      split; [|reflexivity].
      rewrite lookup_app_r by done. by rewrite Nat.sub_diag.
    + rewrite lookup_insert_ne by done. intros (w & Hw & Hf)%Hu.
      exists w. split; [|done]. rewrite lookup_app_l; [done|].
      by eapply lookup_lt_Some.
  - unfold WinDocSidebar_del. destruct (objects u !! id) as [w|]; [|done].
    case_bool_decide; [|done].
    intros frame j. cbn [objects _FRAME_TO_SIDEBAR].
    intros [_ Hj]%lookup_delete_Some. by apply Hu.
  - intros frame j. cbn [objects _FRAME_TO_SIDEBAR].
    intros [_ Hj]%lookup_delete_Some. by apply Hu.
  - unfold dispatch_xref_selection.
    destruct (_FRAME_TO_SIDEBAR u !! fr); [|done].
    by apply on_object_routes_to_own_frame.
Qed.

Lemma ui_run_routes_to_own_frame path evs u :
  routes_to_own_frame u -> routes_to_own_frame (ui_run path u evs).
Proof.
  revert u. induction evs as [|ev evs IH]; intros u Hu; [done|].
  apply IH. by apply ui_step_routes_to_own_frame.
Qed.

(** X24. In every state a session can reach, reporting a selection for a
    frame either changes nothing, or runs [on_xref_selection] on exactly
    one widget, one that was created for that frame: every other widget
    and the routing table stay as they are. *)
Theorem selection_reaches_only_the_widget_of_its_frame
    (path : string) (evs : list ui_event) (frame : nat)
    (selection : xref_selection) :
  let u := ui_run path no_widgets evs in
  dispatch_xref_selection frame selection u = u
  \/ exists id w,
       objects u !! id = Some w
       /\ _frame w = frame
       /\ dispatch_xref_selection frame selection u
          = {| objects :=
                 <[id := {| _frame := frame;
                            widget := on_xref_selection selection (widget w) |}]>
                   (objects u);
               _FRAME_TO_SIDEBAR := _FRAME_TO_SIDEBAR u |}.
Proof.
  intros u.
  assert (Hu : routes_to_own_frame u).
  { apply ui_run_routes_to_own_frame. intros f j.
    unfold no_widgets. cbn [_FRAME_TO_SIDEBAR]. by rewrite lookup_empty. }
  unfold dispatch_xref_selection.
  destruct (_FRAME_TO_SIDEBAR u !! frame) as [id|] eqn:Hr; [|by left].
  destruct (Hu frame id Hr) as (w & Hw & Hf).
  right. exists id, w. split; [done|]. split; [done|].
  unfold on_object. by rewrite Hw, Hf.
Qed.

Lemma on_object_unrouted id f j u :
  unrouted j u -> unrouted j (on_object id f u).
Proof. intros Hu frame. rewrite on_object_routes. apply Hu. Qed.

(** A widget no frame is routed to stays so, and its own events start no
    lookup. *)
Lemma ui_step_unrouted path u ev id w :
  objects u !! id = Some w ->
  unrouted id u ->
  exists w',
    objects (ui_step path u ev) !! id = Some w'
    /\ unrouted id (ui_step path u ev)
    /\ _frame w' = _frame w
    /\ _req_id (widget w') = _req_id (widget w)
    /\ started (widget w') = started (widget w).
Proof.
  intros Hw Hu.
  assert (Hown : forall j e,
    is_selection e = false ->
    exists w',
      objects (on_object j (fun st => step st e) u) !! id = Some w'
      /\ unrouted id (on_object j (fun st => step st e) u)
      /\ _frame w' = _frame w
      /\ _req_id (widget w') = _req_id (widget w)
      /\ started (widget w') = started (widget w)).
  { intros j e He. rewrite on_object_lookup, Hw.
    case_bool_decide; cbn [fmap option_fmap option_map].
    - eexists. split; [reflexivity|]. split; [by apply on_object_unrouted|].
      cbn [_frame widget].
      destruct (step_other (widget w) e He) as (-> & -> & _). done.
    - exists w. split; [done|]. split; [by apply on_object_unrouted|]. done. }
  destruct ev as [fr | j | fr | fr sel | j | j c | j]; cbn [ui_step];
    try (by apply Hown).
  - exists w. unfold createWidget. cbn [objects _FRAME_TO_SIDEBAR].
    pose proof (lookup_lt_Some _ _ _ Hw) as Hlt.
    split; [by rewrite lookup_app_l|]. split; [|done].
    intros frame. cbn [_FRAME_TO_SIDEBAR].
    destruct (decide (fr = frame)) as [->|Hne].
    + rewrite lookup_insert_eq. intros [= <-]. lia.
    + rewrite lookup_insert_ne by done. apply Hu.
  - exists w. unfold WinDocSidebar_del.
    destruct (objects u !! j) as [wj|]; [|done].
    case_bool_decide; [|done]. cbn [objects _FRAME_TO_SIDEBAR].
    split; [done|]. split; [|done].
    intros frame. cbn [_FRAME_TO_SIDEBAR].
    intros [_ Hr]%lookup_delete_Some. by apply (Hu frame).
  - exists w. cbn [objects _FRAME_TO_SIDEBAR]. split; [done|]. split; [|done].
    intros frame. cbn [_FRAME_TO_SIDEBAR].
    intros [_ Hr]%lookup_delete_Some. by apply (Hu frame).
  - exists w. unfold dispatch_xref_selection.
    destruct (_FRAME_TO_SIDEBAR u !! fr) as [j|] eqn:Hr; [|done].
    rewrite on_object_lookup, Hw.
    rewrite bool_decide_eq_false_2 by (intros ->; by apply (Hu fr)).
    split; [done|]. split; [by apply on_object_unrouted|]. done.
Qed.

(** X25. A widget that has lost its route never gets it back: once no
    frame is routed to it, whatever happens afterwards (widgets created for
    the same frame, selections, timers, workers finishing) no selection
    reaches it, so its generation stays where it was and it starts no
    further lookup. *)
Theorem unrouted_widget_receives_no_selection
    (path : string) (evs : list ui_event) (u : ui_state) (id : nat)
    (w : sidebar_object) :
  objects u !! id = Some w ->
  unrouted id u ->
  exists w',
    objects (ui_run path u evs) !! id = Some w'
    /\ unrouted id (ui_run path u evs)
    /\ _req_id (widget w') = _req_id (widget w)
    /\ started (widget w') = started (widget w).
Proof.
  revert u w. induction evs as [|ev evs IH]; intros u w Hw Hu.
  - exists w. done.
  - destruct (ui_step_unrouted path u ev id w Hw Hu)
      as (w1 & Hw1 & Hu1 & _ & Hreq & Hst).
    destruct (IH _ w1 Hw1 Hu1) as (w' & Hw' & Hu' & Hreq' & Hst').
    exists w'. cbn [ui_run fold_left]. split; [exact Hw'|].
    split; [exact Hu'|]. split; congruence.
Qed.

Lemma unrouted_widget_receives_no_selection_witness :
  exists w',
    objects (ui_run plugin_cache
               (ui_run plugin_cache no_widgets [WidgetCreated 7; WidgetCreated 7])
               [OnNewSelectionForXref 7 (imported "Sleep"); TimerOf 0;
                OnNewSelectionForXref 7 (imported "Sleep")]) !! 0%nat = Some w'
    /\ _req_id (widget w') = 0
    /\ started (widget w') = [].
Proof.
  destruct (unrouted_widget_receives_no_selection plugin_cache
              [OnNewSelectionForXref 7 (imported "Sleep"); TimerOf 0;
               OnNewSelectionForXref 7 (imported "Sleep")]
              (ui_run plugin_cache no_widgets [WidgetCreated 7; WidgetCreated 7])
              0 {| _frame := 7; widget := WinDocSidebar_new plugin_cache |})
    as (w' & Hw' & _ & Hreq & Hst).
  - reflexivity.
  - intros frame. cbn [ui_run fold_left ui_step createWidget no_widgets objects
                       _FRAME_TO_SIDEBAR length app].
    rewrite insert_insert_eq.
    destruct (decide (frame = 7%nat)) as [->|Hne].
    + by rewrite lookup_insert_eq.
    + rewrite lookup_insert_ne by done. by rewrite lookup_empty.
  - exists w'. split; [exact Hw'|]. split; [exact Hreq | exact Hst].
Defined.

(** X26. Finalising a widget removes the route of its frame whoever holds
    it: after [__del__] of a widget created for a frame, a selection
    reported for that frame reaches no widget, also when a later widget had
    taken over the frame in the meantime. *)
Theorem finalising_a_widget_unroutes_its_frame
    (u : ui_state) (id : nat) (w : sidebar_object)
    (selection : xref_selection) :
  objects u !! id = Some w ->
  _FRAME_TO_SIDEBAR (WinDocSidebar_del id u) !! _frame w = None
  /\ objects (WinDocSidebar_del id u) = objects u
  /\ dispatch_xref_selection (_frame w) selection (WinDocSidebar_del id u)
     = WinDocSidebar_del id u.
Proof.
  intros Hw.
  assert (Hr : _FRAME_TO_SIDEBAR (WinDocSidebar_del id u) !! _frame w = None).
  { unfold WinDocSidebar_del. rewrite Hw. case_bool_decide as Hin.
    - cbn [_FRAME_TO_SIDEBAR]. apply lookup_delete_eq.
    - destruct (_FRAME_TO_SIDEBAR u !! _frame w) eqn:E; [|done].
      exfalso. apply Hin. eauto. }
  split; [exact Hr|]. split.
  - unfold WinDocSidebar_del. rewrite Hw. by case_bool_decide.
  - unfold dispatch_xref_selection. by rewrite Hr.
Qed.

Lemma finalising_a_widget_unroutes_its_frame_witness :
  let u := ui_run plugin_cache no_widgets [WidgetCreated 7; WidgetCreated 7] in
  _FRAME_TO_SIDEBAR u !! 7%nat = Some 1%nat
  /\ dispatch_xref_selection 7 (imported "Sleep") (WinDocSidebar_del 0 u)
     = WinDocSidebar_del 0 u.
Proof.
  intros u. split; [vm_compute; reflexivity|].
  apply (finalising_a_widget_unroutes_its_frame u 0
           {| _frame := 7; widget := WinDocSidebar_new plugin_cache |}).
  reflexivity.
Defined.

(** ** Loading the plugin *)

Lemma load_plugin_again h :
  has_notification_attr h = true ->
  load_plugin h
  = {| has_notification_attr := true; notifications := notifications h;
       widget_types := S (widget_types h) |}.
Proof. unfold load_plugin. cbn. by intros ->. Qed.

Lemma loads_from_fresh_host n :
  Nat.iter (S n) load_plugin fresh_host
  = {| has_notification_attr := true; notifications := 1;
       widget_types := S n |}.
Proof.
  induction n as [|n IH]; [done|].
  change (Nat.iter (S (S n)) load_plugin fresh_host)
    with (load_plugin (Nat.iter (S n) load_plugin fresh_host)).
  by rewrite IH, load_plugin_again.
Qed.

(** X27. However often the module body runs in one session, it registers
    the selection notification once: after any number of loads a reported
    selection is dispatched exactly once. The sidebar widget type, which
    has no such guard, is added on every load. *)
Theorem reloading_registers_one_notification
    (n : nat) (frame : nat) (selection : xref_selection) (u : ui_state) :
  let h := Nat.iter (S n) load_plugin fresh_host in
  notifications h = 1%nat
  /\ widget_types h = S n
  /\ report_selection h frame selection u
     = dispatch_xref_selection frame selection u.
Proof.
  intros h. unfold h, report_selection. rewrite loads_from_fresh_host. done.
Qed.
